(** * SourceIO: shader construction and Source 1 model import

    A shallow embedding of
    - [blender_bindings/material_loader/shaders/source2_shaders/vr_generic.py]
      ([VRGeneric.create_nodes]),
    - [blender_bindings/source1/mdl/v49/import_mdl.py]
      ([create_armature], [import_model], [create_flex_drivers],
      [create_attachments], [import_materials]) and
    - [source_shared/app_id.py] ([SteamAppId]).

    Conventions.
    - numpy / Python floats are idealised as rationals ([Q]); comparisons
      are the boolean comparisons of [QArith].  Where numpy would leave the
      rationals (division by zero yields inf or nan) the model stops with
      [NonFinite].  The blend weights of lines 231-238 are given a second
      time in module [Single], with the rounding of single-precision
      arithmetic and with NaN.
    - Python exceptions are values of [PyError]; a routine that can raise
      returns a [Result].
    - The host (Blender) object model is represented by plain records that
      keep what the import code writes into it.  Of the mesh, the model
      keeps geometry, faces, material slot names, UV layers, vertex groups,
      shape keys, flex controllers, drivers and the generated script;
      normals, smoothing flags, per-polygon material indices, custom
      properties other than the two recorded, body groups and bone pose
      matrices are left out.
    - Code of the repository that is not in this development (the file
      parsers, [get_slice], [merge_meshes], the flex expression classes,
      the material loader, ...) is a field of the class [External]. *)

From Stdlib Require Import QArith Qround Qabs Lqa ZArith String Ascii List Lia.
From stdpp Require Import base option list gmap strings.

Set Warnings "-register-all".
Local Open Scope string_scope.
Local Open Scope list_scope.

(** ** Python-level helpers *)

Module Py.

Inductive PyError :=
| IndexError
| KeyError (key : string)
| TypeError
| ValueError
| StopIteration
| AssertionError
| NotImplementedError (msg : string)
| NonFinite.

Inductive Result (A : Type) :=
| Ok (a : A)
| Raise (e : PyError).
Arguments Ok {A} a.
Arguments Raise {A} e.

Definition rbind {A B} (r : Result A) (k : A -> Result B) : Result B :=
  match r with
  | Ok a => k a
  | Raise e => Raise e
  end.

Definition of_option {A} (e : PyError) (o : option A) : Result A :=
  match o with
  | Some a => Ok a
  | None => Raise e
  end.

(** [for x in l: acc = f acc x], stopping at the first exception. *)
Fixpoint rfold {A B} (f : B -> A -> Result B) (l : list A) (acc : B) : Result B :=
  match l with
  | [] => Ok acc
  | x :: l' => rbind (f acc x) (rfold f l')
  end.

(** [[f x for x in l]], stopping at the first exception. *)
Fixpoint rmap {A B} (f : A -> Result B) (l : list A) : Result (list B) :=
  match l with
  | [] => Ok []
  | x :: l' => rbind (f x) (fun y => rbind (rmap f l') (fun ys => Ok (y :: ys)))
  end.

(** [s[-n:]] for [n > 0]: the last [n] characters, or all of [s]. *)
Definition last_chars (n : nat) (s : string) : string :=
  String.substring (String.length s - n) n s.

(** [sub in s] *)
Fixpoint contains (sub s : string) : bool :=
  String.prefix sub s ||
  match s with
  | EmptyString => false
  | String _ t => contains sub t
  end.

(** [s.replace(old, new)] for a non-empty [old]: occurrences are replaced
    left to right without overlap; [skip] counts the characters of a
    matched occurrence still to be dropped. *)
Fixpoint replace_from (skip : nat) (old new s : string) : string :=
  match s with
  | EmptyString => EmptyString
  | String c t =>
      match skip with
      | S k => replace_from k old new t
      | O =>
          if String.prefix old s
          then new ++ replace_from (String.length old - 1) old new t
          else String c (replace_from O old new t)
      end
  end.

Definition replace (old new s : string) : string := replace_from O old new s.

(** [s.split(c)] for a one-character separator. *)
Fixpoint split (c : ascii) (s : string) : list string :=
  match s with
  | EmptyString => [EmptyString]
  | String a t =>
      if Ascii.eqb a c then EmptyString :: split c t
      else match split c t with
           | h :: r => String a h :: r
           | [] => [String a EmptyString]
           end
  end.

(** [sep.join(items)] on a list of [str]. *)
Fixpoint join (sep : string) (items : list string) : string :=
  match items with
  | [] => EmptyString
  | [x] => x
  | x :: rest => x ++ sep ++ join sep rest
  end.

(** [x in l] on strings. *)
Definition mem (x : string) (l : list string) : bool :=
  existsb (String.eqb x) l.

(** numpy fancy indexing [a[idx]]: a fresh array; an index out of range
    raises. *)
Definition gather {A} (a : list A) (idx : list nat) : Result (list A) :=
  rmap (fun i => of_option IndexError (a !! i)) idx.

(** [l[i]] on a Python list: negative indices count from the end. *)
Definition index {A} (l : list A) (i : Z) : Result A :=
  let n := Z.of_nat (length l) in
  if (0 <=? i)%Z then of_option IndexError (l !! Z.to_nat i)
  else if (0 <=? n + i)%Z then of_option IndexError (l !! Z.to_nat (n + i))
  else Raise IndexError.

Definition Qlt_bool (a b : Q) : bool := negb (Qle_bool b a).

Definition qmax (a b : Q) : Q := if Qle_bool a b then b else a.
Definition qmin (a b : Q) : Q := if Qle_bool a b then a else b.

(** [np.clip(a, lo, hi)], that is [minimum(maximum(a, lo), hi)]. *)
Definition clip (a lo hi : Q) : Q := qmin (qmax a lo) hi.

(** [sum(l)] *)
Definition qsum (l : list Q) : Q := fold_left Qplus l 0%Q.

End Py.

Import Py.

#[global] Instance result_ret : MRet Result := @Ok.
#[global] Instance result_bind : MBind Result := fun A B k r => rbind r k.

(** ** vr_generic.py: the [VRGeneric] shader *)

Module VRGeneric.

(** The node classes of [Nodes] that [create_nodes] instantiates. *)
Inductive Nodes :=
| ShaderNodeOutputMaterial
| ShaderNodeBsdfPrincipled
| ShaderNodeTexImage
| ShaderNodeMixRGB
| ShaderNodeNormalMap.

#[global] Instance Nodes_eq_dec : EqDecision Nodes.
Proof. solve_decision. Defined.

(** A four-component vector parameter such as [g_vColorTint]. *)
Record Vector4 := { v0 : Q; v1 : Q; v2 : Q; v3 : Q }.

(** What can be stored in an input socket's [default_value]. *)
Inductive SocketValue :=
| VFloat (q : Q)
| VColor (c : Vector4).

Record Node := {
  node_type : Nodes;
  node_name : option string;
  blend_type : option string;
  image : option string;
  default_values : list (string * SocketValue)
}.

(** A link from output socket [from_socket] of node [from_node] to input
    socket [to_socket] of node [to_node]; nodes are named by their position
    in the tree. *)
Record Link := {
  from_node : nat; from_socket : string;
  to_node : nat; to_socket : string
}.

(** The host material: its node tree and the two settings written here. *)
Record BpyMaterial := {
  nodes : list Node;
  links : list Link;
  blend_method : string;
  shadow_method : string
}.

(** The values of the properties of [VRGeneric] that [create_nodes] reads. *)
Record Shader := {
  color_texture : option string;
  normal_texture : option string;
  color : Vector4;
  alpha_test : Z;
  metalness : Z;
  translucent : Z;
  specular : Q;
  roughness : Q
}.

Definition SHADER : string := "vr_standard.vfx".

(** Host calls, as state passing over the material. *)
Definition M (A : Type) : Type := BpyMaterial -> A * BpyMaterial.

Definition ret {A} (a : A) : M A := fun m => (a, m).
Definition bind {A B} (c : M A) (k : A -> M B) : M B :=
  fun m => let (a, m') := c m in k a m'.

Definition create_node (ty : Nodes) (name : option string) : M nat :=
  fun m =>
    (length (nodes m),
     {| nodes := nodes m ++ [ {| node_type := ty; node_name := name;
                                 blend_type := None; image := None;
                                 default_values := [] |} ];
        links := links m;
        blend_method := blend_method m;
        shadow_method := shadow_method m |}).

Definition update_node (n : nat) (f : Node -> Node) : M unit :=
  fun m =>
    (tt, {| nodes := alter f n (nodes m); links := links m;
            blend_method := blend_method m;
            shadow_method := shadow_method m |}).

Definition set_image (n : nat) (img : option string) : M unit :=
  update_node n (fun nd =>
    {| node_type := node_type nd; node_name := node_name nd;
       blend_type := blend_type nd; image := img;
       default_values := default_values nd |}).

Definition set_blend_type (n : nat) (bt : string) : M unit :=
  update_node n (fun nd =>
    {| node_type := node_type nd; node_name := node_name nd;
       blend_type := Some bt; image := image nd;
       default_values := default_values nd |}).

(** [node.inputs[socket].default_value = v] *)
Definition set_default (n : nat) (socket : string) (v : SocketValue) : M unit :=
  update_node n (fun nd =>
    {| node_type := node_type nd; node_name := node_name nd;
       blend_type := blend_type nd; image := image nd;
       default_values := (socket, v) :: default_values nd |}).

Definition connect_nodes (src : nat * string) (dst : nat * string) : M unit :=
  fun m =>
    (tt, {| nodes := nodes m;
            links := links m ++ [ {| from_node := src.1; from_socket := src.2;
                                     to_node := dst.1; to_socket := dst.2 |} ];
            blend_method := blend_method m;
            shadow_method := shadow_method m |}).

Definition set_hashed : M unit :=
  fun m =>
    (tt, {| nodes := nodes m; links := links m;
            blend_method := "HASHED"; shadow_method := "HASHED" |}).

(** Python truth value of an [int] flag. *)
Definition truthy (z : Z) : bool := negb (z =? 0)%Z.

Definition neq1 (q : Q) : bool := negb (Qeq_bool q 1).

(** [sum(color)] *)
Definition color_sum (c : Vector4) : Q := qsum [v0 c; v1 c; v2 c; v3 c].

(** [list(np.divide(color, 255))] *)
Definition divide255 (c : Vector4) : Vector4 :=
  {| v0 := v0 c / 255; v1 := v1 c / 255; v2 := v2 c / 255; v3 := v3 c / 255 |}.

(** The tint branch, lines 78-89. *)
Definition tint_nodes (self : Shader) (albedo_node shader : nat) : M unit :=
  if neq1 (v0 (color self)) && neq1 (v1 (color self)) && neq1 (v2 (color self))
  then
    bind (create_node ShaderNodeMixRGB None) (fun color_mix =>
    bind (set_blend_type color_mix "MULTIPLY") (fun _ =>
    bind (connect_nodes (albedo_node, "Color") (color_mix, "Color1")) (fun _ =>
    let color0 := color self in
    let color' := if Qlt_bool 3 (color_sum color0) then divide255 color0 else color0 in
    bind (set_default color_mix "Color2" (VColor color')) (fun _ =>
    bind (set_default color_mix "Fac" (VFloat 1)) (fun _ =>
    connect_nodes (color_mix, "Color") (shader, "Base Color"))))))
  else
    connect_nodes (albedo_node, "Color") (shader, "Base Color").

(** The alpha branch, lines 91-96. *)
Definition alpha_nodes (self : Shader) (albedo_node shader : nat) : M unit :=
  if truthy (translucent self) || truthy (alpha_test self) then
    bind set_hashed (fun _ =>
    connect_nodes (albedo_node, "Alpha") (shader, "Alpha"))
  else if truthy (metalness self) then
    connect_nodes (albedo_node, "Alpha") (shader, "Metallic")
  else ret tt.

(** [create_nodes]; [status] is what [super().create_nodes(material_name)]
    returned (the base class is not part of this development). *)
Definition create_nodes (self : Shader) (status : string) : M unit :=
  if mem status ["UNKNOWN"; "LOADED"] then ret tt
  else
    bind (create_node ShaderNodeOutputMaterial None) (fun material_output =>
    bind (create_node ShaderNodeBsdfPrincipled (Some SHADER)) (fun shader =>
    bind (connect_nodes (shader, "BSDF") (material_output, "Surface")) (fun _ =>
    bind (set_default shader "Roughness" (VFloat (roughness self))) (fun _ =>
    bind (set_default shader "Specular" (VFloat (specular self))) (fun _ =>
    bind (create_node ShaderNodeTexImage (Some "albedo")) (fun albedo_node =>
    bind (set_image albedo_node (color_texture self)) (fun _ =>
    bind (tint_nodes self albedo_node shader) (fun _ =>
    bind (alpha_nodes self albedo_node shader) (fun _ =>
    bind (create_node ShaderNodeTexImage (Some "normal")) (fun normal_map_texture =>
    bind (set_image normal_map_texture (normal_texture self)) (fun _ =>
    bind (create_node ShaderNodeNormalMap None) (fun normalmap_node =>
    bind (connect_nodes (normal_map_texture, "Color") (normalmap_node, "Color")) (fun _ =>
    connect_nodes (normalmap_node, "Normal") (shader, "Normal")))))))))))))).

(** A host material whose node tree is empty. *)
Definition empty_material (blend shadow : string) : BpyMaterial :=
  {| nodes := []; links := []; blend_method := blend; shadow_method := shadow |}.

Definition build (self : Shader) (status : string) (m : BpyMaterial) : BpyMaterial :=
  (create_nodes self status m).2.

End VRGeneric.

(** ** import_mdl.py: data consumed from the parsers *)

Module ImportMdl.

(** A row of three floats (a position or a flex delta). *)
Record Vector3 := { vx : Q; vy : Q; vz : Q }.

Definition scale3 (v : Vector3) (k : Q) : Vector3 :=
  {| vx := vx v * k; vy := vy v * k; vz := vz v * k |}.

Definition add3 (a b : Vector3) : Vector3 :=
  {| vx := vx a + vx b; vy := vy a + vy b; vz := vz a + vz b |}.

(** One entry of the vertex buffer ([vvd.lod_data[lod]]). *)
Record Vertex := {
  vertex : Vector3;
  normal : Vector3;
  uv : Q * Q;
  bone_id : list nat;
  weight : list Q
}.

Record Bone := { bone_name : string; parent_bone_index : Z }.

Record Material := { material_name : string }.

Record Eyeball := { eyeball_material : Material }.

Record Flex := { flex_desc_index : Z; partner_index : Z }.

Record Mesh := { flexes : list Flex }.

Record Model := {
  model_name : string;
  vertex_count : nat;
  vertex_offset : nat;
  meshes : list Mesh
}.

Record BodyPart := { body_part_name : string; models : list Model }.

Record Attachment := { attachment_name : string; parent_bone : Z }.

Record FlexController := { fc_name : string; fc_min : Q; fc_max : Q }.

(** A UI controller; [nway_controller] is the empty string when there is
    none (a falsy value in the source). *)
Record FlexUIController := {
  ui_name : string;
  nway_controller : string;
  stereo : bool;
  left_controller : string;
  right_controller : string;
  controller : string
}.

(** Flex expressions.  [Combo] and [FetchController] are the two classes
    this file instantiates; [Rule] stands for an expression delivered by
    [mdl.rebuild_flex_rules()]. *)
Inductive Expr :=
| Combo (values : list Expr)
| FetchController (name : string)
| Rule (text : string).

(** An expression input: [(name, fetch kind)]. *)
Definition Input : Type := string * string.

Record MdlV49 := {
  header_name : string;
  header_flags : Z;
  bones : list Bone;
  materials : list Material;
  materials_paths : list string;
  eyeballs : list Eyeball;
  body_parts : list BodyPart;
  attachments : list Attachment;
  flex_names : list string;
  flex_controllers : list FlexController;
  flex_ui_controllers : list FlexUIController;
  skin_groups : list (list string);
  (** the result of [rebuild_flex_rules()], in dictionary order *)
  flex_rules : list (string * (Expr * list Input))
}.

(** [vvd]: the vertices of the selected LOD, the extra data (a dictionary
    from extra type name to a flat array), and the cache of per-flex vertex
    deltas built by [VertexAnimationCache]. *)
Record Vvd := {
  lod_data : list Vertex;
  extra_data : list (string * list Q);
  vertex_cache : gmap string (list Vector3)
}.

(** ** Host objects written by the import *)

Record EditBone := { bl_name : string; bl_parent : option nat }.

Record Armature := { armature_name : string; armature_bones : list EditBone }.

(** A vertex group and the [add([n], weight, 'REPLACE')] calls it received. *)
Record VertexGroup := { vg_name : string; vg_added : list (nat * Q) }.

Record UVLayer := { uv_layer_name : option string; uv_layer_data : list (Q * Q) }.

Record ShapeKey := {
  sk_name : string;
  sk_co : list Vector3;
  sk_driver : option string
}.

(** An entry of [data.flex_controllers] ([SourceIO_PG_FlexController]). *)
Record PGController := {
  pg_name : string;
  pg_stereo : bool;
  pg_mode : Z;
  pg_value_min : Q;
  pg_value_max : Q
}.

Record MeshObject := {
  object_name : string;
  mesh_data_name : string;
  is_copy : bool;
  armature_modifier : bool;
  geometry : list Vector3;
  faces : list (list nat);
  material_slots : list string;
  uv_layers : list UVLayer;
  vertex_groups : list VertexGroup;
  shape_keys : list ShapeKey;
  pg_controllers : list PGController;
  prop_unique_material_names : bool;
  prop_path : string
}.

Record Empty := { empty_name : string; child_of : option string }.

Record Container := {
  container_armature : option Armature;
  container_objects : list MeshObject;
  container_attachments : list Empty;
  (** [bpy.data.texts] entries written by [create_flex_drivers]: file name
      and the definitions appended after the fixed helper preamble *)
  container_texts : list (string * list string);
  container_warnings : list string
}.

(** The part of the host that [import_materials] touches:
    [bpy.data.materials] with the [source1_loaded] property of each
    material, the class-level flag set by [Source1ShaderBase.use_bvlg], the
    logger, and the [Source1MaterialLoader(path, name).create_material()]
    calls made. *)
Record BlMaterial := { source1_loaded : bool }.

Record Host := {
  host_materials : gmap string BlMaterial;
  host_use_bvlg : bool;
  host_log : list string;
  host_created : list (string * string)
}.

(** ** Collaborators outside this file *)

Class External := {
  (** [StudioHDRFlags.STATIC_PROP] *)
  STATIC_PROP : Z;
  (** [Path(name).stem] of pathlib *)
  path_stem : string -> string;
  (** [get_slice(data, start, count)] of [..common] *)
  get_slice : forall A : Type, list A -> nat -> nat -> list A;
  (** the LOD records of the vtx file *)
  VtxLod : Type;
  (** [merge_meshes(model, lod)] of [..common]: vertex remap, triangle
      indices and per-triangle material indices *)
  merge_meshes : Model -> VtxLod -> list nat * list nat * list nat;
  (** [bpy.data.objects.get(name)] together with
      [bpy.data.meshes.get(mesh name)]: the object to copy when both exist *)
  lookup_original : string -> string -> option MeshObject;
  (** [str(expr)] and [bool(expr)] of the flex expression classes *)
  expr_str : Expr -> string;
  expr_bool : Expr -> bool;
  (** the entry returned by [data.flex_controllers.add()] *)
  pg_new : PGController;
  (** [cont.set_from_controller(controller)] *)
  set_from_controller : PGController -> FlexController -> PGController;
  (** [globals()] of the module, as the names bound in it *)
  module_globals : list string;
  (** [content_manager.find_material(Path(mat_path) / name)] *)
  find_material : string -> string -> option string;
  (** what [Source1MaterialLoader(path, name).create_material()] does to
      [bpy.data.materials] *)
  create_material : string -> string -> gmap string BlMaterial -> gmap string BlMaterial
}.

Record VtxModel `{External} := { model_lods : list VtxLod }.
Record VtxBodyPart `{External} := { vtx_models : list VtxModel }.

(** ** Operations *)

Section Operations.
Context `{External}.

Local Open Scope Q_scope.

(** *** Names *)

(** The name under which a material is registered (lines 174-178 and
    464-467): with [unique_material_names] the model's base name is put in
    front, and the last 63 characters are kept. *)
Definition mat_name_of (unique_material_names : bool) (mdl : MdlV49) (name : string) : string :=
  if unique_material_names
  then last_chars 63 (path_stem (header_name mdl) ++ "_" ++ last_chars 63 name)
  else last_chars 63 name.

(** *** create_armature *)

(** The edit bones created by [create_armature]: one per bone, named by the
    last 63 characters of the bone's name, parented by index.  The pose
    matrices are not part of the model. *)
Definition create_armature (mdl : MdlV49) : Result Armature :=
  let model_name := path_stem (header_name mdl) in
  let bl_bones := map (fun bone => last_chars 63 (bone_name bone)) (bones mdl) in
  edit_bones ← rmap (fun '(name, s_bone) =>
      if negb (parent_bone_index s_bone =? -1)%Z
      then parent ← index (seq 0 (length bl_bones)) (parent_bone_index s_bone);
           Ok {| bl_name := name; bl_parent := Some parent |}
      else Ok {| bl_name := name; bl_parent := None |})
    (zip bl_bones (bones mdl));
  Ok {| armature_name := model_name ++ "_ARM"; armature_bones := edit_bones |}.

(** *** UV layers *)

(** [uvs[:, 1] = 1 - uvs[:, 1]] *)
Definition flip_v (uvs : list (Q * Q)) : list (Q * Q) :=
  map (fun p => (p.1, 1 - p.2)) uvs.

(** [a.reshape((-1, 2))] of a flat array. *)
Fixpoint reshape2 (a : list Q) : Result (list (Q * Q)) :=
  match a with
  | [] => Ok []
  | u :: v :: rest => rows ← reshape2 rest; Ok ((u, v) :: rows)
  | [_] => Raise ValueError
  end.

(** [a.reshape((-1, 3))] of a flat index array. *)
Fixpoint reshape3 (a : list nat) : Result (list (list nat)) :=
  match a with
  | [] => Ok []
  | i :: j :: k :: rest => rows ← reshape3 rest; Ok ([i; j; k] :: rows)
  | _ => Raise ValueError
  end.

(** The primary UV layer (lines 186-189); [vertex_indices] is the vertex
    index of every loop of the mesh. *)
Definition primary_uv_layer (vertices : list Vertex) (vertex_indices : list nat)
  : Result UVLayer :=
  let uvs := flip_v (map uv vertices) in
  data ← gather uvs vertex_indices;
  Ok {| uv_layer_name := None; uv_layer_data := data |}.

(** One extra UV layer (lines 193-198). *)
Definition extra_uv_layer (model : Model) (vtx_vertices vertex_indices : list nat)
    (extra : string * list Q) : Result UVLayer :=
  extra_data ← reshape2 extra.2;
  let extra_uv := get_slice _ extra_data (vertex_offset model) (vertex_count model) in
  extra_uv ← gather extra_uv vtx_vertices;
  let extra_uv := flip_v extra_uv in
  data ← gather extra_uv vertex_indices;
  Ok {| uv_layer_name := Some extra.1; uv_layer_data := data |}.

(** *** Vertex groups *)

(** [{bone.name: mesh_obj.vertex_groups.new(name=bone.name) for bone in
    mdl.bones}] on an object without vertex groups: the groups in creation
    order and the dictionary from bone name to group. *)
Definition new_vertex_groups (mdl : MdlV49) : list VertexGroup :=
  map (fun bone => {| vg_name := bone_name bone; vg_added := [] |}) (bones mdl).

Definition weight_groups (mdl : MdlV49) : gmap string nat :=
  foldl (fun d ib => <[bone_name ib.2 := ib.1]> d) ∅
        (zip (seq 0 (length (bones mdl))) (bones mdl)).

(** [group.add([n], weight, 'REPLACE')] *)
Definition vg_add (n : nat) (w : Q) (g : VertexGroup) : VertexGroup :=
  {| vg_name := vg_name g; vg_added := vg_added g ++ [(n, w)] |}.

(** Lines 204-207, for one influence of vertex [n]. *)
Definition add_influence (mdl : MdlV49) (n : nat)
    (groups : list VertexGroup) (bw : nat * Q) : Result (list VertexGroup) :=
  if Qlt_bool 0 bw.2 then
    bone ← of_option IndexError (bones mdl !! bw.1);
    g ← of_option (KeyError (bone_name bone)) (weight_groups mdl !! bone_name bone);
    Ok (alter (vg_add n bw.2) g groups)
  else Ok groups.

(** Lines 203-207. *)
Definition add_vertex (mdl : MdlV49) (groups : list VertexGroup) (nv : nat * Vertex)
  : Result (list VertexGroup) :=
  rfold (add_influence mdl nv.1) (zip (bone_id nv.2) (weight nv.2)) groups.

(** Lines 200-207. *)
Definition build_vertex_groups (mdl : MdlV49) (vertices : list Vertex)
  : Result (list VertexGroup) :=
  rfold (add_vertex mdl) (zip (seq 0 (length vertices)) vertices) (new_vertex_groups mdl).

(** *** Shape keys *)

(** [mesh_obj.shape_key_add(name=name)]: a new key holding the mesh
    coordinates. *)
Definition shape_key_add (name : string) (co : list Vector3) (keys : list ShapeKey)
  : list ShapeKey * nat :=
  (keys ++ [ {| sk_name := name; sk_co := co; sk_driver := None |} ], length keys).

Fixpoint find_key (name : string) (keys : list ShapeKey) (i : nat) : option nat :=
  match keys with
  | [] => None
  | k :: rest => if String.eqb (sk_name k) name then Some i else find_key name rest (S i)
  end.

(** [key_blocks.get(name, None) or mesh_obj.shape_key_add(name=name)] *)
Definition get_or_add (name : string) (co : list Vector3) (keys : list ShapeKey)
  : list ShapeKey * nat :=
  match find_key name keys O with
  | Some i => (keys, i)
  | None => shape_key_add name co keys
  end.

(** [key.data.foreach_set("co", co)] *)
Definition set_co (i : nat) (co : list Vector3) (keys : list ShapeKey) : list ShapeKey :=
  alter (fun k => {| sk_name := sk_name k; sk_co := co; sk_driver := sk_driver k |}) i keys.

(** [a.max()] and [a.min()] over all entries of an array of rows. *)
Definition entries (a : list Vector3) : list Q :=
  flat_map (fun v => [vx v; vy v; vz v]) a.

Definition array_max (a : list Vector3) : Result Q :=
  match entries a with
  | [] => Raise ValueError
  | e :: rest => Ok (fold_left qmax rest e)
  end.

Definition array_min (a : list Vector3) : Result Q :=
  match entries a with
  | [] => Raise ValueError
  | e :: rest => Ok (fold_left qmin rest e)
  end.

(** Line 232. *)
Definition balance_width (model_vertices : list Vector3) : Result Q :=
  mx ← array_max model_vertices;
  mn ← array_min model_vertices;
  Ok ((mx - mn) * (1 - ((993 # 10) / 100))).

(** Line 233, for one vertex with X coordinate [b]. *)
Definition balance_at (width b : Q) : Q :=
  clip ((- b / width / 2) + (1 # 2)) 0 1.

(** Lines 231-233: the weight of every vertex.  With a zero width numpy
    divides by zero. *)
Definition balance (model_vertices : list Vector3) : Result (list Q) :=
  width ← balance_width model_vertices;
  if Qeq_bool width 0 then Raise NonFinite
  else Ok (map (fun v => balance_at width (vx v)) model_vertices).

(** Line 238. *)
Definition p_balance (balance : list Q) : list Q := map (fun b => 1 - b) balance.

(** [(flex_delta * w[:, None]) + model_vertices] *)
Definition blend (flex_delta : list Vector3) (w : list Q) (model_vertices : list Vector3)
  : list Vector3 :=
  zip_with (fun dw m => add3 (scale3 dw.1 dw.2) m) (zip flex_delta w) model_vertices.

(** Python truth value of [flex_desc.partner_index]. *)
Definition has_partner (flex_desc : Flex) : bool := negb (partner_index flex_desc =? 0)%Z.

(** Lines 218-245: one flex of a sub-model. *)
Definition add_flex (mdl : MdlV49) (vvd : Vvd) (scale : Q) (create_drivers : bool)
    (model : Model) (vtx_vertices : list nat) (base_co : list Vector3)
    (keys : list ShapeKey) (flex : string * Flex) : Result (list ShapeKey) :=
  let flex_name := flex.1 in
  let flex_desc := flex.2 in
  vertex_animation ← of_option (KeyError flex_name) (vertex_cache vvd !! flex_name);
  let flex_delta := get_slice _ vertex_animation (vertex_offset model) (vertex_count model) in
  flex_delta ← gather flex_delta vtx_vertices;
  let flex_delta := map (fun d => scale3 d scale) flex_delta in
  let model_vertices :=
    get_slice _ (map vertex (lod_data vvd)) (vertex_offset model) (vertex_count model) in
  model_vertices ← gather model_vertices vtx_vertices;
  let model_vertices := map (fun v => scale3 v scale) model_vertices in
  if create_drivers && has_partner flex_desc then
    partner_name ← index (flex_names mdl) (partner_index flex_desc);
    let '(keys, partner_shape_key) := get_or_add partner_name base_co keys in
    let '(keys, shape_key) := get_or_add flex_name base_co keys in
    bal ← balance model_vertices;
    let flex_vertices := blend flex_delta bal model_vertices in
    let keys := set_co shape_key flex_vertices keys in
    let p_flex_vertices := blend flex_delta (p_balance bal) model_vertices in
    Ok (set_co partner_shape_key p_flex_vertices keys)
  else
    let '(keys, shape_key) := get_or_add flex_name base_co keys in
    Ok (set_co shape_key (zip_with add3 flex_delta model_vertices) keys).

(** Lines 210-213. *)
Definition collect_flexes (mdl : MdlV49) (model : Model) : Result (list (string * Flex)) :=
  rfold (fun acc mesh =>
           named ← rmap (fun flex =>
                           name ← index (flex_names mdl) (flex_desc_index flex);
                           Ok (name, flex)) (flexes mesh);
           Ok (acc ++ named))
        (meshes model) [].

(** *** create_flex_drivers *)

Definition dq : string := String (ascii_of_nat 34) EmptyString.
Definition nl : string := String (ascii_of_nat 10) EmptyString.

(** [st = '\n    '] *)
Definition st : string := nl ++ "    ".

(** [_parse_simple_flex], lines 263-267; [controllers] is
    [data.flex_controllers] at the time of the call. *)
Definition _parse_simple_flex (controllers : list PGController) (missing_flex_name : string)
  : option (Expr * list Input) :=
  let flexes := split "_" missing_flex_name in
  if negb (forallb (fun flex => existsb (fun c => String.eqb (pg_name c) flex) controllers)
                   flexes)
  then None
  else Some (Combo (map FetchController flexes), map (fun flex => (flex, "fetch2")) flexes).

(** [next(filter(lambda a: a.name == name, mdl.flex_controllers))] *)
Definition next_controller (mdl : MdlV49) (name : string) : Result FlexController :=
  of_option StopIteration
    (List.find (fun a => String.eqb (fc_name a) name) (flex_controllers mdl)).

Definition with_name_stereo (c : PGController) (name : string) (stereo : bool) : PGController :=
  {| pg_name := name; pg_stereo := stereo; pg_mode := pg_mode c;
     pg_value_min := pg_value_min c; pg_value_max := pg_value_max c |}.

(** Lines 271-298, for one UI controller. *)
Definition add_ui_controller (mdl : MdlV49) (controllers : list PGController)
    (flex_controller_ui : FlexUIController) : Result (list PGController) :=
  nway ← (if negb (String.eqb (nway_controller flex_controller_ui) "")
          then multi_controller ← next_controller mdl (nway_controller flex_controller_ui);
               Ok [set_from_controller
                     (with_name_stereo pg_new (nway_controller flex_controller_ui) false)
                     multi_controller]
          else Ok []);
  cont ← (if stereo flex_controller_ui
          then left ← next_controller mdl (left_controller flex_controller_ui);
               right ← next_controller mdl (right_controller flex_controller_ui);
               if negb (Qeq_bool (fc_max left) (fc_max right)) then Raise AssertionError
               else if negb (Qeq_bool (fc_min left) (fc_min right)) then Raise AssertionError
               else Ok (set_from_controller
                          (with_name_stereo pg_new (ui_name flex_controller_ui) true) left)
          else c ← next_controller mdl (controller flex_controller_ui);
               Ok (set_from_controller
                     (with_name_stereo pg_new (ui_name flex_controller_ui) false) c));
  Ok (controllers ++ [cont] ++ nway).

(** Lines 360-375: the definition emitted for one expression input. *)
Definition input_definition (inp : Input) : Result string :=
  let input_name := inp.1 in
  if mem inp.2 ["fetch1"; "2WAY1"; "2WAY0"; "NWAY"; "DUE"] then
    if contains "left_" input_name then
      Ok (replace " " "_" inp.1 +:+ " = obj_data.flex_controllers[" +:+ dq
          +:+ replace "left_" "" input_name +:+ dq +:+ "].value_left")
    else if contains "right_" input_name then
      Ok (replace " " "_" inp.1 +:+ " = obj_data.flex_controllers[" +:+ dq
          +:+ replace "right_" "" input_name +:+ dq +:+ "].value_right")
    else
      Ok (replace " " "_" inp.1 +:+ " = obj_data.flex_controllers[" +:+ dq
          +:+ inp.1 +:+ dq +:+ "].value")
  else if String.eqb inp.2 "fetch2" then
    Ok (replace " " "_" inp.1 +:+ " = obj_data.shape_keys.key_blocks[" +:+ dq
        +:+ input_name +:+ dq +:+ "].value")
  else Raise (NotImplementedError (dq +:+ inp.2 +:+ dq +:+ " is not supported")).

(** Lines 358-375: the loop over the inputs of one rule. *)
Definition input_definitions (inputs : list Input) : Result (list string) :=
  rmap input_definition inputs.

Definition driver_template (driver_name body expr : string) : string :=
  nl ++ "def " ++ driver_name ++ "(obj_data):" ++ nl
  ++ "    " ++ body ++ nl
  ++ "    return " ++ expr ++ nl
  ++ "bpy.app.driver_namespace[" ++ dq ++ driver_name ++ dq ++ "] = " ++ driver_name ++ nl
  ++ nl.

(** Lines 353-384, for one compiled rule; [blender_py_file] is kept as the
    list of definitions appended to the fixed preamble. *)
Definition add_rule (blender_py_file : list string) (rule : string * (Expr * list Input))
  : Result (list string) :=
  let flex_name := rule.1 in
  let expr := rule.2.1 in
  let inputs := rule.2.2 in
  let driver_name := replace " " "_" (flex_name ++ "_driver") in
  if mem driver_name module_globals then Ok blender_py_file
  else
    defs ← input_definitions inputs;
    Ok (blender_py_file ++ [driver_template driver_name (join st defs) (expr_str expr)]).

Record DriverState := {
  ds_controllers : list PGController;
  ds_script : list string;
  ds_warnings : list string;
  ds_keys : list ShapeKey
}.

(** [st.join(inputs)] where the items of [inputs] are tuples: [str.join]
    raises [TypeError] at the first item that is not a [str]. *)
Definition join_inputs (sep : string) (inputs : list Input) : Result string :=
  match inputs with
  | [] => Ok EmptyString
  | _ :: _ => Raise TypeError
  end.

Definition identity_template (flex_name : string) : string :=
  let name := replace " " "_" flex_name in
  nl ++ "def " ++ name ++ "_driver(obj_data):" ++ nl
  ++ "    return obj_data.flex_controllers[" ++ dq ++ flex_name ++ dq ++ "].value" ++ nl
  ++ "bpy.app.driver_namespace[" ++ dq ++ name ++ "_driver" ++ dq ++ "] = "
  ++ name ++ "_driver" ++ nl
  ++ nl ++ "                                ".

(** Lines 392-417: the rule generated for a shape key without a compiled
    rule. *)
Definition basic_rule (flex_name : string) (s : DriverState) : Result DriverState :=
  let warnings1 :=
    ds_warnings s ++ ["Rule for " +:+ flex_name +:+ " not found! Generating basic rule."] in
  match _parse_simple_flex (ds_controllers s) flex_name with
  | Some (expr, inputs) =>
      if negb (expr_bool expr) || match inputs with [] => true | _ => false end
      then
        Ok {| ds_controllers :=
                ds_controllers s ++
                  [ {| pg_name := flex_name; pg_stereo := pg_stereo pg_new; pg_mode := 1;
                       pg_value_min := 0; pg_value_max := 1 |} ];
              ds_script := ds_script s ++ [identity_template flex_name];
              ds_warnings :=
                warnings1 ++ ["Failed to generate basic rule for " +:+ flex_name +:+ "!"];
              ds_keys := ds_keys s |}
      else
        body ← join_inputs st inputs;
        Ok {| ds_controllers := ds_controllers s;
              ds_script :=
                ds_script s ++
                  [driver_template (replace " " "_" flex_name +:+ "_driver") body
                     (expr_str expr) +:+ "                "];
              ds_warnings := warnings1;
              ds_keys := ds_keys s |}
  | None =>
      Ok {| ds_controllers :=
              ds_controllers s ++
                [ {| pg_name := flex_name; pg_stereo := pg_stereo pg_new; pg_mode := 1;
                     pg_value_min := 0; pg_value_max := 1 |} ];
            ds_script := ds_script s ++ [identity_template flex_name];
            ds_warnings :=
              warnings1 ++ ["Failed to generate basic rule for " +:+ flex_name +:+ "!"];
            ds_keys := ds_keys s |}
  end.

(** Lines 386-430, for one shape key. *)
Definition drive_key (all_exprs : list (string * (Expr * list Input)))
    (s : DriverState) (shape_key : ShapeKey) : Result DriverState :=
  let flex_name := sk_name shape_key in
  if String.eqb flex_name "base" then
    Ok {| ds_controllers := ds_controllers s; ds_script := ds_script s;
          ds_warnings := ds_warnings s; ds_keys := ds_keys s ++ [shape_key] |}
  else
    s ← (if negb (mem flex_name (map fst all_exprs)) then basic_rule flex_name s else Ok s);
    Ok {| ds_controllers := ds_controllers s; ds_script := ds_script s;
          ds_warnings := ds_warnings s;
          ds_keys := ds_keys s ++
            [ {| sk_name := sk_name shape_key; sk_co := sk_co shape_key;
                 sk_driver := Some (replace " " "_" flex_name +:+ "_driver(obj_data)") |} ] |}.

(** [create_flex_drivers]: the object with its controllers and drivers, the
    text block written, and the warnings. *)
Definition create_flex_drivers (obj : MeshObject) (mdl : MdlV49)
  : Result (MeshObject * option (string * list string) * list string) :=
  match shape_keys obj with
  | [] => Ok (obj, None, [])
  | _ :: _ =>
      let all_exprs := flex_rules mdl in
      controllers ← rfold (add_ui_controller mdl) (flex_ui_controllers mdl) (pg_controllers obj);
      blender_py_file ← rfold add_rule all_exprs [];
      s ← rfold (drive_key all_exprs) (shape_keys obj)
            {| ds_controllers := controllers; ds_script := blender_py_file;
               ds_warnings := []; ds_keys := [] |};
      Ok ({| object_name := object_name obj; mesh_data_name := mesh_data_name obj;
             is_copy := is_copy obj; armature_modifier := armature_modifier obj;
             geometry := geometry obj; faces := faces obj;
             material_slots := material_slots obj; uv_layers := uv_layers obj;
             vertex_groups := vertex_groups obj; shape_keys := ds_keys s;
             pg_controllers := ds_controllers s;
             prop_unique_material_names := prop_unique_material_names obj;
             prop_path := prop_path obj |},
          Some (header_name mdl +:+ ".py", ds_script s),
          ds_warnings s)
  end.

(** *** import_model *)

(** [np.unique] of an index array: sorted, without repetitions. *)
Fixpoint insert_unique (i : nat) (l : list nat) : list nat :=
  match l with
  | [] => [i]
  | j :: rest =>
      if (i <? j)%nat then i :: l
      else if (i =? j)%nat then l
      else j :: insert_unique i rest
  end.

Definition unique (l : list nat) : list nat := foldr insert_unique [] l.

(** Lines 172-179: the names handed to [get_material], in order. *)
Definition material_names (mdl : MdlV49) (unique_material_names : bool)
    (material_indices_array : list nat) : Result (list string) :=
  match material_indices_array with
  | [] => Raise ValueError
  | _ :: _ =>
      rmap (fun mat_id =>
              mat ← of_option IndexError (materials mdl !! mat_id);
              Ok (mat_name_of unique_material_names mdl (material_name mat)))
           (unique material_indices_array)
  end.

(** A text block and warnings produced while importing. *)
Definition Extras : Type := list (string * list string) * list string.

(** Lines 158-247: the body of the loop for a mesh that is not a copy. *)
Definition author_mesh (mdl : MdlV49) (vvd : Vvd) (scale : Q)
    (create_drivers unique_material_names static_prop : bool)
    (vtx_model : VtxModel) (model : Model) (mesh_obj : MeshObject)
  : Result (MeshObject * Extras) :=
  let all_vertices := lod_data vvd in
  let model_vertices := get_slice _ all_vertices (vertex_offset model) (vertex_count model) in
  lod ← of_option IndexError (model_lods vtx_model !! O);
  let '(vtx_vertices, indices_array, material_indices_array) := merge_meshes model lod in
  vertices ← gather model_vertices vtx_vertices;
  let vertices_vertex := map vertex vertices in
  let co := map (fun v => scale3 v scale) vertices_vertex in
  triangles ← reshape3 (rev indices_array);
  slots ← material_names mdl unique_material_names material_indices_array;
  (* [mesh_data.loops.foreach_get('vertex_index', ...)]: the loops of the
     mesh built by [from_pydata], face after face *)
  let vertex_indices := concat triangles in
  uv_data ← primary_uv_layer vertices vertex_indices;
  extra ← rmap (extra_uv_layer model vtx_vertices vertex_indices) (extra_data vvd);
  groups ← (if negb static_prop then build_vertex_groups mdl vertices else Ok []);
  kd ←
    ((if negb static_prop then
       flexes ← collect_flexes mdl model;
       match flexes with
       | [] => Ok ([], false)
       | _ :: _ =>
           keys ← rfold (add_flex mdl vvd scale create_drivers model vtx_vertices co)
                    flexes (shape_key_add "base" co []).1;
           Ok (keys, create_drivers)
       end
      else Ok ([], false)) : Result (list ShapeKey * bool));
  let keys := kd.1 in
  let drivers : bool := kd.2 in
  let mesh_obj :=
    {| object_name := object_name mesh_obj; mesh_data_name := mesh_data_name mesh_obj;
       is_copy := is_copy mesh_obj; armature_modifier := armature_modifier mesh_obj;
       geometry := co; faces := triangles; material_slots := slots;
       uv_layers := uv_data :: extra; vertex_groups := groups; shape_keys := keys;
       pg_controllers := pg_controllers mesh_obj;
       prop_unique_material_names := prop_unique_material_names mesh_obj;
       prop_path := prop_path mesh_obj |} in
  if drivers then
    driven ← create_flex_drivers mesh_obj mdl;
    Ok (driven.1.1, (match driven.1.2 with Some t => [t] | None => [] end, driven.2))
  else Ok (mesh_obj, ([], [])).

(** Lines 117-153: the object created or copied for a sub-model. *)
Definition mesh_object_for (mdl : MdlV49) (re_use_meshes unique_material_names static_prop : bool)
    (body_part : BodyPart) (model : Model) : MeshObject * bool :=
  let mesh_name := (body_part_name body_part ++ "_" ++ model_name model)%string in
  let fresh :=
    {| object_name := mesh_name; mesh_data_name := (mesh_name ++ "_MESH")%string;
       is_copy := false; armature_modifier := negb static_prop;
       geometry := []; faces := []; material_slots := []; uv_layers := [];
       vertex_groups := []; shape_keys := []; pg_controllers := [];
       prop_unique_material_names := unique_material_names;
       prop_path := path_stem (header_name mdl) |} in
  if re_use_meshes then
    match lookup_original mesh_name
            (header_name mdl ++ "_" ++ mesh_name ++ "_MESH")%string with
    | Some original =>
        ({| object_name := object_name original;
            mesh_data_name := mesh_data_name original;
            is_copy := true;
            armature_modifier := negb static_prop || armature_modifier original;
            geometry := geometry original; faces := faces original;
            material_slots := material_slots original; uv_layers := uv_layers original;
            vertex_groups := vertex_groups original; shape_keys := shape_keys original;
            pg_controllers := pg_controllers original;
            prop_unique_material_names := unique_material_names;
            prop_path := path_stem (header_name mdl) |}, true)
    | None => (fresh, false)
    end
  else (fresh, false).

Definition add_object (c : Container) (obj : MeshObject) (e : Extras) : Container :=
  {| container_armature := container_armature c;
     container_objects := container_objects c ++ [obj];
     container_attachments := container_attachments c;
     container_texts := container_texts c ++ e.1;
     container_warnings := container_warnings c ++ e.2 |}.

(** Lines 115-247: one sub-model. *)
Definition import_sub_model (mdl : MdlV49) (vvd : Vvd) (scale : Q)
    (create_drivers re_use_meshes unique_material_names static_prop : bool)
    (body_part : BodyPart) (c : Container) (vm : VtxModel * Model) : Result Container :=
  let vtx_model := vm.1 in
  let model := vm.2 in
  if (vertex_count model =? 0)%nat then Ok c
  else
    let '(mesh_obj, used_copy) :=
      mesh_object_for mdl re_use_meshes unique_material_names static_prop body_part model in
    if used_copy then Ok (add_object c mesh_obj ([], []))
    else
      authored ← author_mesh mdl vvd scale create_drivers unique_material_names
                    static_prop vtx_model model mesh_obj;
      Ok (add_object c authored.1 authored.2).

(** [create_attachments] *)
Definition create_attachments (mdl : MdlV49) (is_armature : bool) : Result (list Empty) :=
  rmap (fun attachment =>
          if is_armature then
            bone ← index (bones mdl) (parent_bone attachment);
            Ok {| empty_name := attachment_name attachment;
                  child_of := Some (bone_name bone) |}
          else Ok {| empty_name := attachment_name attachment; child_of := None |})
       (attachments mdl).

Definition is_static_prop (mdl : MdlV49) : bool :=
  negb (Z.land (header_flags mdl) STATIC_PROP =? 0)%Z.

(** [import_model]; the three files are given parsed. *)
Definition import_model (mdl : MdlV49) (vvd : Vvd) (vtx : list VtxBodyPart)
    (scale : Q) (create_drivers re_use_meshes unique_material_names : bool)
  : Result Container :=
  let static_prop := is_static_prop mdl in
  armature ← (if negb static_prop then a ← create_armature mdl; Ok (Some a) else Ok None);
  let container :=
    {| container_armature := armature; container_objects := [];
       container_attachments := []; container_texts := []; container_warnings := [] |} in
  container ←
    rfold (fun c (bp : VtxBodyPart * BodyPart) =>
             rfold (import_sub_model mdl vvd scale create_drivers re_use_meshes
                      unique_material_names static_prop bp.2)
                   (zip (vtx_models bp.1) (models bp.2)) c)
          (zip vtx (body_parts mdl)) container;
  match attachments mdl with
  | [] => Ok container
  | _ :: _ =>
      _ ← (if negb static_prop then Ok tt
           else _ ← of_option IndexError (container_objects container !! O); Ok tt);
      created ← create_attachments mdl (negb static_prop);
      Ok {| container_armature := container_armature container;
            container_objects := container_objects container;
            container_attachments := container_attachments container ++ created;
            container_texts := container_texts container;
            container_warnings := container_warnings container |}
  end.

(** *** import_materials *)

(** Lines 477-481: the first material path under which the material is
    found. *)
Fixpoint find_material_path (paths : list string) (name : string) : option string :=
  match paths with
  | [] => None
  | mat_path :: rest =>
      match find_material mat_path name with
      | Some material_path => Some material_path
      | None => find_material_path rest name
      end
  end.

(** Lines 473-476: the material exists in the host and is flagged loaded. *)
Definition already_loaded (h : Host) (mat_name : string) : bool :=
  match host_materials h !! mat_name with
  | Some m => source1_loaded m
  | None => false
  end.

(** The body of the loop of [import_materials] for one material.  The
    eyeball found in lines 468-471 selects between two identical calls and
    is left out. *)
Definition import_material (mdl : MdlV49) (unique_material_names use_bvlg : bool)
    (h : Host) (material : Material) : Host :=
  let mat_name := mat_name_of unique_material_names mdl (material_name material) in
  if already_loaded h mat_name then
    {| host_materials := host_materials h;
       host_use_bvlg := host_use_bvlg h;
       host_log := host_log h
                   ++ ["Skipping loading of " +:+ mat_name +:+ " as it already loaded"];
       host_created := host_created h |}
  else
    match find_material_path (materials_paths mdl) (material_name material) with
    | Some material_path =>
        {| host_materials := create_material material_path mat_name (host_materials h);
           host_use_bvlg := use_bvlg;
           host_log := host_log h;
           host_created := host_created h ++ [(material_path, mat_name)] |}
    | None => h
    end.

Definition import_materials (mdl : MdlV49) (unique_material_names use_bvlg : bool)
    (h : Host) : Host :=
  foldl (import_material mdl unique_material_names use_bvlg) h (materials mdl).

End Operations.

End ImportMdl.

(** ** Observations used in the statements *)

Module Observe.
Import VRGeneric.

(** [super().create_nodes] did not answer ['UNKNOWN'] or ['LOADED']. *)
Definition proceeds (status : string) : Prop := mem status ["UNKNOWN"; "LOADED"] = false.

(** Nodes and links added to [m] by a run that ended in [m']. *)
Definition new_nodes (m m' : BpyMaterial) : list Node := drop (length (nodes m)) (nodes m').
Definition new_links (m m' : BpyMaterial) : list Link := drop (length (links m)) (links m').

Definition is_mix (nd : Node) : bool := bool_decide (node_type nd = ShaderNodeMixRGB).

Definition pure_white (c : Vector4) : Prop :=
  (v0 c == 1 /\ v1 c == 1 /\ v2 c == 1 /\ v3 c == 1)%Q.

Definition link (src : nat * string) (dst : nat * string) : Link :=
  {| from_node := src.1; from_socket := src.2; to_node := dst.1; to_socket := dst.2 |}.

(** The material [m] extended by nodes [ns] and links [ls]. *)
Definition ext (b : list Node) (l : list Link) (ns : list Node) (ls : list Link)
    (bm sm : string) : BpyMaterial :=
  {| nodes := b ++ ns; links := l ++ ls; blend_method := bm; shadow_method := sm |}.

(** The value written to [Color2]. *)
Definition tint_value (self : Shader) : Vector4 :=
  if Qlt_bool 3 (color_sum (color self)) then divide255 (color self) else color self.

Definition mix_node (self : Shader) : Node :=
  {| node_type := ShaderNodeMixRGB; node_name := None; blend_type := Some "MULTIPLY";
     image := None;
     default_values := [("Fac", VFloat 1); ("Color2", VColor (tint_value self))] |}.

Definition rgb_all_differ (self : Shader) : bool :=
  neq1 (v0 (color self)) && neq1 (v1 (color self)) && neq1 (v2 (color self)).

Definition opacity (self : Shader) : bool :=
  truthy (translucent self) || truthy (alpha_test self).

Definition output_node : Node :=
  {| node_type := ShaderNodeOutputMaterial; node_name := None; blend_type := None;
     image := None; default_values := [] |}.

Definition shader_node (self : Shader) : Node :=
  {| node_type := ShaderNodeBsdfPrincipled; node_name := Some SHADER; blend_type := None;
     image := None;
     default_values := [("Specular", VFloat (specular self));
                        ("Roughness", VFloat (roughness self))] |}.

Definition albedo_node (self : Shader) : Node :=
  {| node_type := ShaderNodeTexImage; node_name := Some "albedo"; blend_type := None;
     image := color_texture self; default_values := [] |}.

Definition normal_nodes (self : Shader) : list Node :=
  [ {| node_type := ShaderNodeTexImage; node_name := Some "normal"; blend_type := None;
       image := normal_texture self; default_values := [] |};
    {| node_type := ShaderNodeNormalMap; node_name := None; blend_type := None;
       image := None; default_values := [] |} ].

(** The nodes and links [create_nodes] adds, and the blend settings it
    leaves, for a tree that had [n] nodes. *)
Definition added_nodes (self : Shader) : list Node :=
  [output_node; shader_node self; albedo_node self]
  ++ (if rgb_all_differ self then [mix_node self] else [])
  ++ normal_nodes self.

Definition tint_links (self : Shader) (n : nat) : list Link :=
  if rgb_all_differ self
  then [link (n + 2, "Color") (n + 3, "Color1"); link (n + 3, "Color") (n + 1, "Base Color")]
  else [link (n + 2, "Color") (n + 1, "Base Color")].

Definition alpha_links (self : Shader) (n : nat) : list Link :=
  if opacity self then [link (n + 2, "Alpha") (n + 1, "Alpha")]
  else if truthy (metalness self) then [link (n + 2, "Alpha") (n + 1, "Metallic")]
  else [].

Definition normal_links (self : Shader) (n : nat) : list Link :=
  let k := if rgb_all_differ self then 4 else 3 in
  [link (n + k, "Color") (n + S k, "Color"); link (n + S k, "Normal") (n + 1, "Normal")].

Definition added_links (self : Shader) (n : nat) : list Link :=
  [link (n + 1, "BSDF") (n, "Surface")] ++ tint_links self n ++ alpha_links self n
  ++ normal_links self n.

(** [node.inputs[socket].default_value] as last written. *)
Definition default_value (socket : string) (nd : Node) : option SocketValue :=
  snd <$> List.find (fun p => String.eqb p.1 socket) (default_values nd).

Section ImportObservations.
Import ImportMdl.
Context `{External}.

(** [obj] is the result of the authoring part of the loop body (lines
    158-247) for the sub-model [model], gathered through [vtx_vertices] into
    [vertices], with loops over [vertex_indices]. *)
Definition authored (mdl : MdlV49) (vvd : Vvd) (scale : Q)
    (create_drivers unique_material_names : bool)
    (model : Model) (vtx_vertices vertex_indices : list nat) (vertices : list Vertex)
    (obj : MeshObject) : Prop :=
  exists vtx_model lod indices_array material_indices_array triangles mesh_obj e,
    model_lods vtx_model !! O = Some lod /\
    merge_meshes model lod = (vtx_vertices, indices_array, material_indices_array) /\
    gather (get_slice _ (lod_data vvd) (vertex_offset model) (vertex_count model))
           vtx_vertices = Ok vertices /\
    reshape3 (rev indices_array) = Ok triangles /\
    vertex_indices = concat triangles /\
    is_copy mesh_obj = false /\
    author_mesh mdl vvd scale create_drivers unique_material_names (is_static_prop mdl)
                vtx_model model mesh_obj = Ok (obj, e).


(** Every object of the container is a copy of an existing object or was
    authored from a sub-model. *)
Definition traced (mdl : MdlV49) (vvd : Vvd) (scale : Q) (cd un : bool)
    (obj : MeshObject) : Prop :=
  is_copy obj = true \/
  (is_copy obj = false /\
   exists model vtx_vertices vertex_indices vertices,
     authored mdl vvd scale cd un model vtx_vertices vertex_indices vertices obj).

(** Vertex [n] of [vertices] carries weight [w] for bone [b] in one of its
    influence slots. *)
Definition influence (vertices : list Vertex) (b n : nat) (w : Q) : Prop :=
  exists v k, vertices !! n = Some v /\ bone_id v !! k = Some b /\ weight v !! k = Some w.

(** Bones [b] and [j] of the skeleton bear the same name. *)
Definition same_name (mdl : MdlV49) (b j : nat) : Prop :=
  exists bone bone_j,
    bones mdl !! b = Some bone /\ bones mdl !! j = Some bone_j /\
    bone_name bone = bone_name bone_j.

(** What holds of the vertex groups while the weights are added. *)
Definition groups_ok (mdl : MdlV49) (vertices : list Vertex) (groups : list VertexGroup)
  : Prop :=
  map vg_name groups = map bone_name (bones mdl) /\
  forall j g n w,
    groups !! j = Some g -> (n, w) ∈ vg_added g ->
    (0 < w)%Q /\ exists b, influence vertices b n w /\ same_name mdl b j.

(** The fetch kinds handled by lines 361-373. *)
Definition supported (kind : string) : bool :=
  mem kind ["fetch1"; "2WAY1"; "2WAY0"; "NWAY"; "DUE"] || String.eqb kind "fetch2".

Definition not_supported_error (kind : string) : PyError :=
  NotImplementedError (dq +:+ kind +:+ dq +:+ " is not supported").

(** The rule is not skipped by the [globals()] test of line 355. *)
Definition reached (rule : string * (Expr * list Input)) : bool :=
  negb (mem (replace " " "_" (rule.1 +:+ "_driver")) module_globals).

(** The state left by the identity fallback of lines 396-408. *)
Definition identity_fallback (flex_name : string) (s : DriverState) : DriverState :=
  {| ds_controllers :=
       ds_controllers s ++
         [ {| pg_name := flex_name; pg_stereo := pg_stereo pg_new; pg_mode := 1;
              pg_value_min := 0; pg_value_max := 1 |} ];
     ds_script := ds_script s ++ [identity_template flex_name];
     ds_warnings :=
       (ds_warnings s
        ++ ["Rule for " +:+ flex_name +:+ " not found! Generating basic rule."])
       ++ ["Failed to generate basic rule for " +:+ flex_name +:+ "!"];
     ds_keys := ds_keys s |}.

(** The log line of line 475. *)
Definition skip_message (mat_name : string) : string :=
  "Skipping loading of " +:+ mat_name +:+ " as it already loaded".

(** The host [h] with [lines] appended to its log and nothing else
    changed. *)
Definition logged (h : Host) (lines : list string) : Host :=
  {| host_materials := host_materials h; host_use_bvlg := host_use_bvlg h;
     host_log := host_log h ++ lines; host_created := host_created h |}.

(** Every material of the model is registered in the host under the name
    the import gives it, and flagged as loaded. *)
Definition all_loaded (mdl : MdlV49) (unique_material_names : bool) (h : Host) : Prop :=
  forall material,
    material ∈ materials mdl ->
    already_loaded h (mat_name_of unique_material_names mdl (material_name material)) = true.

End ImportObservations.

End Observe.

(** ** Sample inputs *)

Module Samples.
Import VRGeneric.

Definition opaque : BpyMaterial := empty_material "OPAQUE" "OPAQUE".

Definition shader_with (c : Vector4) (alpha_test metalness translucent : Z) : Shader :=
  {| color_texture := Some "albedo.vtex"; normal_texture := Some "normal.vtex";
     color := c; alpha_test := alpha_test; metalness := metalness;
     translucent := translucent; specular := 0; roughness := 1 |}.

Definition white : Vector4 := {| v0 := 1; v1 := 1; v2 := 1; v3 := 1 |}.
(** pure red, opaque *)
Definition red : Vector4 := {| v0 := 1; v1 := 0; v2 := 0; v3 := 1 |}.
(** white at half alpha *)
Definition faded : Vector4 := {| v0 := 1; v1 := 1; v2 := 1; v3 := 1 # 2 |}.
(** a grey given in the 0-255 range *)
Definition grey255 : Vector4 := {| v0 := 128; v1 := 128; v2 := 128; v3 := 255 |}.

(** A stand-in for the collaborators, and a small skinned model: two
    bones, one sub-model made of one triangle, one flex pair. *)
Import ImportMdl.

Definition external : External :=
  {| STATIC_PROP := 16;
     path_stem := fun name => if String.eqb name "props/face.mdl" then "face" else name;
     get_slice := fun A data start count => take count (drop start data);
     VtxLod := list nat * list nat * list nat;
     merge_meshes := fun _ lod => lod;
     lookup_original := fun _ _ => None;
     expr_str := fun e => match e with Rule text => text | _ => "combo()" end;
     expr_bool := fun _ => true;
     pg_new := {| pg_name := ""; pg_stereo := false; pg_mode := 0;
                  pg_value_min := 0; pg_value_max := 0 |};
     set_from_controller := fun c fc =>
       {| pg_name := pg_name c; pg_stereo := pg_stereo c; pg_mode := pg_mode c;
          pg_value_min := fc_min fc; pg_value_max := fc_max fc |};
     module_globals := [];
     find_material := fun mat_path name => Some (mat_path +:+ "/" +:+ name);
     create_material := fun _ name mats => <[name := {| source1_loaded := true |}]> mats |}.

Definition vec (x y z : Q) : Vector3 := {| vx := x; vy := y; vz := z |}.

Definition vert (p : Vector3) (t : Q * Q) (ids : list nat) (ws : list Q) : Vertex :=
  {| vertex := p; normal := vec 0 0 1; uv := t; bone_id := ids; weight := ws |}.

Definition face_vertices : list Vertex :=
  [ vert (vec (-1) 0 0) (0, 0)%Q         [0; 0; 0]%nat [1; 0; 0]%Q;
    vert (vec 1 0 0)    (1, 1 # 4)%Q     [1; 0; 0]%nat [3 # 4; 1 # 4; 0]%Q;
    vert (vec 0 4 0)    (1 # 2, 1)%Q     [1; 1; 1]%nat [1; 0; 0]%Q ].

Definition face_model : Model :=
  {| model_name := "head"; vertex_count := 3; vertex_offset := 0;
     meshes := [ {| flexes := [ {| flex_desc_index := 0; partner_index := 1 |} ] |} ] |}.

Definition face_rules : list (string * (Expr * list Input)) :=
  [ ("smileL", (Rule "left_smile", [("left_smile", "fetch1")]));
    ("smileR", (Rule "right_smile", [("right_smile", "fetch1")])) ].

Definition face_mdl (flags : Z) (rules : list (string * (Expr * list Input))) : MdlV49 :=
  {| header_name := "props/face.mdl"; header_flags := flags;
     bones := [ {| bone_name := "root"; parent_bone_index := -1 |};
                {| bone_name := "jaw"; parent_bone_index := 0 |} ];
     materials := [ {| material_name := "skin" |} ];
     materials_paths := ["models/face"];
     eyeballs := [];
     body_parts := [ {| body_part_name := "body"; models := [face_model] |} ];
     attachments := [];
     flex_names := ["smileL"; "smileR"];
     flex_controllers := [ {| fc_name := "smile"; fc_min := 0; fc_max := 1 |} ];
     flex_ui_controllers :=
       [ {| ui_name := "smile"; nway_controller := ""; stereo := true;
            left_controller := "smile"; right_controller := "smile";
            controller := "" |} ];
     skin_groups := [];
     flex_rules := rules |}.

Definition face_vvd : Vvd :=
  {| lod_data := face_vertices;
     extra_data := [("lightmap", [0; 0; 1; 1 # 4; 1 # 2; 1]%Q)];
     vertex_cache := {[ "smileL" := [vec 0 1 0; vec 0 1 0; vec 0 1 0] ]} |}.

Definition face_lod : @VtxLod external := ([0; 1; 2]%nat, [0; 1; 2]%nat, [0]%nat).

Definition face_vtx : list (@VtxBodyPart external) :=
  [ @Build_VtxBodyPart external [ @Build_VtxModel external [face_lod] ] ].

(** Two vertex arrays with the same X coordinates and different extents. *)
Definition flat_row : list Vector3 := [vec (-1) 0 0; vec 1 0 0; vec (1 # 100) 0 0].
Definition tall_row : list Vector3 := [vec (-1) 0 0; vec 1 4 0; vec (1 # 100) 0 0].

(** An object with a shape key named after the controller "smile", for
    which [face_mdl] without rules has no compiled rule. *)
Definition smile_object : MeshObject :=
  {| object_name := "body_head"; mesh_data_name := "body_head_MESH";
     is_copy := false; armature_modifier := true;
     geometry := []; faces := []; material_slots := []; uv_layers := [];
     vertex_groups := [];
     shape_keys := [ {| sk_name := "base"; sk_co := []; sk_driver := None |};
                     {| sk_name := "smile"; sk_co := []; sk_driver := None |} ];
     pg_controllers := [];
     prop_unique_material_names := false; prop_path := "face" |}.

Definition smile_state : DriverState :=
  {| ds_controllers :=
       [ {| pg_name := "smile"; pg_stereo := true; pg_mode := 0;
            pg_value_min := 0; pg_value_max := 1 |} ];
     ds_script := []; ds_warnings := []; ds_keys := [] |}.

(** A host in which the material of [face_mdl] is registered and flagged
    as loaded, under its plain and under its unique name. *)
Definition loaded_host : Host :=
  {| host_materials := {[ "skin" := {| source1_loaded := true |};
                          "face_skin" := {| source1_loaded := true |} ]};
     host_use_bvlg := false; host_log := []; host_created := [] |}.

Definition empty_container : Container :=
  {| container_armature := None; container_objects := []; container_attachments := [];
     container_texts := []; container_warnings := [] |}.

(** The result of importing the sample model, skinned and as a static
    prop, with drivers and unique material names. *)
Definition skinned_container : Container :=
  Eval vm_compute in
    match @import_model external (face_mdl 0 face_rules) face_vvd face_vtx 1 true false true
    with
    | Ok c => c
    | Raise _ => empty_container
    end.

Definition static_container : Container :=
  Eval vm_compute in
    match @import_model external (face_mdl 16 face_rules) face_vvd face_vtx 1 true false true
    with
    | Ok c => c
    | Raise _ => empty_container
    end.

Definition smile_flex : Flex := {| flex_desc_index := 0; partner_index := 1 |}.

Definition base_keys : list ShapeKey :=
  [ {| sk_name := "base"; sk_co := map vertex face_vertices; sk_driver := None |} ].

(** The shape keys after the paired flex of the sample model. *)
Definition paired_keys : list ShapeKey :=
  Eval vm_compute in
    match @add_flex external (face_mdl 0 face_rules) face_vvd 1 true face_model
            [0; 1; 2]%nat (map vertex face_vertices) base_keys ("smileL", smile_flex)
    with
    | Ok keys => keys
    | Raise _ => []
    end.

End Samples.


(** ** Predicates of the further statements *)

Module Shape.
Import ImportMdl.

(** A parent index [create_armature] can resolve for a skeleton of [n]
    bones: -1 (no parent) or a Python index into a list of length [n]. *)
Definition parent_ok (n : nat) (bone : Bone) : Prop :=
  (- Z.of_nat n <= parent_bone_index bone < Z.of_nat n)%Z.

(** The bone a parent index designates: none for -1, counted from the end
    for other negative indices. *)
Definition parent_of (n : nat) (bone : Bone) : option nat :=
  if (parent_bone_index bone =? -1)%Z then None
  else if (0 <=? parent_bone_index bone)%Z then Some (Z.to_nat (parent_bone_index bone))
  else Some (Z.to_nat (Z.of_nat n + parent_bone_index bone)).

End Shape.


Module Layout.
Import ImportMdl.

Section WithExternal.
Context `{External}.

(** The sub-models [import_model] visits, in order: body parts are paired
    with [zip], and so are the models of each pair. *)
Definition sub_models (mdl : MdlV49) (vtx : list VtxBodyPart)
  : list (BodyPart * (VtxModel * Model)) :=
  flat_map (fun bp : VtxBodyPart * BodyPart =>
              map (fun vm => (bp.2, vm)) (zip (vtx_models bp.1) (models bp.2)))
           (zip vtx (body_parts mdl)).

(** Those that are not skipped by the test of line 117. *)
Definition non_empty (l : list (BodyPart * (VtxModel * Model)))
  : list (BodyPart * (VtxModel * Model)) :=
  filter (fun bvm => vertex_count bvm.2.2 <> 0%nat) l.

(** The name given to the mesh object of a sub-model (line 119). *)
Definition mesh_name (bvm : BodyPart * (VtxModel * Model)) : string :=
  (body_part_name bvm.1 ++ "_" ++ model_name bvm.2.2)%string.

(** The empty created for an attachment. *)
Definition empty_for (mdl : MdlV49) (attachment : Attachment) (e : Empty) : Prop :=
  empty_name e = attachment_name attachment /\
  if is_static_prop mdl then child_of e = None
  else exists bone,
         index (bones mdl) (parent_bone attachment) = Ok bone /\
         child_of e = Some (bone_name bone).

End WithExternal.

End Layout.


Module Layout2.
Import ImportMdl Layout.

Section WithExternal.
Context `{External}.

(** What the loop body guarantees of the object it appends for the
    sub-model [bvm]. *)
Definition object_for (mdl : MdlV49) (re_use_meshes unique_material_names : bool)
    (bvm : BodyPart * (VtxModel * Model)) (obj : MeshObject) : Prop :=
  (re_use_meshes = false -> is_copy obj = false) /\
  (is_static_prop mdl = false -> armature_modifier obj = true) /\
  prop_unique_material_names obj = unique_material_names /\
  prop_path obj = path_stem (header_name mdl) /\
  (is_copy obj = false ->
   object_name obj = mesh_name bvm /\
   mesh_data_name obj = (mesh_name bvm ++ "_MESH")%string /\
   armature_modifier obj = negb (is_static_prop mdl)).

End WithExternal.

End Layout2.


Module Skin.
Import ImportMdl.

(** An influence the loop of lines 203-207 can process for a skeleton of
    [n] bones: its weight is not positive, or its bone index is in range. *)
Definition influence_ok (n : nat) (bw : nat * Q) : bool :=
  negb (Qlt_bool 0 bw.2) || (bw.1 <? n)%nat.

Definition vertex_ok (n : nat) (v : Vertex) : bool :=
  forallb (influence_ok n) (zip (bone_id v) (weight v)).

(** The call [add([n], w, 'REPLACE')] was made on group [j]. *)
Definition added (groups : list VertexGroup) (j n : nat) (w : Q) : Prop :=
  exists g, groups !! j = Some g /\ (n, w) ∈ vg_added g.

End Skin.


Module Drivers.
Import ImportMdl.

Section WithExternal.
Context `{External}.

(** The name under which the function of a shape key's driver is looked
    up: the callee of the expression of line 425. *)
Definition function_name (flex_name : string) : string :=
  (replace " " "_" flex_name ++ "_driver")%string.

(** Line 425. *)
Definition driver_expression (flex_name : string) : string :=
  (function_name flex_name ++ "(obj_data)")%string.

(** A shape key that reaches line 393: it is not the base key and no
    compiled rule bears its name. *)
Definition without_rule (mdl : MdlV49) (key : ShapeKey) : bool :=
  negb (String.eqb (sk_name key) "base")
  && negb (mem (sk_name key) (map fst (flex_rules mdl))).

Definition missing (mdl : MdlV49) (keys : list ShapeKey) : list string :=
  map sk_name (List.filter (without_rule mdl) keys).

(** The controller of lines 397-401. *)
Definition identity_controller (flex_name : string) : PGController :=
  {| pg_name := flex_name; pg_stereo := pg_stereo pg_new; pg_mode := 1;
     pg_value_min := 0; pg_value_max := 1 |}.

(** The warnings of lines 393 and 396. *)
Definition fallback_warnings (flex_name : string) : list string :=
  [ "Rule for " +:+ flex_name +:+ " not found! Generating basic rule.";
    "Failed to generate basic rule for " +:+ flex_name +:+ "!" ].

(** The names a UI controller looks up among the flex controllers of the
    model, in the order of lines 274-295. *)
Definition ui_refs (ui : FlexUIController) : list string :=
  (if negb (String.eqb (nway_controller ui) "") then [nway_controller ui] else [])
  ++ (if stereo ui then [left_controller ui; right_controller ui] else [controller ui]).

Definition known (mdl : MdlV49) (name : string) : bool :=
  existsb (fun a => String.eqb (fc_name a) name) (flex_controllers mdl).

(** The controllers one UI controller adds to the object. *)
Definition controllers_added (ui : FlexUIController) : nat :=
  if String.eqb (nway_controller ui) "" then 1 else 2.

End WithExternal.

End Drivers.


Module MoreSamples.
Import ImportMdl Samples.

(** An object carrying the keys of the sample flex pair and a key
    "frown", for which the sample model has neither a rule nor a
    controller. *)
Definition flexed_object : MeshObject :=
  {| object_name := "body_head"; mesh_data_name := "body_head_MESH";
     is_copy := false; armature_modifier := true;
     geometry := []; faces := []; material_slots := []; uv_layers := [];
     vertex_groups := [];
     shape_keys := paired_keys ++ [ {| sk_name := "frown"; sk_co := []; sk_driver := None |} ];
     pg_controllers := [];
     prop_unique_material_names := false; prop_path := "face" |}.

(** A UI controller that refers to a flex controller the sample model
    lacks, and a stereo one whose halves differ in range. *)
Definition frown_ui : FlexUIController :=
  {| ui_name := "frown"; nway_controller := ""; stereo := false;
     left_controller := ""; right_controller := ""; controller := "frown" |}.

Definition lopsided_mdl : MdlV49 :=
  {| header_name := "props/face.mdl"; header_flags := 0;
     bones := []; materials := []; materials_paths := []; eyeballs := [];
     body_parts := []; attachments := []; flex_names := [];
     flex_controllers := [ {| fc_name := "left_brow"; fc_min := 0; fc_max := 1 |};
                           {| fc_name := "right_brow"; fc_min := 0; fc_max := 2 |} ];
     flex_ui_controllers := [];
     skin_groups := [];
     flex_rules := [] |}.

Definition brow_ui : FlexUIController :=
  {| ui_name := "brow"; nway_controller := ""; stereo := true;
     left_controller := "left_brow"; right_controller := "right_brow"; controller := "" |}.

End MoreSamples.


Module Materials.
Import ImportMdl.

Section WithExternal.
Context `{External}.

(** [material_path] is what [find_material] answers under the first of
    [paths] where it finds [name]. *)
Definition first_found (paths : list string) (name material_path : string) : Prop :=
  exists i mat_path,
    paths !! i = Some mat_path /\
    find_material mat_path name = Some material_path /\
    forall j p, j < i -> paths !! j = Some p -> find_material p name = None.

(** The pair [(material_path, mat_name)] was handed to the material loader
    for a material of the model. *)
Definition loaded_for (mdl : MdlV49) (unique_material_names : bool)
    (call : string * string) : Prop :=
  exists material,
    material ∈ materials mdl /\
    call.2 = mat_name_of unique_material_names mdl (material_name material) /\
    first_found (materials_paths mdl) (material_name material) call.1.

(** [mat_name] is the name the import gives a material of the model. *)
Definition named_for (mdl : MdlV49) (unique_material_names : bool) (mat_name : string)
  : Prop :=
  exists material,
    material ∈ materials mdl /\
    mat_name = mat_name_of unique_material_names mdl (material_name material).

End WithExternal.

End Materials.


Module MaterialSamples.
Import ImportMdl Samples.

(** A host without materials, and the sample model without material
    paths. *)
Definition bare_host : Host :=
  {| host_materials := ∅; host_use_bvlg := false; host_log := []; host_created := [] |}.

Definition pathless_mdl : MdlV49 :=
  {| header_name := "props/face.mdl"; header_flags := 0;
     bones := []; materials := [ {| material_name := "skin" |} ];
     materials_paths := []; eyeballs := [];
     body_parts := []; attachments := []; flex_names := [];
     flex_controllers := []; flex_ui_controllers := [];
     skin_groups := []; flex_rules := [] |}.

End MaterialSamples.


Module Slots.
Import ImportMdl.

(** The entries of [l] grow strictly from left to right. *)
Definition increasing (l : list nat) : Prop :=
  forall i j a b, i < j -> l !! i = Some a -> l !! j = Some b -> a < b.

Section WithExternal.
Context `{External}.

(** [name] is the slot name given to material [mat_id] of the model. *)
Definition slot_of (mdl : MdlV49) (unique_material_names : bool)
    (mat_id : nat) (name : string) : Prop :=
  exists mat,
    materials mdl !! mat_id = Some mat /\
    name = mat_name_of unique_material_names mdl (material_name mat).

End WithExternal.

End Slots.


(** ** source_shared/app_id.py *)

Module AppId.

(** [class SteamAppId(IntEnum)], members in definition order. *)
Inductive SteamAppId :=
| HALF_LIFE_2
| HALF_LIFE_2_EP_1
| HALF_LIFE_2_EP_2
| PORTAL
| PORTAL_2
| LEFT_4_DEAD
| LEFT_4_DEAD_2
| TEAM_FORTRESS_2
| COUNTER_STRIKE_GO
| SOURCE_FILMMAKER
| BLACK_MESA
| HLA_STEAM_ID
| SBOX_STEAM_ID.

(** The value each name is bound to in the class body. *)
Definition value (a : SteamAppId) : Z :=
  match a with
  | HALF_LIFE_2 => 220
  | HALF_LIFE_2_EP_1 => 380
  | HALF_LIFE_2_EP_2 => 420
  | PORTAL => 400
  | PORTAL_2 => 620
  | LEFT_4_DEAD => 500
  | LEFT_4_DEAD_2 => 550
  | TEAM_FORTRESS_2 => 440
  | COUNTER_STRIKE_GO => 730
  | SOURCE_FILMMAKER => 1840
  | BLACK_MESA => 362890
  | HLA_STEAM_ID => 546560
  | SBOX_STEAM_ID => 590830
  end%Z.

Definition names : list SteamAppId :=
  [ HALF_LIFE_2; HALF_LIFE_2_EP_1; HALF_LIFE_2_EP_2; PORTAL; PORTAL_2; LEFT_4_DEAD;
    LEFT_4_DEAD_2; TEAM_FORTRESS_2; COUNTER_STRIKE_GO; SOURCE_FILMMAKER; BLACK_MESA;
    HLA_STEAM_ID; SBOX_STEAM_ID ].

(** [SteamAppId(v)]: an enumeration keeps, for every value, the first name
    bound to it (a later name with the same value is an alias of it);
    a value bound to no name raises [ValueError]. *)
Definition by_value (v : Z) : Result SteamAppId :=
  of_option ValueError (List.find (fun a => (value a =? v)%Z) names).

(** [SteamAppId.NAME]: the member a name denotes. *)
Definition member (a : SteamAppId) : Result SteamAppId := by_value (value a).

End AppId.


Module Trace.
Import ImportMdl Layout.

Section WithExternal.
Context `{External}.

(** The object the loop body (lines 117-247) leaves for the sub-model
    [bvm]: the copy of the existing object when one is re-used, and
    otherwise the fresh object authored from this sub-model. *)
Definition object_of (mdl : MdlV49) (vvd : Vvd) (scale : Q)
    (create_drivers re_use_meshes unique_material_names : bool)
    (bvm : BodyPart * (VtxModel * Model)) (obj : MeshObject) : Prop :=
  let mo := mesh_object_for mdl re_use_meshes unique_material_names (is_static_prop mdl)
                            bvm.1 bvm.2.2 in
  if mo.2 then obj = mo.1
  else exists e,
         author_mesh mdl vvd scale create_drivers unique_material_names
                     (is_static_prop mdl) bvm.2.1 bvm.2.2 mo.1 = Ok (obj, e).

(** What a sub-model is authored from (lines 158-162): the index remap
    [vtx_vertices] and the index array of its first LOD, and [vertices],
    the rows [vtx_vertices] picks from the slice of the vertex buffer that
    starts at the sub-model's vertex offset. *)
Definition source_of (vvd : Vvd) (bvm : BodyPart * (VtxModel * Model))
    (vtx_vertices indices_array : list nat) (vertices : list Vertex) : Prop :=
  exists lod material_indices_array,
    model_lods bvm.2.1 !! O = Some lod /\
    merge_meshes bvm.2.2 lod = (vtx_vertices, indices_array, material_indices_array) /\
    gather (get_slice _ (lod_data vvd) (vertex_offset bvm.2.2) (vertex_count bvm.2.2))
           vtx_vertices = Ok vertices.

End WithExternal.

End Trace.


Module TracedSamples.
Import ImportMdl Samples.

(** A skinned model with two sub-models, "head" on vertices 0-2 and
    "feet" on vertices 3-5 of the vertex buffer, without flexes. *)
Definition head_model : Model :=
  {| model_name := "head"; vertex_count := 3; vertex_offset := 0; meshes := [] |}.

Definition feet_model : Model :=
  {| model_name := "feet"; vertex_count := 3; vertex_offset := 3; meshes := [] |}.

Definition feet_vertices : list Vertex :=
  [ vert (vec (-1) 0 (-9)) (1 # 8, 1 # 8)%Q [0; 0; 0]%nat [1; 0; 0]%Q;
    vert (vec 1 0 (-9))    (7 # 8, 1 # 8)%Q [0; 1; 0]%nat [1 # 2; 1 # 2; 0]%Q;
    vert (vec 0 1 (-9))    (1 # 2, 7 # 8)%Q [1; 0; 0]%nat [1; 0; 0]%Q ].

Definition pair_mdl : MdlV49 :=
  {| header_name := "props/pair.mdl"; header_flags := 0;
     bones := [ {| bone_name := "root"; parent_bone_index := -1 |};
                {| bone_name := "jaw"; parent_bone_index := 0 |} ];
     materials := [ {| material_name := "skin" |} ];
     materials_paths := ["models/pair"];
     eyeballs := [];
     body_parts := [ {| body_part_name := "body"; models := [head_model; feet_model] |} ];
     attachments := [ {| attachment_name := "muzzle"; parent_bone := 1 |};
                      {| attachment_name := "eyes"; parent_bone := -2 |} ];
     flex_names := []; flex_controllers := []; flex_ui_controllers := [];
     skin_groups := []; flex_rules := [] |}.

Definition pair_vvd : Vvd :=
  {| lod_data := face_vertices ++ feet_vertices;
     extra_data := [];
     vertex_cache := ∅ |}.

Definition pair_vtx : list (@VtxBodyPart external) :=
  [ @Build_VtxBodyPart external
      [ @Build_VtxModel external [face_lod]; @Build_VtxModel external [face_lod] ] ].

Definition pair_container : Container :=
  Eval vm_compute in
    match @import_model external pair_mdl pair_vvd pair_vtx 1 false false false with
    | Ok c => c
    | Raise _ => empty_container
    end.

(** A skeleton whose two bones bear the same name, over the sample
    vertices: vertex 0 is weighted to bone 0 alone. *)
Definition twin_mdl : MdlV49 :=
  {| header_name := "props/twin.mdl"; header_flags := 0;
     bones := [ {| bone_name := "arm"; parent_bone_index := -1 |};
                {| bone_name := "arm"; parent_bone_index := 0 |} ];
     materials := [ {| material_name := "skin" |} ];
     materials_paths := ["models/twin"];
     eyeballs := [];
     body_parts := [ {| body_part_name := "body"; models := [head_model] |} ];
     attachments := [];
     flex_names := []; flex_controllers := []; flex_ui_controllers := [];
     skin_groups := []; flex_rules := [] |}.

Definition twin_vertices : list Vertex :=
  [ vert (vec (-1) 0 0) (0, 0)%Q     [0; 0; 0]%nat [1; 0; 0]%Q;
    vert (vec 1 0 0)    (1, 1 # 4)%Q [0; 0; 0]%nat [1; 0; 0]%Q;
    vert (vec 0 4 0)    (1 # 2, 1)%Q [0; 0; 0]%nat [1; 0; 0]%Q ].

Definition twin_vvd : Vvd :=
  {| lod_data := twin_vertices; extra_data := []; vertex_cache := ∅ |}.

Definition twin_container : Container :=
  Eval vm_compute in
    match @import_model external twin_mdl twin_vvd face_vtx 1 false false false with
    | Ok c => c
    | Raise _ => empty_container
    end.

End TracedSamples.


Module LongNames.
Import ImportMdl Samples TracedSamples.

(** A bone name of 72 characters. *)
Definition long_name : string :=
  "ValveBiped.Bip01_R_Finger4_Attachment_Point_For_The_Extended_Hand_Rig_A1".

(** The sample skeleton with its first bone renamed, one sub-model, and an
    attachment on that bone. *)
Definition long_mdl : MdlV49 :=
  {| header_name := "props/face.mdl"; header_flags := 0;
     bones := [ {| bone_name := long_name; parent_bone_index := -1 |};
                {| bone_name := "jaw"; parent_bone_index := 0 |} ];
     materials := [ {| material_name := "skin" |} ];
     materials_paths := ["models/face"];
     eyeballs := [];
     body_parts := [ {| body_part_name := "body"; models := [head_model] |} ];
     attachments := [ {| attachment_name := "muzzle"; parent_bone := 0 |} ];
     flex_names := []; flex_controllers := []; flex_ui_controllers := [];
     skin_groups := []; flex_rules := [] |}.

Definition long_container : Container :=
  Eval vm_compute in
    match @import_model external long_mdl face_vvd face_vtx 1 false false true with
    | Ok c => c
    | Raise _ => empty_container
    end.

End LongNames.


(** ** Single-precision arithmetic

    The vertex arrays of the import hold single-precision numbers, and
    numpy rounds after every operation.  Here a number is the rational it
    denotes and an operation returns the exact result rounded to the
    nearest number of the format, ties to even (IEEE 754), with gradual
    underflow.  Overflow to an infinity is not represented: the one place
    where it can arise (a quotient by a tiny width) is clipped to 0 or 1
    either way.  NaN, which arises from 0/0 alone, is [None]. *)

Module Single.
Import ImportMdl.

Local Open Scope Q_scope.

(** A binary format: [prec] significant bits, [emin] the exponent of the
    least normal number. *)
Record Format := { prec : Z; emin : Z }.

Definition binary32 : Format := {| prec := 24; emin := -126 |}.
Definition binary64 : Format := {| prec := 53; emin := -1022 |}.

(** 2 to the power [k]. *)
Definition pow2 (k : Z) : Q :=
  if (k <? 0)%Z then 1 # Z.to_pos (2 ^ (- k)) else inject_Z (2 ^ k).

(** The exponent of [x <> 0]: the [e] with [2^e <= |x| < 2^(e+1)]. *)
Definition ilog2 (x : Q) : Z :=
  let k := (Z.log2 (Z.abs (Qnum x)) - Z.log2 (Zpos (Qden x)))%Z in
  if Qle_bool (pow2 k) (Qabs x) then k else (k - 1)%Z.

(** The nearest integer, ties to even. *)
Definition rne (t : Q) : Z :=
  let f := Qfloor t in
  match Qcompare (t - inject_Z f) (1 # 2) with
  | Lt => f
  | Gt => (f + 1)%Z
  | Eq => if Z.even f then f else (f + 1)%Z
  end.

(** The spacing of the numbers of the format around [x]. *)
Definition ulp (fmt : Format) (x : Q) : Q :=
  pow2 (Z.max (ilog2 x) (emin fmt) - prec fmt + 1).

Definition round (fmt : Format) (x : Q) : Q :=
  if Qeq_bool x 0 then 0 else inject_Z (rne (x / ulp fmt x)) * ulp fmt x.

Definition fadd (fmt : Format) (a b : Q) : Q := round fmt (a + b).
Definition fsub (fmt : Format) (a b : Q) : Q := round fmt (a - b).
Definition fmul (fmt : Format) (a b : Q) : Q := round fmt (a * b).
Definition fdiv (fmt : Format) (a b : Q) : Q := round fmt (a / b).

(** [1 - (99.3 / 100)], which Python evaluates in double precision. *)
Definition balance_factor : Q :=
  fsub binary64 1 (fdiv binary64 (round binary64 (993 # 10)) 100).

(** Line 232: the difference of two array entries is a single, its product
    with the Python float a double, which is brought back to single
    precision when it divides the array in line 233. *)
Definition balance_width (model_vertices : list Vector3) : Result Q :=
  mx ← array_max model_vertices;
  mn ← array_min model_vertices;
  Ok (round binary32 (fmul binary64 (fsub binary32 mx mn) balance_factor)).

(** Line 233 for a vertex of X coordinate [x].  A zero width divides by
    zero: the quotient is an infinity, which the clip turns into 0 or 1,
    unless [x] is zero too, where it is NaN and stays so. *)
Definition balance_at (width x : Q) : option Q :=
  if Qeq_bool width 0 then
    if Qeq_bool x 0 then None else Some (if Qlt_bool 0 x then 0 else 1)
  else
    Some (clip (fadd binary32 (fdiv binary32 (fdiv binary32 (- x) width) 2) (1 # 2)) 0 1).

(** Lines 231-233. *)
Definition balance (model_vertices : list Vector3) : Result (list (option Q)) :=
  width ← balance_width model_vertices;
  Ok (map (fun v => balance_at width (vx v)) model_vertices).

(** Line 238. *)
Definition p_balance (balance : list (option Q)) : list (option Q) :=
  map (fun b => match b with
                | Some b => Some (fsub binary32 1 b)
                | None => None
                end) balance.

(** The sample row of X coordinates -1, 1 and 0.01, the last as the
    single nearest to it. *)
Definition single_row : list Vector3 :=
  [ {| vx := -1; vy := 0; vz := 0 |};
    {| vx := 1; vy := 0; vz := 0 |};
    {| vx := 5368709 # 536870912; vy := 0; vz := 0 |} ].

End Single.


(** * Properties *)

(** ** Shader construction *)

Section ShaderFacts.
Import VRGeneric Observe.

Lemma create_node_ext ty name b l ns ls bm sm :
  create_node ty name (ext b l ns ls bm sm) =
  ((length b + length ns)%nat,
   ext b l (ns ++ [ {| node_type := ty; node_name := name; blend_type := None;
                       image := None; default_values := [] |} ]) ls bm sm).
Proof.
  unfold create_node, ext; cbn [nodes links blend_method shadow_method].
  by rewrite length_app, app_assoc.
Qed.

Lemma update_node_ext k f b l ns ls bm sm :
  update_node (length b + k) f (ext b l ns ls bm sm) =
  (tt, ext b l (alter f k ns) ls bm sm).
Proof.
  unfold update_node, ext; cbn [nodes links blend_method shadow_method].
  by rewrite alter_app_r.
Qed.

Lemma connect_nodes_ext src dst b l ns ls bm sm :
  connect_nodes src dst (ext b l ns ls bm sm) =
  (tt, ext b l ns (ls ++ [link src dst]) bm sm).
Proof.
  unfold connect_nodes, ext, link; cbn [nodes links blend_method shadow_method].
  by rewrite app_assoc.
Qed.

Lemma set_hashed_ext b l ns ls bm sm :
  set_hashed (ext b l ns ls bm sm) = (tt, ext b l ns ls "HASHED" "HASHED").
Proof. reflexivity. Qed.

Ltac run_host :=
  repeat (cbv beta iota zeta delta [bind ret set_image set_blend_type set_default];
          first [ rewrite create_node_ext | rewrite update_node_ext
                | rewrite connect_nodes_ext | rewrite set_hashed_ext ];
          cbn [length app alter list_alter fst snd
               node_type node_name blend_type image default_values]).

Lemma tint_nodes_ext self b l a0 a1 a2 ls bm sm :
  tint_nodes self (length b + 2) (length b + 1) (ext b l [a0; a1; a2] ls bm sm) =
  (tt, if rgb_all_differ self
       then ext b l [a0; a1; a2; mix_node self]
              (ls ++ [link (length b + 2, "Color") (length b + 3, "Color1");
                      link (length b + 3, "Color") (length b + 1, "Base Color")]) bm sm
       else ext b l [a0; a1; a2]
              (ls ++ [link (length b + 2, "Color") (length b + 1, "Base Color")]) bm sm).
Proof.
  unfold tint_nodes. fold (rgb_all_differ self).
  destruct (rgb_all_differ self); run_host.
  - rewrite <- !app_assoc. reflexivity.
  - reflexivity.
Qed.

Lemma alpha_nodes_ext self albedo shader b l ns ls bm sm :
  alpha_nodes self albedo shader (ext b l ns ls bm sm) =
  (tt, if opacity self
       then ext b l ns (ls ++ [link (albedo, "Alpha") (shader, "Alpha")]) "HASHED" "HASHED"
       else if truthy (metalness self)
            then ext b l ns (ls ++ [link (albedo, "Alpha") (shader, "Metallic")]) bm sm
            else ext b l ns ls bm sm).
Proof.
  unfold alpha_nodes. fold (opacity self).
  destruct (opacity self); [| destruct (truthy (metalness self))]; run_host; reflexivity.
Qed.

Lemma build_ext self status m :
  proceeds status ->
  build self status m =
  ext (nodes m) (links m) (added_nodes self) (added_links self (length (nodes m)))
      (if opacity self then "HASHED" else blend_method m)
      (if opacity self then "HASHED" else shadow_method m).
Proof.
  intros Hp. unfold build, create_nodes. rewrite Hp.
  destruct m as [b l bm sm]; cbn [nodes links blend_method shadow_method].
  replace {| nodes := b; links := l; blend_method := bm; shadow_method := sm |}
    with (ext b l [] [] bm sm) by (unfold ext; by rewrite !app_nil_r).
  unfold added_nodes, added_links, tint_links, alpha_links, normal_links.
  do 7 (cbv beta iota zeta delta [bind ret set_image set_blend_type set_default];
        first [ rewrite create_node_ext | rewrite update_node_ext
              | rewrite connect_nodes_ext ];
        cbn [length app alter list_alter fst snd
             node_type node_name blend_type image default_values]).
  cbv beta iota zeta delta [bind].
  rewrite tint_nodes_ext.
  destruct (rgb_all_differ self); rewrite alpha_nodes_ext;
    destruct (opacity self); [| destruct (truthy (metalness self)) | |
                                destruct (truthy (metalness self))];
    run_host; rewrite ?Nat.add_0_r; reflexivity.
Qed.

Lemma new_nodes_build self status m :
  proceeds status -> new_nodes m (build self status m) = added_nodes self.
Proof.
  intros Hp. rewrite (build_ext _ _ _ Hp). unfold new_nodes, ext; cbn [nodes].
  by rewrite drop_app_length.
Qed.

Lemma new_links_build self status m :
  proceeds status ->
  new_links m (build self status m) = added_links self (length (nodes m)).
Proof.
  intros Hp. rewrite (build_ext _ _ _ Hp). unfold new_links, ext; cbn [links].
  by rewrite drop_app_length.
Qed.

Lemma neq1_false q : (q == 1)%Q -> neq1 q = false.
Proof. intros Hq. unfold neq1. apply Qeq_bool_iff in Hq. by rewrite Hq. Qed.

Lemma neq1_true q : ~ (q == 1)%Q -> neq1 q = true.
Proof.
  intros Hq. unfold neq1. destruct (Qeq_bool q 1) eqn:E; [| done].
  apply Qeq_bool_iff in E. contradiction.
Qed.

(** C1 (amended).  When construction proceeds: if the three colour
    channels of the tint all equal 1, no multiply-blend node is added and
    the albedo colour is linked directly to the shader's base colour; if the
    three colour channels all differ from 1, exactly one mix node is added,
    it blends by MULTIPLY between the albedo colour and the shader's base
    colour, and its second input is the tint, divided by 255 when the sum of
    the four channels exceeds 3. *)
Theorem tint_multiply_node (self : Shader) (status : string) (m : BpyMaterial) :
  proceeds status ->
  let m' := build self status m in
  let n := length (nodes m) in
  let c := color self in
  ((v0 c == 1 /\ v1 c == 1 /\ v2 c == 1)%Q ->
     filter is_mix (new_nodes m m') = [] /\
     link (n + 2, "Color") (n + 1, "Base Color") ∈ new_links m m') /\
  ((~ v0 c == 1 /\ ~ v1 c == 1 /\ ~ v2 c == 1)%Q ->
     exists mix,
       filter is_mix (new_nodes m m') = [mix] /\
       new_nodes m m' !! 3 = Some mix /\
       blend_type mix = Some "MULTIPLY" /\
       default_value "Color2" mix =
         Some (VColor (if Qlt_bool 3 (color_sum c) then divide255 c else c)) /\
       link (n + 2, "Color") (n + 3, "Color1") ∈ new_links m m' /\
       link (n + 3, "Color") (n + 1, "Base Color") ∈ new_links m m' /\
       link (n + 2, "Color") (n + 1, "Base Color") ∉ new_links m m').
Proof.
  intros Hp m' n c. subst m'.
  rewrite (new_nodes_build _ _ _ Hp), (new_links_build _ _ _ Hp). fold n.
  split.
  - intros (H0 & H1 & H2).
    assert (Hd : rgb_all_differ self = false).
    { unfold rgb_all_differ. fold c. by rewrite (neq1_false _ H0). }
    unfold added_nodes, added_links, tint_links. rewrite Hd. split; [reflexivity |].
    cbn [app]. apply list_elem_of_further, list_elem_of_here.
  - intros (H0 & H1 & H2).
    assert (Hd : rgb_all_differ self = true).
    { unfold rgb_all_differ. fold c.
      by rewrite (neq1_true _ H0), (neq1_true _ H1), (neq1_true _ H2). }
    exists (mix_node self).
    unfold added_nodes, added_links, tint_links, normal_links. rewrite Hd.
    repeat split; try reflexivity.
    + cbn [app]. apply list_elem_of_further, list_elem_of_here.
    + cbn [app]. do 2 apply list_elem_of_further. apply list_elem_of_here.
    + unfold alpha_links, link; cbn [fst snd app].
      destruct (opacity self); [| destruct (truthy (metalness self))];
        cbn [app]; rewrite !elem_of_cons, elem_of_nil;
        intros Hin; repeat destruct Hin as [Hin | Hin]; try done;
        try discriminate Hin; injection Hin; intros; lia.
Qed.

Lemma tint_multiply_node_witness :
  proceeds "" /\
  filter is_mix (new_nodes Samples.opaque
                   (build (Samples.shader_with Samples.white 0 0 0) "" Samples.opaque)) = [].
Proof.
  split; [reflexivity |].
  apply (tint_multiply_node (Samples.shader_with Samples.white 0 0 0) "" Samples.opaque
           eq_refl).
  repeat split; reflexivity.
Defined.

(** C1 as stated fails: a pure red tint and a white tint at half alpha are
    not pure white, yet no multiply-blend node is added for them. *)
Lemma tint_other_than_white_without_mix :
  (~ pure_white Samples.red /\
   proceeds "" /\
   filter is_mix (new_nodes Samples.opaque
                    (build (Samples.shader_with Samples.red 0 0 0) "" Samples.opaque)) = [])
  /\
  (~ pure_white Samples.faded /\
   filter is_mix (new_nodes Samples.opaque
                    (build (Samples.shader_with Samples.faded 0 0 0) "" Samples.opaque)) = []).
Proof.
  repeat split; try reflexivity.
  - intros (_ & H1 & _). discriminate H1.
  - intros (_ & _ & _ & H3). discriminate H3.
Qed.

Example grey255_is_rescaled :
  default_value "Color2"
    <$> new_nodes Samples.opaque
          (build (Samples.shader_with Samples.grey255 0 0 0) "" Samples.opaque) !! 3
  = Some (Some (VColor {| v0 := 128 / 255; v1 := 128 / 255; v2 := 128 / 255;
                          v3 := 255 / 255 |})).
Proof. reflexivity. Qed.

Example loaded_material_is_left_alone :
  build (Samples.shader_with Samples.red 1 1 1) "LOADED" Samples.opaque = Samples.opaque.
Proof. reflexivity. Qed.

Lemma opacity_spec self :
  opacity self = true <-> (translucent self <> 0 \/ alpha_test self <> 0)%Z.
Proof.
  unfold opacity, truthy. rewrite orb_true_iff, !negb_true_iff, !Z.eqb_neq. tauto.
Qed.

Lemma opacity_false self :
  opacity self = false <-> (translucent self = 0 /\ alpha_test self = 0)%Z.
Proof.
  unfold opacity, truthy. rewrite orb_false_iff, !negb_false_iff, !Z.eqb_eq. tauto.
Qed.

Ltac mem_iff :=
  split;
  [ intros Hin;
    repeat (destruct Hin as [Hin | Hin]);
    first [ discriminate Hin | contradiction | done | (split; done) ]
  | intros Hrhs;
    first [ discriminate Hrhs
          | (destruct Hrhs; discriminate)
          | (repeat first [ left; reflexivity | right ]) ] ].

(** C8 (amended).  When construction proceeds, the albedo alpha output is
    linked to the shader's Alpha input exactly when the translucent or the
    alpha-test flag is set, and to the Metallic input exactly when neither
    is set and the metalness flag is set; the blend and shadow methods of
    the host material are set to HASHED when the translucent or the
    alpha-test flag is set and keep their values otherwise. *)
Theorem alpha_wiring_and_blend_mode (self : Shader) (status : string) (m : BpyMaterial) :
  proceeds status ->
  let m' := build self status m in
  let n := length (nodes m) in
  (link (n + 2, "Alpha") (n + 1, "Alpha") ∈ new_links m m'
     <-> (translucent self <> 0 \/ alpha_test self <> 0)%Z) /\
  (link (n + 2, "Alpha") (n + 1, "Metallic") ∈ new_links m m'
     <-> (translucent self = 0 /\ alpha_test self = 0 /\ metalness self <> 0)%Z) /\
  ((translucent self <> 0 \/ alpha_test self <> 0)%Z ->
     blend_method m' = "HASHED" /\ shadow_method m' = "HASHED") /\
  ((translucent self = 0 /\ alpha_test self = 0)%Z ->
     blend_method m' = blend_method m /\ shadow_method m' = shadow_method m).
Proof.
  intros Hp m' n. subst m'.
  rewrite (new_links_build _ _ _ Hp). fold n.
  rewrite (build_ext _ _ _ Hp). unfold ext; cbn [blend_method shadow_method].
  rewrite <- opacity_spec.
  assert (Hm : (metalness self <> 0)%Z <-> truthy (metalness self) = true).
  { unfold truthy. by rewrite negb_true_iff, Z.eqb_neq. }
  rewrite Hm.
  assert (Hz : (translucent self = 0 /\ alpha_test self = 0)%Z <-> opacity self = false)
    by (symmetry; apply opacity_false).
  assert (Hz' : (translucent self = 0 /\ alpha_test self = 0
                 /\ truthy (metalness self) = true)%Z
                <-> opacity self = false /\ truthy (metalness self) = true) by tauto.
  rewrite Hz, Hz'. clear Hz Hz' Hm.
  unfold added_links, tint_links, alpha_links, normal_links, link; cbn [fst snd].
  destruct (opacity self), (truthy (metalness self)), (rgb_all_differ self);
    cbn [app]; rewrite !elem_of_cons, !elem_of_nil;
    (split; [mem_iff | split; [mem_iff | split; intros Hb; try discriminate Hb; done]]).
Qed.

Lemma alpha_wiring_and_blend_mode_witness :
  proceeds "" /\
  blend_method (build (Samples.shader_with Samples.white 0 0 1) "" Samples.opaque)
  = "HASHED".
Proof.
  split; [reflexivity |].
  apply (alpha_wiring_and_blend_mode (Samples.shader_with Samples.white 0 0 1) ""
           Samples.opaque eq_refl).
  left. discriminate.
Defined.

(** C8 as stated fails: with only the alpha-test flag set the translucent
    flag is clear, yet the blend mode of the host material is changed. *)
Lemma blend_mode_changed_without_translucent :
  translucent (Samples.shader_with Samples.white 1 0 0) = 0%Z /\
  proceeds "" /\
  blend_method Samples.opaque = "OPAQUE" /\
  blend_method (build (Samples.shader_with Samples.white 1 0 0) "" Samples.opaque)
  = "HASHED".
Proof. repeat split; reflexivity. Qed.

End ShaderFacts.

(** ** Generic facts about the error monad and the Python helpers *)

Section PyFacts.

Example last_chars_keeps_the_end : last_chars 3 "abcdef" = "def".
Proof. reflexivity. Qed.

Example last_chars_of_short_name : last_chars 63 "jaw" = "jaw".
Proof. reflexivity. Qed.

Example replace_all_occurrences : replace "left_" "" "left_left_smile" = "smile".
Proof. reflexivity. Qed.

Example replace_spaces : replace " " "_" "upper lid raiser" = "upper_lid_raiser".
Proof. reflexivity. Qed.

Example split_on_underscore : split "_" "smile_left_" = ["smile"; "left"; ""].
Proof. reflexivity. Qed.

Example contains_inside : contains "right_" "upper_right_lid" = true.
Proof. reflexivity. Qed.

Example join_two : join ", " ["a"; "b"] = "a, b".
Proof. reflexivity. Qed.

Example index_from_the_end : index [10; 20; 30]%nat (-1) = Ok 30%nat.
Proof. reflexivity. Qed.

Example index_out_of_range : index [10; 20; 30]%nat (-4) = Raise IndexError.
Proof. reflexivity. Qed.

Example unique_sorts : ImportMdl.unique [2; 0; 2; 1]%nat = [0; 1; 2]%nat.
Proof. reflexivity. Qed.

Lemma rbind_ok {A B} (r : Result A) (k : A -> Result B) (b : B) :
  rbind r k = Ok b -> exists a, r = Ok a /\ k a = Ok b.
Proof. destruct r as [a | e]; cbn; [eauto | discriminate]. Qed.

Lemma mbind_ok {A B} (r : Result A) (k : A -> Result B) (b : B) :
  r ≫= k = Ok b -> exists a, r = Ok a /\ k a = Ok b.
Proof. apply rbind_ok. Qed.

Lemma of_option_ok {A} e (o : option A) a : of_option e o = Ok a -> o = Some a.
Proof. destruct o; cbn; congruence. Qed.

Lemma rfold_inv {A B} (P : B -> Prop) (f : B -> A -> Result B) (l : list A) :
  forall a r,
    P a ->
    (forall acc x acc', x ∈ l -> P acc -> f acc x = Ok acc' -> P acc') ->
    rfold f l a = Ok r -> P r.
Proof.
  induction l as [| x l IH]; intros a r Ha Hstep Hr; cbn in Hr.
  - congruence.
  - apply rbind_ok in Hr as (a' & Hx & Hr).
    apply (IH a' r); [| | done].
    + apply (Hstep a x a'); [left | done | done].
    + intros acc y acc' Hy. apply Hstep. by right.
Qed.

Lemma rmap_ok {A B} (f : A -> Result B) (l : list A) (ys : list B) :
  rmap f l = Ok ys -> Forall2 (fun x y => f x = Ok y) l ys.
Proof.
  revert ys. induction l as [| x l IH]; intros ys Hr; cbn in Hr.
  - injection Hr as <-. constructor.
  - apply rbind_ok in Hr as (y & Hy & Hr).
    apply rbind_ok in Hr as (ys' & Hys & Hr).
    injection Hr as <-. constructor; [done | by apply IH].
Qed.

Lemma gather_ok {A} (a : list A) (idx : list nat) (ys : list A) :
  gather a idx = Ok ys -> Forall2 (fun i y => a !! i = Some y) idx ys.
Proof.
  intros Hg. apply rmap_ok in Hg.
  eapply Forall2_impl; [exact Hg |]. intros i y. apply of_option_ok.
Qed.


Lemma gather_length {A} (a : list A) (idx : list nat) (ys : list A) :
  gather a idx = Ok ys -> length ys = length idx.
Proof. intros Hg. apply gather_ok in Hg. symmetry. by eapply Forall2_length. Qed.

Lemma substring_length (s : string) :
  forall a n, String.length (String.substring a n s) <= n.
Proof.
  induction s as [| c s IH]; intros a n.
  - destruct a, n; cbn; lia.
  - destruct a as [| a]; [destruct n as [| n] |]; cbn.
    + lia.
    + specialize (IH 0 n). lia.
    + apply IH.
Qed.

Lemma substring_all (s : string) :
  forall n, String.length s <= n -> String.substring 0 n s = s.
Proof.
  induction s as [| c s IH]; intros n Hn.
  - by destruct n.
  - destruct n as [| n]; cbn in *; [lia |]. f_equal. apply IH. lia.
Qed.

Lemma substring_suffix (s : string) :
  forall a n, String.length s <= a + n ->
              exists p, s = (p ++ String.substring a n s)%string.
Proof.
  induction s as [| c s IH]; intros a n Hn.
  - exists EmptyString. by destruct a, n.
  - destruct a as [| a].
    + exists EmptyString. cbn [String.append]. by rewrite substring_all.
    + destruct (IH a n) as (p & Hp); [cbn in Hn; lia |].
      exists (String c p).
      change (String c s = String c (p ++ String.substring a n s)%string).
      by rewrite <- Hp.
Qed.

Lemma last_chars_length n s : String.length (last_chars n s) <= n.
Proof. apply substring_length. Qed.

Lemma last_chars_short n s : String.length s <= n -> last_chars n s = s.
Proof.
  intros Hn. unfold last_chars.
  replace (String.length s - n) with 0 by lia. by apply substring_all.
Qed.

Lemma last_chars_suffix n s : exists p, s = (p ++ last_chars n s)%string.
Proof. apply substring_suffix. lia. Qed.

Lemma string_length_append (a b : string) :
  String.length (a ++ b)%string = String.length a + String.length b.
Proof.
  induction a as [| c a IH]; [done |].
  change (S (String.length (a ++ b)%string) = S (String.length a + String.length b)).
  by rewrite IH.
Qed.

Lemma rmap_map {A B C} (f : A -> Result B) (g : B -> C) (h : A -> C) l ys :
  (forall x y, f x = Ok y -> g y = h x) ->
  rmap f l = Ok ys -> map g ys = map h l.
Proof.
  intros Hf Hr. apply rmap_ok in Hr.
  induction Hr as [| x y l ys Hxy _ IH]; cbn; [done |].
  by rewrite IH, (Hf _ _ Hxy).
Qed.

Lemma rmap_Forall {A B} (f : A -> Result B) (P : B -> Prop) l ys :
  (forall x y, f x = Ok y -> P y) ->
  rmap f l = Ok ys -> Forall P ys.
Proof.
  intros Hf Hr. apply rmap_ok in Hr.
  induction Hr as [| x y l ys Hxy _ IH]; constructor; eauto.
Qed.

End PyFacts.

(** *** Flex balance *)

Section BalanceFacts.
Local Open Scope Q_scope.

Lemma qmax_spec a b : a <= qmax a b /\ b <= qmax a b /\ (qmax a b = a \/ qmax a b = b).
Proof.
  unfold qmax. destruct (Qle_bool a b) eqn:E.
  - apply Qle_bool_iff in E. repeat split; [done | lra | by right].
  - assert (~ a <= b) by (intros Hc; apply Qle_bool_iff in Hc; congruence).
    repeat split; [lra | lra | by left].
Qed.

Lemma qmin_spec a b : qmin a b <= a /\ qmin a b <= b /\ (qmin a b = a \/ qmin a b = b).
Proof.
  unfold qmin. destruct (Qle_bool a b) eqn:E.
  - apply Qle_bool_iff in E. repeat split; [lra | done | by left].
  - assert (~ a <= b) by (intros Hc; apply Qle_bool_iff in Hc; congruence).
    repeat split; [lra | lra | by right].
Qed.

Lemma fold_qmax rest :
  forall e, let m := fold_left qmax rest e in
            m ∈ e :: rest /\ forall x, x ∈ e :: rest -> x <= m.
Proof.
  induction rest as [| y rest IH]; intros e; cbn [fold_left].
  - split; [left |]. intros x Hx. apply list_elem_of_singleton in Hx as ->. lra.
  - destruct (IH (qmax e y)) as [Hin Hle].
    destruct (qmax_spec e y) as (He & Hy & Hor). split.
    + apply elem_of_cons in Hin as [-> | Hin].
      * destruct Hor as [-> | ->]; [left | right; left].
      * do 2 right. done.
    + intros x Hx. assert (Hm : qmax e y <= fold_left qmax rest (qmax e y))
        by (apply Hle; left).
      apply elem_of_cons in Hx as [-> | Hx]; [lra |].
      apply elem_of_cons in Hx as [-> | Hx]; [lra |].
      apply Hle. by right.
Qed.

Lemma fold_qmin rest :
  forall e, let m := fold_left qmin rest e in
            m ∈ e :: rest /\ forall x, x ∈ e :: rest -> m <= x.
Proof.
  induction rest as [| y rest IH]; intros e; cbn [fold_left].
  - split; [left |]. intros x Hx. apply list_elem_of_singleton in Hx as ->. lra.
  - destruct (IH (qmin e y)) as [Hin Hle].
    destruct (qmin_spec e y) as (He & Hy & Hor). split.
    + apply elem_of_cons in Hin as [-> | Hin].
      * destruct Hor as [-> | ->]; [left | right; left].
      * do 2 right. done.
    + intros x Hx. assert (Hm : fold_left qmin rest (qmin e y) <= qmin e y)
        by (apply Hle; left).
      apply elem_of_cons in Hx as [-> | Hx]; [lra |].
      apply elem_of_cons in Hx as [-> | Hx]; [lra |].
      apply Hle. by right.
Qed.

Lemma array_max_spec a mx :
  ImportMdl.array_max a = Ok mx ->
  mx ∈ ImportMdl.entries a /\ forall e, e ∈ ImportMdl.entries a -> e <= mx.
Proof.
  unfold ImportMdl.array_max. destruct (ImportMdl.entries a) as [| e rest]; [discriminate |].
  intros [= <-]. apply fold_qmax.
Qed.

Lemma array_min_spec a mn :
  ImportMdl.array_min a = Ok mn ->
  mn ∈ ImportMdl.entries a /\ forall e, e ∈ ImportMdl.entries a -> mn <= e.
Proof.
  unfold ImportMdl.array_min. destruct (ImportMdl.entries a) as [| e rest]; [discriminate |].
  intros [= <-]. apply fold_qmin.
Qed.

Lemma Qle_bool_false a b : Qle_bool a b = false -> b < a.
Proof.
  intros E. apply Qnot_le_lt. intros Hc. apply Qle_bool_iff in Hc. congruence.
Qed.

Lemma clip_unit r :
  0 <= clip r 0 1 <= 1 /\
  (0 <= r <= 1 -> clip r 0 1 == r) /\
  (r <= 0 -> clip r 0 1 == 0) /\
  (1 <= r -> clip r 0 1 == 1).
Proof.
  unfold clip, qmax.
  destruct (Qle_bool r 0) eqn:E0;
    [apply Qle_bool_iff in E0 | apply Qle_bool_false in E0];
    unfold qmin;
    match goal with
    | |- context [Qle_bool ?x 1] =>
        destruct (Qle_bool x 1) eqn:E1;
        [apply Qle_bool_iff in E1 | apply Qle_bool_false in E1]
    end;
    repeat split; intros; lra.
Qed.

(** C2 (amended).  For a non-empty vertex array whose largest and smallest
    entries (over all three coordinates) differ, the blend weights are
    computed, one per vertex, and the weight of a vertex is [clip r 0 1]
    where [r] is linear in the vertex's X coordinate, with intercept 1/2 and
    slope -1 / (2 * width), [width] being 0.007 times the difference between
    the largest and the smallest entry of the array, all coordinates
    included. *)
Theorem balance_clipped_ramp (model_vertices : list ImportMdl.Vector3) (mx mn : Q) :
  ImportMdl.array_max model_vertices = Ok mx ->
  ImportMdl.array_min model_vertices = Ok mn ->
  ~ mx == mn ->
  (mx ∈ ImportMdl.entries model_vertices /\ mn ∈ ImportMdl.entries model_vertices /\
   forall e, e ∈ ImportMdl.entries model_vertices -> mn <= e <= mx) /\
  exists width bal,
    ImportMdl.balance_width model_vertices = Ok width /\
    width == (mx - mn) * (7 # 1000) /\ 0 < width /\
    ImportMdl.balance model_vertices = Ok bal /\
    length bal = length model_vertices /\
    forall i v,
      model_vertices !! i = Some v ->
      exists b r,
        bal !! i = Some b /\ b = clip r 0 1 /\
        r == - (1 / (2 * width)) * ImportMdl.vx v + (1 # 2) /\
        0 <= b <= 1 /\
        (0 <= r <= 1 -> b == r) /\ (r <= 0 -> b == 0) /\ (1 <= r -> b == 1).
Proof.
  intros Hmax Hmin Hne.
  destruct (array_max_spec _ _ Hmax) as [Hmx Hle].
  destruct (array_min_spec _ _ Hmin) as [Hmn Hge].
  split; [repeat split; auto |].
  assert (Hlt : mn < mx).
  { specialize (Hle mn Hmn). destruct (Qlt_le_dec mn mx) as [| Hc]; [done |].
    exfalso. apply Hne. lra. }
  set (width := (mx - mn) * (1 - (993 # 10) / 100)).
  assert (Hw : width == (mx - mn) * (7 # 1000)) by (unfold width; field).
  assert (Hpos : 0 < width) by (rewrite Hw; nra).
  assert (Hbw : ImportMdl.balance_width model_vertices = Ok width).
  { unfold ImportMdl.balance_width. rewrite Hmax, Hmin. reflexivity. }
  exists width, (map (fun v => ImportMdl.balance_at width (ImportMdl.vx v)) model_vertices).
  split; [done |]. split; [done |]. split; [done |].
  split.
  { unfold ImportMdl.balance. rewrite Hbw. cbn [mbind result_bind rbind].
    destruct (Qeq_bool width 0) eqn:E; [| done].
    apply Qeq_bool_iff in E. lra. }
  split; [by rewrite length_map |].
  intros i v Hv.
  exists (ImportMdl.balance_at width (ImportMdl.vx v)),
         (- ImportMdl.vx v / width / 2 + (1 # 2)).
  split; [by rewrite list_lookup_fmap, Hv |].
  split; [done |].
  split; [field; lra |].
  apply clip_unit.
Qed.

Lemma balance_clipped_ramp_witness :
  ImportMdl.array_max Samples.tall_row = Ok 4 /\
  ImportMdl.array_min Samples.tall_row = Ok (-1) /\
  ~ 4 == -1 /\
  exists width bal,
    ImportMdl.balance_width Samples.tall_row = Ok width /\
    width == (4 - -1) * (7 # 1000) /\ 0 < width /\
    ImportMdl.balance Samples.tall_row = Ok bal.
Proof.
  split; [reflexivity |]. split; [reflexivity |]. split; [discriminate |].
  destruct (balance_clipped_ramp Samples.tall_row 4 (-1) eq_refl eq_refl)
    as (_ & width & bal & Hw & Hw' & Hpos & Hb & _); [discriminate |].
  exists width, bal. done.
Defined.

(** C2 as stated fails: the two sample arrays have the same X coordinates,
    hence the same X extent, but the vertex at X = 1/100 gets the weight 1/7
    in the first and 5/14 in the second, whose Y coordinates reach 4. *)
Lemma balance_depends_on_other_axes :
  map ImportMdl.vx Samples.flat_row = map ImportMdl.vx Samples.tall_row /\
  (exists a b, ImportMdl.balance Samples.flat_row = Ok [1; 0; a] /\
               ImportMdl.balance Samples.tall_row = Ok [1; 0; b] /\
               a == 1 # 7 /\ b == 5 # 14 /\ ~ a == b).
Proof.
  split; [reflexivity |].
  eexists _, _. split; [vm_compute; reflexivity |]. split; [vm_compute; reflexivity |].
  split; [reflexivity |]. split; [reflexivity |]. discriminate.
Qed.

End BalanceFacts.

(** ** Model import *)

Section ImportFacts.
Import ImportMdl Observe.
Context `{External}.

Ltac inv_bind H x Hx := apply mbind_ok in H as (x & Hx & H).

Lemma create_flex_drivers_keeps obj mdl obj' text warnings :
  create_flex_drivers obj mdl = Ok (obj', text, warnings) ->
  is_copy obj' = is_copy obj /\
  material_slots obj' = material_slots obj /\
  uv_layers obj' = uv_layers obj /\
  vertex_groups obj' = vertex_groups obj.
Proof.
  unfold create_flex_drivers. destruct (shape_keys obj) as [| k ks].
  - intros [= <- _ _]. done.
  - intros Hc.
    inv_bind Hc controllers Hcs. inv_bind Hc script Hs. inv_bind Hc s Hk.
    injection Hc as <- _ _. done.
Qed.

Lemma author_mesh_fields mdl vvd scale cd un st vtx_model model mesh_obj obj e :
  author_mesh mdl vvd scale cd un st vtx_model model mesh_obj = Ok (obj, e) ->
  exists lod vtx_vertices indices_array material_indices_array vertices triangles
         slots uv_data extra groups,
    model_lods vtx_model !! O = Some lod /\
    merge_meshes model lod = (vtx_vertices, indices_array, material_indices_array) /\
    gather (get_slice _ (lod_data vvd) (vertex_offset model) (vertex_count model))
           vtx_vertices = Ok vertices /\
    reshape3 (rev indices_array) = Ok triangles /\
    material_names mdl un material_indices_array = Ok slots /\
    primary_uv_layer vertices (concat triangles) = Ok uv_data /\
    rmap (extra_uv_layer model vtx_vertices (concat triangles)) (extra_data vvd) = Ok extra /\
    (if negb st then build_vertex_groups mdl vertices else Ok []) = Ok groups /\
    is_copy obj = is_copy mesh_obj /\
    material_slots obj = slots /\
    uv_layers obj = uv_data :: extra /\
    vertex_groups obj = groups.
Proof.
  unfold author_mesh. intros Ha.
  inv_bind Ha lod Hlod. apply of_option_ok in Hlod.
  destruct (merge_meshes model lod) as [[vtx_vertices indices_array] material_indices_array]
    eqn:Hmerge.
  inv_bind Ha vertices Hv. inv_bind Ha triangles Ht. inv_bind Ha slots Hsl.
  inv_bind Ha uv_data Huv. inv_bind Ha extra Hex. inv_bind Ha groups Hg.
  inv_bind Ha kd Hkd.
  exists lod, vtx_vertices, indices_array, material_indices_array, vertices, triangles,
         slots, uv_data, extra, groups.
  do 8 (split; [done |]).
  destruct kd.2.
  - inv_bind Ha driven Hd. injection Ha as <- _.
    destruct driven as [[obj' text] warnings]. cbn [fst].
    apply create_flex_drivers_keeps in Hd as (-> & -> & -> & ->). done.
  - injection Ha as <- _. done.
Qed.

Lemma mesh_object_for_copy mdl re un st body_part model :
  is_copy (mesh_object_for mdl re un st body_part model).1
  = (mesh_object_for mdl re un st body_part model).2.
Proof.
  unfold mesh_object_for. destruct re; [| done].
  by destruct (lookup_original _ _).
Qed.

Lemma import_sub_model_traced mdl vvd scale cd re un body_part c vm c' :
  import_sub_model mdl vvd scale cd re un (is_static_prop mdl) body_part c vm = Ok c' ->
  Forall (traced mdl vvd scale cd un) (container_objects c) ->
  container_armature c' = container_armature c /\
  Forall (traced mdl vvd scale cd un) (container_objects c').
Proof.
  unfold import_sub_model. intros Hi Hc.
  destruct (vertex_count vm.2 =? 0)%nat; [injection Hi as <-; done |].
  pose proof (mesh_object_for_copy mdl re un (is_static_prop mdl) body_part vm.2) as Hcopy.
  destruct (mesh_object_for mdl re un (is_static_prop mdl) body_part vm.2)
    as [mesh_obj used_copy]. cbn [fst snd] in Hcopy.
  destruct used_copy.
  - injection Hi as <-. split; [done |]. cbn [container_objects add_object].
    apply Forall_app. split; [done |]. constructor; [by left | constructor].
  - inv_bind Hi authored_obj Ha. injection Hi as <-. split; [done |].
    cbn [container_objects add_object].
    apply Forall_app. split; [done |]. constructor; [| constructor].
    destruct authored_obj as [obj e]. cbn [fst].
    destruct (author_mesh_fields _ _ _ _ _ _ _ _ _ _ _ Ha)
      as (lod & vtx_vertices & indices_array & material_indices_array & vertices
          & triangles & slots & uv_data & extra & groups
          & Hlod & Hmerge & Hv & Ht & _ & _ & _ & _ & Hic & _).
    right. split; [congruence |].
    exists vm.2, vtx_vertices, (concat triangles), vertices.
    exists vm.1, lod, indices_array, material_indices_array, triangles, mesh_obj, e.
    done.
Qed.

Lemma import_model_container mdl vvd vtx scale cd re un c :
  import_model mdl vvd vtx scale cd re un = Ok c ->
  (if is_static_prop mdl then container_armature c = None
   else exists arm, create_armature mdl = Ok arm /\ container_armature c = Some arm) /\
  Forall (traced mdl vvd scale cd un) (container_objects c).
Proof.
  unfold import_model. intros Hi.
  inv_bind Hi armature Harm. inv_bind Hi c0 Hloop.
  assert (Hc0 : container_armature c0 = armature
                /\ Forall (traced mdl vvd scale cd un) (container_objects c0)).
  { pose (P := fun c1 : Container =>
                  container_armature c1 = armature
                  /\ Forall (traced mdl vvd scale cd un) (container_objects c1)).
    refine (rfold_inv P _ _ _ _ _ _ Hloop); [split; [done | constructor] |].
    intros acc bp acc' _ Hacc Hinner.
    refine (rfold_inv P _ _ _ _ Hacc _ Hinner).
    intros a vm a' _ [Ha1 Ha2] Hstep.
    apply import_sub_model_traced in Hstep as [Hs1 Hs2]; [| done].
    split; [congruence | done]. }
  destruct Hc0 as [Harm0 Hobjs].
  assert (Hfinal : container_armature c = armature
                   /\ container_objects c = container_objects c0).
  { destruct (attachments mdl); [injection Hi as <-; done |].
    inv_bind Hi u Hu. inv_bind Hi created Hcr. injection Hi as <-. done. }
  destruct Hfinal as [-> ->]. split; [| done].
  destruct (is_static_prop mdl); cbn [negb] in Harm.
  - by injection Harm as <-.
  - inv_bind Harm arm Ha. injection Harm as <-. eauto.
Qed.

Lemma mat_name_of_length un mdl name : String.length (mat_name_of un mdl name) <= 63.
Proof. unfold mat_name_of. destruct un; apply last_chars_length. Qed.

Lemma create_armature_names mdl arm :
  create_armature mdl = Ok arm ->
  map bl_name (armature_bones arm) = map (fun b => last_chars 63 (bone_name b)) (bones mdl).
Proof.
  unfold create_armature. intros Hc. inv_bind Hc edit_bones He. injection Hc as <-.
  cbn [armature_bones].
  etransitivity; [eapply (rmap_map _ bl_name fst); [| exact He] |].
  - intros [name s_bone] y. cbn [fst].
    destruct (negb _); [| by intros [= <-]].
    intros Hy. inv_bind Hy parent Hp. by injection Hy as <-.
  - apply fst_zip. by rewrite length_map.
Qed.

(** The places where names are cut.  The edit bones of the armature are
    named by the last 63 characters of the bone names; a material is
    registered under the last 63 characters of its name, or, with unique
    material names, under the last 63 characters of "base name + _ + name"
    (which is the whole prefixed name when that fits); in every case the
    name has at most 63 characters.  These are the names under which
    [import_model] requests material slots and [import_materials] creates
    materials. *)
Lemma cut_names_fit_63_characters (mdl : MdlV49) :
  (forall arm, create_armature mdl = Ok arm ->
     map bl_name (armature_bones arm)
       = map (fun b => last_chars 63 (bone_name b)) (bones mdl) /\
     Forall (fun b => String.length (bl_name b) <= 63) (armature_bones arm)) /\
  (forall un name, String.length (mat_name_of un mdl name) <= 63) /\
  (forall name, mat_name_of false mdl name = last_chars 63 name) /\
  (forall name, exists p,
     (path_stem (header_name mdl) ++ "_" ++ last_chars 63 name)%string
     = (p ++ mat_name_of true mdl name)%string) /\
  (forall name,
     String.length (path_stem (header_name mdl) ++ "_" ++ name)%string <= 63 ->
     mat_name_of true mdl name = (path_stem (header_name mdl) ++ "_" ++ name)%string) /\
  (forall vvd vtx scale cd re un c,
     import_model mdl vvd vtx scale cd re un = Ok c ->
     Forall (fun obj => is_copy obj = false ->
                        Forall (fun name => String.length name <= 63) (material_slots obj))
            (container_objects c)) /\
  (forall un use_bvlg h,
     Forall (fun created => String.length created.2 <= 63) (host_created h) ->
     Forall (fun created => String.length created.2 <= 63)
            (host_created (import_materials mdl un use_bvlg h))).
Proof.
  repeat apply conj.
  - intros arm Ha. pose proof (create_armature_names _ _ Ha) as Hn. split; [done |].
    apply Forall_forall. intros b Hb.
    assert (Hin : bl_name b ∈ map bl_name (armature_bones arm))
      by (apply list_elem_of_fmap; eauto).
    rewrite Hn in Hin. apply list_elem_of_fmap in Hin as (bone & -> & _).
    apply last_chars_length.
  - intros un name. apply mat_name_of_length.
  - done.
  - intros name. apply last_chars_suffix.
  - intros name Hfit. unfold mat_name_of.
    rewrite !string_length_append in Hfit.
    rewrite (last_chars_short 63 name) by lia.
    apply last_chars_short. rewrite !string_length_append. lia.
  - intros vvd vtx scale cd re un c Hi.
    apply import_model_container in Hi as [_ Hobjs].
    eapply Forall_impl; [exact Hobjs |].
    intros obj [Hcopy | [_ (model & vv & vi & vs & Hauth)]] Hnc; [congruence |].
    destruct Hauth as (vtx_model & lod & ia & mia & tr & mesh_obj & e
                       & _ & _ & _ & _ & _ & _ & Ham).
    apply author_mesh_fields in Ham
      as (lod' & vv' & ia' & mia' & vs' & tr' & slots & uvd & extra & groups
          & _ & _ & _ & _ & Hslots & _ & _ & _ & _ & -> & _).
    unfold material_names in Hslots. destruct mia'; [discriminate |].
    eapply rmap_Forall; [| exact Hslots].
    intros mat_id name Hn. cbn beta in Hn. inv_bind Hn mat Hm. injection Hn as <-.
    apply mat_name_of_length.
  - intros un use_bvlg h. unfold import_materials.
    generalize (materials mdl). intros mats. revert h.
    induction mats as [| mat mats IH]; intros h Hh; [done |].
    cbn [foldl]. apply IH. unfold import_material.
    destruct (already_loaded _ _); [done |].
    destruct (find_material_path _ _); [| done].
    cbn [host_created]. apply Forall_app. split; [done |].
    constructor; [apply mat_name_of_length | constructor].
Qed.

Lemma Qlt_bool_true a b : Qlt_bool a b = true -> (a < b)%Q.
Proof.
  unfold Qlt_bool. rewrite negb_true_iff. intros Hle.
  apply Qnot_le_lt. intros Hc. apply Qle_bool_iff in Hc. congruence.
Qed.

Lemma weight_groups_from (bs : list Bone) :
  forall (i : nat) (d : gmap string nat) name j,
    foldl (fun d ib => <[bone_name ib.2 := ib.1]> d) d (zip (seq i (length bs)) bs)
      !! name = Some j ->
    d !! name = Some j \/
    (exists bone, bs !! (j - i) = Some bone /\ i <= j /\ bone_name bone = name).
Proof.
  induction bs as [| b bs IH]; intros i d name j; cbn [length seq zip zip_with foldl].
  - by left.
  - intros Hl. apply IH in Hl as [Hd | (bone & Hb & Hij & Hn)].
    + cbn [fst snd] in Hd.
      destruct (decide (bone_name b = name)) as [<- | Hne].
      * rewrite lookup_insert_eq in Hd. injection Hd as <-.
        right. exists b. rewrite Nat.sub_diag. done.
      * rewrite lookup_insert_ne in Hd by done. by left.
    + right. exists bone. split; [| split; [lia | done]].
      replace (j - i) with (S (j - S i)) by lia. done.
Qed.

Lemma weight_groups_lookup mdl name j :
  weight_groups mdl !! name = Some j ->
  exists bone_j, bones mdl !! j = Some bone_j /\ bone_name bone_j = name.
Proof.
  unfold weight_groups. intros Hl.
  apply weight_groups_from in Hl as [Hd | (bone & Hb & _ & Hn)].
  - by rewrite lookup_empty in Hd.
  - rewrite Nat.sub_0_r in Hb. eauto.
Qed.

Lemma add_influence_ok mdl vertices n v k groups bw groups' :
  vertices !! n = Some v ->
  bone_id v !! k = Some bw.1 -> weight v !! k = Some bw.2 ->
  groups_ok mdl vertices groups ->
  add_influence mdl n groups bw = Ok groups' ->
  groups_ok mdl vertices groups'.
Proof.
  intros Hv Hb Hw [Hnames Hadded]. unfold add_influence.
  destruct (Qlt_bool 0 bw.2) eqn:Hpos; [| by intros [= <-]].
  intros Ha. inv_bind Ha bone Hbone. apply of_option_ok in Hbone.
  inv_bind Ha gi Hgi. apply of_option_ok in Hgi. injection Ha as <-.
  apply weight_groups_lookup in Hgi as (bone_j & Hj & Hn).
  split.
  - rewrite <- Hnames. apply list_eq. intros i.
    rewrite !list_lookup_fmap, list_lookup_alter.
    destruct (decide (gi = i)) as [-> | ?]; [| done]. by destruct (groups !! i).
  - intros j g m w Hg Hin.
    rewrite list_lookup_alter in Hg. destruct (decide (gi = j)) as [-> | Hne].
    + destruct (groups !! j) as [g0 |] eqn:Hg0; [| discriminate].
      injection Hg as <-. cbn [vg_added vg_add] in Hin.
      apply elem_of_app in Hin as [Hin | Hin]; [by eapply Hadded |].
      apply list_elem_of_singleton in Hin. injection Hin as -> ->.
      split; [by apply Qlt_bool_true |].
      exists bw.1. split; [by exists v, k |]. by exists bone, bone_j.
    + by eapply Hadded.
Qed.

Lemma build_vertex_groups_ok mdl vertices groups :
  build_vertex_groups mdl vertices = Ok groups -> groups_ok mdl vertices groups.
Proof.
  unfold build_vertex_groups. intros Hb.
  refine (rfold_inv (groups_ok mdl vertices) _ _ _ _ _ _ Hb).
  - split; [unfold new_vertex_groups; by rewrite <- list_fmap_compose |].
    intros j g n w Hg Hin. unfold new_vertex_groups in Hg.
    rewrite list_lookup_fmap in Hg. destruct (bones mdl !! j); [| discriminate].
    injection Hg as <-. by apply elem_of_nil in Hin.
  - intros acc [n v] acc' Hnv Hacc Hstep. unfold add_vertex in Hstep. cbn [fst snd] in Hstep.
    apply list_elem_of_lookup in Hnv as [i Hi].
    apply lookup_zip_Some in Hi as [Hseq Hv].
    apply lookup_seq in Hseq as [-> _]. cbn in Hv.
    refine (rfold_inv (groups_ok mdl vertices) _ _ _ _ Hacc _ Hstep).
    intros a bw a' Hbw Ha Hs.
    apply list_elem_of_lookup in Hbw as [k Hk].
    destruct bw as [b w]. apply lookup_zip_Some in Hk as [Hkb Hkw].
    by eapply (add_influence_ok mdl vertices i v k a (b, w)).
Qed.

Lemma same_name_distinct mdl b j :
  NoDup (map bone_name (bones mdl)) -> same_name mdl b j -> b = j.
Proof.
  intros Hnd (bone & bone_j & Hb & Hj & Hn).
  apply (NoDup_lookup _ b j (bone_name bone) Hnd).
  - by rewrite list_lookup_fmap, Hb.
  - by rewrite list_lookup_fmap, Hj, Hn.
Qed.




Lemma p_balance_sum bal : Forall2 (fun b pb => b + pb == 1)%Q bal (p_balance bal).
Proof.
  unfold p_balance. induction bal as [| b bal IH]; constructor; [ring | done].
Qed.

Lemma balance_length model_vertices bal :
  balance model_vertices = Ok bal -> length bal = length model_vertices.
Proof.
  unfold balance. intros Hb. inv_bind Hb width Hw.
  destruct (Qeq_bool width 0); [discriminate |]. injection Hb as <-.
  by rewrite length_map.
Qed.

(** The weights applied, in the rational idealisation.  When drivers are
    requested and the flex declares a partner, a successful step writes to
    the flex's shape key the (scaled) vertices displaced by the (scaled)
    flex delta times the primary weights, and to the partner's shape key
    the vertices displaced by the delta times the partner weights; there is
    one primary and one partner weight per vertex, and with exact
    arithmetic the two sum to 1.  (Module [Single] has the weights as
    single precision stores them.) *)
Theorem partner_weights_sum_to_one
    (mdl : MdlV49) (vvd : Vvd) (scale : Q) (model : Model)
    (vtx_vertices : list nat) (base_co : list Vector3)
    (keys keys' : list ShapeKey) (flex_name : string) (flex_desc : Flex) :
  has_partner flex_desc = true ->
  add_flex mdl vvd scale true model vtx_vertices base_co keys (flex_name, flex_desc)
    = Ok keys' ->
  exists vertex_animation raw_delta raw_vertices partner_name bal
         keys1 keys2 partner_shape_key shape_key,
    vertex_cache vvd !! flex_name = Some vertex_animation /\
    gather (get_slice _ vertex_animation (vertex_offset model) (vertex_count model))
           vtx_vertices = Ok raw_delta /\
    gather (get_slice _ (map vertex (lod_data vvd)) (vertex_offset model)
                      (vertex_count model))
           vtx_vertices = Ok raw_vertices /\
    index (flex_names mdl) (partner_index flex_desc) = Ok partner_name /\
    get_or_add partner_name base_co keys = (keys1, partner_shape_key) /\
    get_or_add flex_name base_co keys1 = (keys2, shape_key) /\
    let flex_delta := map (fun d => scale3 d scale) raw_delta in
    let model_vertices := map (fun v => scale3 v scale) raw_vertices in
    balance model_vertices = Ok bal /\
    keys' = set_co partner_shape_key (blend flex_delta (p_balance bal) model_vertices)
              (set_co shape_key (blend flex_delta bal model_vertices) keys2) /\
    length bal = length model_vertices /\
    length (p_balance bal) = length model_vertices /\
    Forall2 (fun b pb => b + pb == 1)%Q bal (p_balance bal).
Proof.
  intros Hp. unfold add_flex. cbn [fst snd]. rewrite Hp. cbn [andb].
  intros Ha.
  inv_bind Ha vertex_animation Hva. apply of_option_ok in Hva.
  inv_bind Ha raw_delta Hfd. inv_bind Ha raw_vertices Hmv.
  inv_bind Ha partner_name Hpn.
  destruct (get_or_add partner_name base_co keys) as [keys1 partner_shape_key] eqn:H1.
  destruct (get_or_add flex_name base_co keys1) as [keys2 shape_key] eqn:H2.
  inv_bind Ha bal Hbal. injection Ha as <-.
  exists vertex_animation, raw_delta, raw_vertices, partner_name, bal,
         keys1, keys2, partner_shape_key, shape_key.
  do 6 (split; [done |]). cbn zeta.
  split; [exact Hbal |]. split; [done |].
  pose proof (balance_length _ _ Hbal) as Hlen.
  split; [done |]. split; [unfold p_balance; by rewrite length_map |].
  apply p_balance_sum.
Qed.

(** *** Driver script generation *)

Lemma input_definition_supported inp :
  supported inp.2 = true -> exists d, input_definition inp = Ok d.
Proof.
  unfold supported, input_definition. intros Hs.
  destruct (mem inp.2 _).
  - destruct (contains "left_" inp.1); [eauto |].
    destruct (contains "right_" inp.1); eauto.
  - cbn [orb] in Hs. rewrite Hs. eauto.
Qed.

Lemma input_definition_unsupported inp :
  supported inp.2 = false -> input_definition inp = Raise (not_supported_error inp.2).
Proof.
  unfold supported, input_definition. intros Hs.
  apply orb_false_iff in Hs as [-> ->]. done.
Qed.

Lemma input_definitions_supported inputs :
  forallb (fun inp => supported inp.2) inputs = true ->
  exists defs, input_definitions inputs = Ok defs /\ length defs = length inputs.
Proof.
  unfold input_definitions. induction inputs as [| inp inputs IH]; cbn [forallb rmap].
  - by exists [].
  - intros Ha. apply andb_true_iff in Ha as [Hi Hrest].
    destruct (input_definition_supported _ Hi) as (d & ->).
    destruct (IH Hrest) as (defs & -> & Hlen).
    exists (d :: defs). cbn. by rewrite Hlen.
Qed.

Lemma input_definitions_unsupported before inp after :
  forallb (fun inp => supported inp.2) before = true ->
  supported inp.2 = false ->
  input_definitions (before ++ inp :: after) = Raise (not_supported_error inp.2).
Proof.
  unfold input_definitions. intros Hb Hi.
  induction before as [| b before IH]; cbn [app rmap forallb] in *.
  - by rewrite (input_definition_unsupported _ Hi).
  - apply andb_true_iff in Hb as [Hb Hrest].
    destruct (input_definition_supported _ Hb) as (d & ->).
    cbn [rbind]. by rewrite (IH Hrest).
Qed.

(** C5.  An expression input whose fetch kind is none of fetch1, 2WAY1,
    2WAY0, NWAY, DUE, fetch2 makes the routine raise NotImplementedError:
    nothing is emitted for it, for the rule it belongs to, or for the script
    (provided the rule is not skipped by the test on the module's global
    names).  An input with a supported kind gets a definition; a rule whose
    inputs are all supported gets its function appended to the script, and
    a rule set whose inputs are all supported raises nothing. *)
Theorem unsupported_fetch_kind_raises :
  (forall inp, supported inp.2 = false ->
     input_definition inp = Raise (not_supported_error inp.2)) /\
  (forall inp, supported inp.2 = true -> exists d, input_definition inp = Ok d) /\
  (forall before inp after,
     forallb (fun inp => supported inp.2) before = true ->
     supported inp.2 = false ->
     input_definitions (before ++ inp :: after) = Raise (not_supported_error inp.2)) /\
  (forall script flex_name expr before inp after,
     reached (flex_name, (expr, before ++ inp :: after)) = true ->
     forallb (fun inp => supported inp.2) before = true ->
     supported inp.2 = false ->
     add_rule script (flex_name, (expr, before ++ inp :: after))
     = Raise (not_supported_error inp.2)) /\
  (forall script rule,
     forallb (fun inp => supported inp.2) rule.2.2 = true ->
     add_rule script rule = Ok script \/
     exists definition, add_rule script rule = Ok (script ++ [definition])) /\
  (forall rules_before rule rules_after script before inp after,
     forallb (fun r => forallb (fun inp => supported inp.2) r.2.2) rules_before = true ->
     rule.2.2 = before ++ inp :: after ->
     reached rule = true ->
     forallb (fun inp => supported inp.2) before = true ->
     supported inp.2 = false ->
     rfold add_rule (rules_before ++ rule :: rules_after) script
     = Raise (not_supported_error inp.2)) /\
  (forall rules script,
     forallb (fun r => forallb (fun inp => supported inp.2) r.2.2) rules = true ->
     exists script', rfold add_rule rules script = Ok script').
Proof.
  assert (Hrule : forall script rule,
             forallb (fun inp => supported inp.2) rule.2.2 = true ->
             add_rule script rule = Ok script \/
             exists definition, add_rule script rule = Ok (script ++ [definition])).
  { intros script [flex_name [expr inputs]] Hs. unfold add_rule. cbv zeta.
    cbn [fst snd] in *.
    destruct (mem _ module_globals); [by left |].
    destruct (input_definitions_supported _ Hs) as (defs & -> & _). right. eauto. }
  assert (Hbad : forall script flex_name expr before inp after,
             reached (flex_name, (expr, before ++ inp :: after)) = true ->
             forallb (fun inp => supported inp.2) before = true ->
             supported inp.2 = false ->
             add_rule script (flex_name, (expr, before ++ inp :: after))
             = Raise (not_supported_error inp.2)).
  { intros script flex_name expr before inp after Hr Hb Hi.
    unfold reached in Hr. apply negb_true_iff in Hr. unfold add_rule. cbv zeta.
    cbn [fst snd] in *. rewrite Hr. by rewrite (input_definitions_unsupported _ _ _ Hb Hi). }
  split; [exact input_definition_unsupported |].
  split; [exact input_definition_supported |].
  split; [exact input_definitions_unsupported |].
  split; [exact Hbad |]. split; [exact Hrule |]. split.
  - intros rules_before rule rules_after script before inp after Hrb Hin Hr Hb Hi.
    revert script. induction rules_before as [| r rs IH]; intros script;
      cbn [app rfold forallb] in *.
    + destruct rule as [flex_name [expr inputs]]. cbn [fst snd] in Hin. subst inputs.
      by rewrite (Hbad script flex_name expr before inp after Hr Hb Hi).
    + apply andb_true_iff in Hrb as [Hr0 Hrest].
      destruct (Hrule script r Hr0) as [-> | (d & ->)]; cbn [rbind]; by apply IH.
  - intros rules. induction rules as [| r rs IH]; intros script Hs; cbn [rfold forallb] in *.
    + eauto.
    + apply andb_true_iff in Hs as [Hr0 Hrest].
      destruct (Hrule script r Hr0) as [-> | (d & ->)]; cbn [rbind]; by apply IH.
Qed.

Lemma split_nonempty c s : split c s <> [].
Proof.
  destruct s as [| a s]; cbn [split]; [done |].
  destruct (Ascii.eqb a c); [done |]. by destruct (split c s).
Qed.

(** C6 (code evaluated).  For a shape key without a compiled rule: when
    every "_"-separated part of its name is a registered controller, the
    single-controller fallback is not emitted - joining the list of input
    tuples raises TypeError (or, were the expression object falsy, the
    identity fallback is taken); when some part is not a registered
    controller, a controller named after the shape key is registered with
    mode 1 and range 0..1, the identity driver is emitted, and the two
    warnings are recorded. *)
Theorem passthrough_fallback_raises (flex_name : string) (s : DriverState) :
  (forall expr inputs,
     _parse_simple_flex (ds_controllers s) flex_name = Some (expr, inputs) ->
     (expr_bool expr = true -> basic_rule flex_name s = Raise TypeError) /\
     (expr_bool expr = false -> basic_rule flex_name s = Ok (identity_fallback flex_name s))) /\
  (_parse_simple_flex (ds_controllers s) flex_name = None ->
   basic_rule flex_name s = Ok (identity_fallback flex_name s)).
Proof.
  split.
  - intros expr inputs Hp. unfold basic_rule. rewrite Hp.
    assert (Hne : inputs <> []).
    { unfold _parse_simple_flex in Hp. destruct (negb _); [discriminate |].
      injection Hp as _ <-. pose proof (split_nonempty "_" flex_name) as Hs.
      by destruct (split "_" flex_name). }
    destruct inputs as [| inp inputs]; [done |].
    split; intros ->; reflexivity.
  - intros Hp. unfold basic_rule. by rewrite Hp.
Qed.

(** *** Material import *)

Lemma already_loaded_logged h lines name :
  already_loaded (logged h lines) name = already_loaded h name.
Proof. reflexivity. Qed.

Lemma logged_logged h l1 l2 : logged (logged h l1) l2 = logged h (l1 ++ l2).
Proof. unfold logged; cbn. by rewrite app_assoc. Qed.

Lemma import_material_loaded mdl un use_bvlg h material :
  already_loaded h (mat_name_of un mdl (material_name material)) = true ->
  import_material mdl un use_bvlg h material
  = logged h [skip_message (mat_name_of un mdl (material_name material))].
Proof. unfold import_material. by intros ->. Qed.

Lemma import_materials_loaded mdl un use_bvlg mats :
  forall h,
    (forall material, material ∈ mats ->
       already_loaded h (mat_name_of un mdl (material_name material)) = true) ->
    foldl (import_material mdl un use_bvlg) h mats
    = logged h (map (fun material =>
                       skip_message (mat_name_of un mdl (material_name material))) mats).
Proof.
  induction mats as [| material mats IH]; intros h Hall; cbn [foldl map].
  - unfold logged. rewrite app_nil_r. by destruct h.
  - rewrite import_material_loaded by (apply Hall; left).
    rewrite IH.
    + by rewrite logged_logged.
    + intros m Hm. rewrite already_loaded_logged. apply Hall. by right.
Qed.

(** C7.  A material that exists in the host and is flagged as loaded is
    skipped: the only effect of its loop iteration is one informational log
    line.  Hence, when all materials of the model are loaded, importing
    them changes nothing but the log (one line per material), and doing so
    again leaves materials, shader flag and loader calls as they were. *)
Theorem loaded_materials_are_skipped
    (mdl : MdlV49) (unique_material_names use_bvlg : bool) (h : Host) :
  (forall material,
     already_loaded h (mat_name_of unique_material_names mdl (material_name material))
     = true ->
     import_material mdl unique_material_names use_bvlg h material
     = logged h [skip_message
                   (mat_name_of unique_material_names mdl (material_name material))]) /\
  (all_loaded mdl unique_material_names h ->
   let lines := map (fun material =>
                       skip_message
                         (mat_name_of unique_material_names mdl (material_name material)))
                    (materials mdl) in
   import_materials mdl unique_material_names use_bvlg h = logged h lines /\
   import_materials mdl unique_material_names use_bvlg
     (import_materials mdl unique_material_names use_bvlg h)
   = logged (import_materials mdl unique_material_names use_bvlg h) lines).
Proof.
  split; [intros material; apply import_material_loaded |].
  intros Hall lines. unfold import_materials.
  rewrite (import_materials_loaded _ _ _ _ h Hall). split; [done |].
  apply import_materials_loaded. intros m Hm.
  rewrite already_loaded_logged. by apply Hall.
Qed.

End ImportFacts.

(** ** The statements at the sample model *)

Section Witnesses.
Import ImportMdl Observe Samples.

Lemma partner_weights_sum_to_one_witness :
  has_partner smile_flex = true /\
  @add_flex external (face_mdl 0 face_rules) face_vvd 1 true face_model [0; 1; 2]%nat
    (map vertex face_vertices) base_keys ("smileL", smile_flex) = Ok paired_keys /\
  exists bal, length bal = 3%nat /\ Forall2 (fun b pb => b + pb == 1)%Q bal (p_balance bal).
Proof.
  split; [reflexivity |]. split; [vm_compute; reflexivity |].
  destruct (@partner_weights_sum_to_one external (face_mdl 0 face_rules) face_vvd 1
              face_model [0; 1; 2]%nat (map vertex face_vertices) base_keys paired_keys
              "smileL" smile_flex eq_refl)
    as (va & rd & rv & pn & bal & k1 & k2 & pk & sk & _ & _ & Hrv & _ & _ & _ & Hrest).
  - vm_compute; reflexivity.
  - cbn zeta in Hrest. destruct Hrest as (_ & _ & Hlen & _ & Hsum).
    exists bal. split; [| exact Hsum].
    rewrite Hlen, length_map. apply gather_length in Hrv. rewrite Hrv. reflexivity.
Defined.

Lemma unsupported_fetch_kind_raises_witness :
  @reached external ("smile", (Rule "a * b", [("a", "fetch1")] ++ ("b", "fetch3") :: []))
  = true /\
  supported "fetch1" = true /\ supported "fetch3" = false /\
  @add_rule external [] ("smile", (Rule "a * b", [("a", "fetch1"); ("b", "fetch3")]))
  = Raise (not_supported_error "fetch3").
Proof.
  split; [reflexivity |]. split; [reflexivity |]. split; [reflexivity |].
  destruct (@unsupported_fetch_kind_raises external) as (_ & _ & _ & Hrule & _).
  apply (Hrule [] "smile" (Rule "a * b") [("a", "fetch1")] ("b", "fetch3") []);
    reflexivity.
Defined.

Lemma passthrough_fallback_raises_witness :
  _parse_simple_flex (ds_controllers smile_state) "smile"
  = Some (Combo [FetchController "smile"], [("smile", "fetch2")]) /\
  @expr_bool external (Combo [FetchController "smile"]) = true /\
  @basic_rule external "smile" smile_state = Raise TypeError.
Proof.
  split; [reflexivity |]. split; [reflexivity |].
  destruct (@passthrough_fallback_raises external "smile" smile_state) as [Hsome _].
  destruct (Hsome (Combo [FetchController "smile"]) [("smile", "fetch2")] eq_refl)
    as [Hraise _].
  apply Hraise. reflexivity.
Defined.

Example drivers_for_controller_named_key_raise :
  @create_flex_drivers external smile_object (face_mdl 0 []) = Raise TypeError.
Proof. vm_compute. reflexivity. Qed.

Lemma loaded_host_all_loaded : @all_loaded external (face_mdl 0 face_rules) true loaded_host.
Proof.
  intros material Hm. cbn [materials face_mdl] in Hm.
  apply list_elem_of_singleton in Hm as ->. vm_compute. reflexivity.
Defined.

Lemma loaded_materials_are_skipped_witness :
  @all_loaded external (face_mdl 0 face_rules) true loaded_host /\
  @import_materials external (face_mdl 0 face_rules) true true loaded_host
  = logged loaded_host [skip_message "face_skin"].
Proof.
  split; [exact loaded_host_all_loaded |].
  destruct (@loaded_materials_are_skipped external (face_mdl 0 face_rules) true true
              loaded_host) as [_ Hall].
  destruct (Hall loaded_host_all_loaded) as [Hone _]. exact Hone.
Defined.

End Witnesses.

(** * Further properties *)

(** ** Shader construction: shape of the graph *)

Section ShaderGraph.
Import VRGeneric Observe.

Lemma build_nodes_links self status m :
  proceeds status ->
  nodes (build self status m) = nodes m ++ added_nodes self /\
  links (build self status m) = links m ++ added_links self (length (nodes m)).
Proof. intros Hp. by rewrite (build_ext _ _ _ Hp). Qed.

(** X1.  [create_nodes] answers by doing nothing when the base class
    reports UNKNOWN or LOADED; otherwise it keeps the nodes and links the
    tree already has and appends an output node, a principled shader, the
    albedo image, a mix node exactly when the three colour channels of the
    tint all differ from 1, the normal image and a normal-map node - five or
    six nodes, in this order. *)
Theorem create_nodes_appends (self : Shader) (status : string) (m : BpyMaterial) :
  (mem status ["UNKNOWN"; "LOADED"] = true -> build self status m = m) /\
  (mem status ["UNKNOWN"; "LOADED"] = false ->
   let m' := build self status m in
   take (length (nodes m)) (nodes m') = nodes m /\
   take (length (links m)) (links m') = links m /\
   map node_type (new_nodes m m')
   = [ShaderNodeOutputMaterial; ShaderNodeBsdfPrincipled; ShaderNodeTexImage]
     ++ (if neq1 (v0 (color self)) && neq1 (v1 (color self)) && neq1 (v2 (color self))
         then [ShaderNodeMixRGB] else [])
     ++ [ShaderNodeTexImage; ShaderNodeNormalMap] /\
   map node_name (new_nodes m m')
   = [None; Some "vr_standard.vfx"; Some "albedo"]
     ++ (if neq1 (v0 (color self)) && neq1 (v1 (color self)) && neq1 (v2 (color self))
         then [None] else [])
     ++ [Some "normal"; None]).
Proof.
  split.
  - intros Hs. unfold build, create_nodes. by rewrite Hs.
  - intros Hp m'. subst m'.
    destruct (build_nodes_links self status m Hp) as [Hn Hl].
    rewrite (new_nodes_build _ _ _ Hp), Hn, Hl, !take_app_length.
    split; [done |]. split; [done |].
    unfold added_nodes. fold (rgb_all_differ self).
    destruct (rgb_all_differ self); done.
Qed.

Lemma create_nodes_appends_witness :
  mem "" ["UNKNOWN"; "LOADED"] = false /\
  map node_type (new_nodes Samples.opaque
                   (build (Samples.shader_with Samples.grey255 0 0 0) "" Samples.opaque))
  = [ShaderNodeOutputMaterial; ShaderNodeBsdfPrincipled; ShaderNodeTexImage;
     ShaderNodeMixRGB; ShaderNodeTexImage; ShaderNodeNormalMap].
Proof.
  split; [reflexivity |].
  destruct (create_nodes_appends (Samples.shader_with Samples.grey255 0 0 0) ""
              Samples.opaque) as [_ Hgo].
  destruct (Hgo eq_refl) as (_ & _ & Hty & _). exact Hty.
Defined.

(** X2.  Every link [create_nodes] adds joins two of the nodes it has just
    added, and no input socket is the target of two of the added links. *)
Theorem added_links_well_formed (self : Shader) (status : string) (m : BpyMaterial) :
  proceeds status ->
  let m' := build self status m in
  Forall (fun lk =>
            length (nodes m) <= from_node lk < length (nodes m') /\
            length (nodes m) <= to_node lk < length (nodes m'))
         (new_links m m') /\
  NoDup (map (fun lk => (to_node lk, to_socket lk)) (new_links m m')).
Proof.
  intros Hp m'. subst m'.
  rewrite (new_links_build _ _ _ Hp).
  destruct (build_nodes_links self status m Hp) as [-> _].
  rewrite length_app. generalize (length (nodes m)). intros n.
  unfold added_nodes, added_links, tint_links, alpha_links, normal_links, normal_nodes,
    link.
  destruct (rgb_all_differ self), (opacity self), (truthy (metalness self));
    cbn [app length fst snd map from_node to_node to_socket];
    (split;
     [ repeat first [ apply Forall_nil_2
                    | apply Forall_cons_2; [cbn [from_node to_node]; lia |] ]
     | repeat first
         [ apply NoDup_nil_2
         | apply NoDup_cons_2;
           [ rewrite ?elem_of_cons, elem_of_nil;
             intros Hin; repeat destruct Hin as [Hin | Hin]; try done;
             try discriminate Hin; injection Hin; intros; lia
           | ] ] ]).
Qed.

Lemma added_links_well_formed_witness :
  proceeds "" /\
  NoDup (map (fun lk => (to_node lk, to_socket lk))
             (new_links Samples.opaque
                (build (Samples.shader_with Samples.grey255 1 1 0) "" Samples.opaque))).
Proof.
  split; [reflexivity |].
  apply (added_links_well_formed (Samples.shader_with Samples.grey255 1 1 0) ""
           Samples.opaque eq_refl).
Defined.

(** X3.  Whatever the tint and the flags, the shader's BSDF output feeds
    the material output's Surface, its Roughness and Specular defaults are
    the shader's roughness and specular, the albedo image node carries the
    colour texture, and the image node named "normal" carries the normal
    texture and feeds a normal-map node that feeds the shader's Normal. *)
Theorem normal_map_and_surface_wired (self : Shader) (status : string) (m : BpyMaterial) :
  proceeds status ->
  let m' := build self status m in
  let n := length (nodes m) in
  link (n + 1, "BSDF") (n, "Surface") ∈ new_links m m' /\
  (exists shader albedo,
     new_nodes m m' !! 1 = Some shader /\
     default_value "Roughness" shader = Some (VFloat (roughness self)) /\
     default_value "Specular" shader = Some (VFloat (specular self)) /\
     new_nodes m m' !! 2 = Some albedo /\
     node_name albedo = Some "albedo" /\ image albedo = color_texture self) /\
  (exists k normal_image normal_map,
     new_nodes m m' !! k = Some normal_image /\
     node_type normal_image = ShaderNodeTexImage /\
     node_name normal_image = Some "normal" /\
     image normal_image = normal_texture self /\
     new_nodes m m' !! S k = Some normal_map /\
     node_type normal_map = ShaderNodeNormalMap /\
     S (S k) = length (new_nodes m m') /\
     link (n + k, "Color") (n + S k, "Color") ∈ new_links m m' /\
     link (n + S k, "Normal") (n + 1, "Normal") ∈ new_links m m').
Proof.
  intros Hp m' n. subst m'.
  rewrite (new_nodes_build _ _ _ Hp), (new_links_build _ _ _ Hp). fold n.
  unfold added_nodes, added_links, tint_links, alpha_links, normal_links.
  split; [cbn [app]; apply list_elem_of_here |].
  split; [exists (shader_node self), (albedo_node self); done |].
  destruct (rgb_all_differ self).
  - exists 4. eexists _, _. repeat split; try reflexivity.
    + apply elem_of_app. right. apply elem_of_app. right. apply elem_of_app. right.
      apply list_elem_of_here.
    + apply elem_of_app. right. apply elem_of_app. right. apply elem_of_app. right.
      apply list_elem_of_further, list_elem_of_here.
  - exists 3. eexists _, _. repeat split; try reflexivity.
    + apply elem_of_app. right. apply elem_of_app. right. apply elem_of_app. right.
      apply list_elem_of_here.
    + apply elem_of_app. right. apply elem_of_app. right. apply elem_of_app. right.
      apply list_elem_of_further, list_elem_of_here.
Qed.

Lemma normal_map_and_surface_wired_witness :
  proceeds "" /\
  link (1, "BSDF") (0, "Surface")
    ∈ new_links Samples.opaque
        (build (Samples.shader_with Samples.white 0 0 0) "" Samples.opaque).
Proof.
  split; [reflexivity |].
  apply (normal_map_and_surface_wired (Samples.shader_with Samples.white 0 0 0) ""
           Samples.opaque eq_refl).
Defined.

End ShaderGraph.

(** ** Generic facts about loops that can raise *)

Section LoopFacts.

Lemma rmap_total {A B} (f : A -> Result B) (l : list A) :
  Forall (fun x => exists y, f x = Ok y) l -> exists ys, rmap f l = Ok ys.
Proof.
  induction 1 as [| x l [y Hy] _ [ys IH]]; cbn [rmap]; [by exists [] |].
  rewrite Hy, IH. by exists (y :: ys).
Qed.

Lemma rmap_raises {A B} (f : A -> Result B) (e : PyError) (l : list A) :
  Forall (fun x => (exists y, f x = Ok y) \/ f x = Raise e) l ->
  Exists (fun x => f x = Raise e) l ->
  rmap f l = Raise e.
Proof.
  induction 1 as [| x l Hx Hl IH]; intros Hex; [by apply Exists_nil in Hex |].
  cbn [rmap]. destruct Hx as [[y Hy] | Hx]; [| by rewrite Hx].
  rewrite Hy. cbn [rbind]. apply Exists_cons in Hex as [Hc | Hex]; [congruence |].
  by rewrite (IH Hex).
Qed.

Lemma rmap_length {A B} (f : A -> Result B) (l : list A) ys :
  rmap f l = Ok ys -> length ys = length l.
Proof. intros Hr. apply rmap_ok in Hr. symmetry. by eapply Forall2_length. Qed.

Lemma index_seq (n : nat) (i : Z) :
  index (seq 0 n) i =
  if (0 <=? i)%Z then (if (i <? Z.of_nat n)%Z then Ok (Z.to_nat i) else Raise IndexError)
  else if (0 <=? Z.of_nat n + i)%Z then Ok (Z.to_nat (Z.of_nat n + i))
  else Raise IndexError.
Proof.
  unfold index. rewrite length_seq.
  destruct (0 <=? i)%Z eqn:E0.
  - apply Z.leb_le in E0. destruct (i <? Z.of_nat n)%Z eqn:E1.
    + apply Z.ltb_lt in E1.
      assert (Hl : seq 0 n !! Z.to_nat i = Some (Z.to_nat i))
        by (apply lookup_seq; split; lia).
      by rewrite Hl.
    + apply Z.ltb_ge in E1.
      assert (Hl : seq 0 n !! Z.to_nat i = None)
        by (apply lookup_ge_None; rewrite length_seq; lia).
      by rewrite Hl.
  - apply Z.leb_gt in E0. destruct (0 <=? Z.of_nat n + i)%Z eqn:E1; [| done].
    apply Z.leb_le in E1.
    assert (Hl : seq 0 n !! Z.to_nat (Z.of_nat n + i) = Some (Z.to_nat (Z.of_nat n + i)))
      by (apply lookup_seq; split; lia).
    by rewrite Hl.
Qed.

End LoopFacts.

(** ** The armature *)

Section ArmatureFacts.
Import ImportMdl Observe Shape.
Context `{External}.

Lemma edit_bone_ok n name bone :
  parent_ok n bone ->
  (if negb (parent_bone_index bone =? -1)%Z
   then parent ← index (seq 0 n) (parent_bone_index bone);
        Ok {| bl_name := name; bl_parent := Some parent |}
   else Ok {| bl_name := name; bl_parent := None |})
  = Ok {| bl_name := name; bl_parent := parent_of n bone |}.
Proof.
  unfold parent_ok, parent_of. intros Hok.
  destruct (parent_bone_index bone =? -1)%Z eqn:E; cbn [negb]; [done |].
  rewrite index_seq.
  destruct (0 <=? parent_bone_index bone)%Z eqn:E0.
  - assert (Hlt : (parent_bone_index bone <? Z.of_nat n)%Z = true)
      by (apply Z.ltb_lt; lia).
    by rewrite Hlt.
  - assert (Hge : (0 <=? Z.of_nat n + parent_bone_index bone)%Z = true)
      by (apply Z.leb_le; lia).
    by rewrite Hge.
Qed.

Lemma edit_bone_raises n name bone :
  ~ parent_ok n bone ->
  (if negb (parent_bone_index bone =? -1)%Z
   then parent ← index (seq 0 n) (parent_bone_index bone);
        Ok {| bl_name := name; bl_parent := Some parent |}
   else Ok {| bl_name := name; bl_parent := None |})
  = Raise IndexError \/ n = 0%nat /\ parent_bone_index bone = (-1)%Z.
Proof.
  unfold parent_ok. intros Hbad.
  destruct (parent_bone_index bone =? -1)%Z eqn:E; cbn [negb].
  - apply Z.eqb_eq in E. right. lia.
  - left. apply Z.eqb_neq in E. rewrite index_seq.
    destruct (0 <=? parent_bone_index bone)%Z eqn:E0.
    + apply Z.leb_le in E0.
      assert (Hlt : (parent_bone_index bone <? Z.of_nat n)%Z = false)
        by (apply Z.ltb_ge; lia).
      by rewrite Hlt.
    + apply Z.leb_gt in E0.
      assert (Hge : (0 <=? Z.of_nat n + parent_bone_index bone)%Z = false)
        by (apply Z.leb_gt; lia).
      by rewrite Hge.
Qed.

Lemma edit_bones_ok (n : nat) (bs : list Bone) :
  Forall (parent_ok n) bs ->
  rmap (fun '(name, s_bone) =>
          if negb (parent_bone_index s_bone =? -1)%Z
          then parent ← index (seq 0 n) (parent_bone_index s_bone);
               Ok {| bl_name := name; bl_parent := Some parent |}
          else Ok {| bl_name := name; bl_parent := None |})
       (zip (map (fun bone => last_chars 63 (bone_name bone)) bs) bs)
  = Ok (map (fun bone => {| bl_name := last_chars 63 (bone_name bone);
                            bl_parent := parent_of n bone |}) bs).
Proof.
  induction 1 as [| b bs Hb _ IH]; cbn [map zip zip_with rmap]; [done |].
  rewrite (edit_bone_ok n _ b Hb). cbn [rbind]. by rewrite IH.
Qed.

Lemma edit_bones_raise (n : nat) (bs : list Bone) :
  n <> 0%nat ->
  Exists (fun bone => ~ parent_ok n bone) bs ->
  rmap (fun '(name, s_bone) =>
          if negb (parent_bone_index s_bone =? -1)%Z
          then parent ← index (seq 0 n) (parent_bone_index s_bone);
               Ok {| bl_name := name; bl_parent := Some parent |}
          else Ok {| bl_name := name; bl_parent := None |})
       (zip (map (fun bone => last_chars 63 (bone_name bone)) bs) bs)
  = Raise IndexError.
Proof.
  intros Hn. induction 1 as [b bs Hb | b bs _ IH]; cbn [map zip zip_with rmap].
  - destruct (edit_bone_raises n (last_chars 63 (bone_name b)) b Hb) as [-> | [? _]];
      [done | lia].
  - destruct (decide (parent_ok n b)) as [Hok | Hnok].
    + rewrite (edit_bone_ok n _ b Hok). cbn [rbind]. by rewrite IH.
    + destruct (edit_bone_raises n (last_chars 63 (bone_name b)) b Hnok) as [-> | [? _]];
        [done | lia].
Qed.

(** X4.  [create_armature] succeeds exactly when every parent index is a
    valid Python index into the bone list (-1 included, which stands for
    "no parent"); it then creates one edit bone per bone, in order, whose
    parent is none for -1, the bone of that index for an index from 0 on,
    and the bone counted from the end for the other negative indices.
    Any other parent index raises IndexError. *)
Theorem create_armature_parents (mdl : MdlV49) :
  let n := length (bones mdl) in
  (Forall (parent_ok n) (bones mdl) ->
   exists arm,
     create_armature mdl = Ok arm /\
     armature_name arm = (path_stem (header_name mdl) ++ "_ARM")%string /\
     armature_bones arm
     = map (fun bone => {| bl_name := last_chars 63 (bone_name bone);
                           bl_parent := parent_of n bone |}) (bones mdl)) /\
  (~ Forall (parent_ok n) (bones mdl) -> create_armature mdl = Raise IndexError).
Proof.
  intros n. unfold create_armature. cbv zeta. rewrite length_map. fold n. split.
  - intros Hall. rewrite (edit_bones_ok n _ Hall). eexists. split; [reflexivity |]. done.
  - intros Hbad.
    assert (Hn : n <> 0%nat).
    { intros Hz. apply Hbad. subst n. apply length_zero_iff_nil in Hz. rewrite Hz.
      constructor. }
    apply not_Forall_Exists in Hbad; [| intros b; unfold parent_ok; apply _].
    by rewrite (edit_bones_raise n _ Hn Hbad).
Qed.

End ArmatureFacts.

(** ** The objects of an import *)

Section ContainerFacts.
Import ImportMdl Observe Shape Layout.
Context `{External}.

Ltac inv_bind H x Hx := apply mbind_ok in H as (x & Hx & H).

Lemma rfold_prefix {A B} (P : list A -> B -> Prop) (f : B -> A -> Result B) (l : list A) :
  forall pre a r,
    P pre a ->
    (forall pre x acc acc', P pre acc -> f acc x = Ok acc' -> P (pre ++ [x]) acc') ->
    rfold f l a = Ok r -> P (pre ++ l) r.
Proof.
  induction l as [| x l IH]; intros pre a r Ha Hstep Hr; cbn in Hr.
  - injection Hr as <-. by rewrite app_nil_r.
  - apply rbind_ok in Hr as (a' & Hx & Hr).
    replace (pre ++ x :: l) with ((pre ++ [x]) ++ l) by (by rewrite <- app_assoc).
    apply (IH _ a' r); [by eapply Hstep | done | done].
Qed.

Lemma create_flex_drivers_keeps_mesh obj mdl obj' text warnings :
  create_flex_drivers obj mdl = Ok (obj', text, warnings) ->
  object_name obj' = object_name obj /\
  mesh_data_name obj' = mesh_data_name obj /\
  armature_modifier obj' = armature_modifier obj /\
  geometry obj' = geometry obj /\
  faces obj' = faces obj /\
  prop_unique_material_names obj' = prop_unique_material_names obj /\
  prop_path obj' = prop_path obj.
Proof.
  unfold create_flex_drivers. destruct (shape_keys obj) as [| k ks].
  - intros [= <- _ _]. done.
  - intros Hc.
    inv_bind Hc controllers Hcs. inv_bind Hc script Hs. inv_bind Hc s Hk.
    injection Hc as <- _ _. done.
Qed.

Lemma author_mesh_mesh mdl vvd scale cd un st vtx_model model mesh_obj obj e :
  author_mesh mdl vvd scale cd un st vtx_model model mesh_obj = Ok (obj, e) ->
  exists lod vtx_vertices indices_array material_indices_array vertices triangles,
    model_lods vtx_model !! O = Some lod /\
    merge_meshes model lod = (vtx_vertices, indices_array, material_indices_array) /\
    gather (get_slice _ (lod_data vvd) (vertex_offset model) (vertex_count model))
           vtx_vertices = Ok vertices /\
    reshape3 (rev indices_array) = Ok triangles /\
    object_name obj = object_name mesh_obj /\
    mesh_data_name obj = mesh_data_name mesh_obj /\
    is_copy obj = is_copy mesh_obj /\
    armature_modifier obj = armature_modifier mesh_obj /\
    prop_unique_material_names obj = prop_unique_material_names mesh_obj /\
    prop_path obj = prop_path mesh_obj /\
    geometry obj = map (fun v => scale3 (vertex v) scale) vertices /\
    faces obj = triangles.
Proof.
  unfold author_mesh. intros Ha.
  inv_bind Ha lod Hlod. apply of_option_ok in Hlod.
  destruct (merge_meshes model lod) as [[vtx_vertices indices_array] material_indices_array]
    eqn:Hmerge.
  inv_bind Ha vertices Hv. inv_bind Ha triangles Ht. inv_bind Ha slots Hsl.
  inv_bind Ha uv_data Huv. inv_bind Ha extra Hex. inv_bind Ha groups Hg.
  inv_bind Ha kd Hkd.
  exists lod, vtx_vertices, indices_array, material_indices_array, vertices, triangles.
  do 4 (split; [done |]).
  destruct kd.2.
  - inv_bind Ha driven Hd. injection Ha as <- _.
    destruct driven as [[obj' text] warnings]. cbn [fst].
    pose proof (create_flex_drivers_keeps _ _ _ _ _ Hd) as (Hc & _).
    apply create_flex_drivers_keeps_mesh in Hd as (-> & -> & -> & -> & -> & -> & ->).
    rewrite Hc. cbn. by rewrite map_map.
  - injection Ha as <- _. cbn. by rewrite map_map.
Qed.

(** The step of the loop for one sub-model appends at most one object. *)
Lemma import_sub_model_appends mdl vvd scale cd re un body_part c vm c' :
  import_sub_model mdl vvd scale cd re un (is_static_prop mdl) body_part c vm = Ok c' ->
  container_attachments c' = container_attachments c /\
  ((vertex_count vm.2 = 0%nat /\ container_objects c' = container_objects c) \/
   (vertex_count vm.2 <> 0%nat /\
    exists obj,
      container_objects c' = container_objects c ++ [obj] /\
      (re = false -> is_copy obj = false) /\
      (is_static_prop mdl = false -> armature_modifier obj = true) /\
      prop_unique_material_names obj = un /\
      prop_path obj = path_stem (header_name mdl) /\
      (is_copy obj = false ->
       object_name obj = mesh_name (body_part, vm) /\
       mesh_data_name obj = (mesh_name (body_part, vm) ++ "_MESH")%string /\
       armature_modifier obj = negb (is_static_prop mdl)))).
Proof.
  unfold import_sub_model. intros Hi.
  destruct (vertex_count vm.2 =? 0)%nat eqn:E.
  - apply Nat.eqb_eq in E. injection Hi as <-. split; [done |]. by left.
  - apply Nat.eqb_neq in E.
    assert (Hfresh :
      forall obj used,
        mesh_object_for mdl re un (is_static_prop mdl) body_part vm.2 = (obj, used) ->
        is_copy obj = used /\
        (re = false -> used = false) /\
        (is_static_prop mdl = false -> armature_modifier obj = true) /\
        prop_unique_material_names obj = un /\
        prop_path obj = path_stem (header_name mdl) /\
        (used = false ->
         object_name obj = mesh_name (body_part, vm) /\
         mesh_data_name obj = (mesh_name (body_part, vm) ++ "_MESH")%string /\
         armature_modifier obj = negb (is_static_prop mdl))).
    { intros obj used. unfold mesh_object_for, mesh_name. cbn [fst snd].
      destruct re.
      - destruct (lookup_original _ _).
        + intros [= <- <-]. cbn. repeat split; try done.
          intros ->. done.
        + intros [= <- <-]. cbn. repeat split; try done. by intros ->.
      - intros [= <- <-]. cbn. repeat split; try done. by intros ->. }
    destruct (mesh_object_for mdl re un (is_static_prop mdl) body_part vm.2)
      as [mesh_obj used_copy] eqn:Hm.
    destruct (Hfresh _ _ eq_refl) as (Hcopy & Hre & Harm & Hun & Hpath & Hnames).
    destruct used_copy.
    + injection Hi as <-. split; [done |]. right. split; [done |].
      exists mesh_obj. cbn [container_objects add_object].
      repeat split; try done.
      * intros Hr. specialize (Hre Hr). discriminate.
      * congruence.
      * congruence.
      * congruence.
    + inv_bind Hi authored_obj Ha. injection Hi as <-. split; [done |].
      right. split; [done |]. destruct authored_obj as [obj e]. cbn [fst snd].
      exists obj. cbn [container_objects add_object].
      destruct (author_mesh_mesh _ _ _ _ _ _ _ _ _ _ _ Ha)
        as (_ & _ & _ & _ & _ & _ & _ & _ & _ & _ & Hon & Hdn & Hic & Ham & Hpu & Hpp & _).
      destruct (Hnames eq_refl) as (Hn1 & Hn2 & Hn3).
      repeat split; try congruence.
      intros Hst. rewrite Ham. by apply Harm.
Qed.

End ContainerFacts.

Section ContainerLayout.
Import ImportMdl Observe Shape Layout Layout2.
Context `{External}.

Ltac inv_bind H x Hx := apply mbind_ok in H as (x & Hx & H).

Lemma non_empty_app l1 l2 : non_empty (l1 ++ l2) = non_empty l1 ++ non_empty l2.
Proof. unfold non_empty. apply filter_app. Qed.

Lemma sub_models_loop mdl vvd scale cd re un (l : list (VtxBodyPart * BodyPart)) c0 c :
  container_objects c0 = [] ->
  rfold (fun c (bp : VtxBodyPart * BodyPart) =>
           rfold (import_sub_model mdl vvd scale cd re un (is_static_prop mdl) bp.2)
                 (zip (vtx_models bp.1) (models bp.2)) c) l c0 = Ok c ->
  container_attachments c = container_attachments c0 /\
  Forall2 (object_for mdl re un)
          (non_empty (flat_map (fun bp : VtxBodyPart * BodyPart =>
                                  map (fun vm => (bp.2, vm))
                                      (zip (vtx_models bp.1) (models bp.2))) l))
          (container_objects c).
Proof.
  intros H0 Hloop.
  pose (g := fun bp : VtxBodyPart * BodyPart =>
               map (fun vm => (bp.2, vm)) (zip (vtx_models bp.1) (models bp.2))).
  pose (P := fun (pre : list (VtxBodyPart * BodyPart)) (c1 : Container) =>
               container_attachments c1 = container_attachments c0 /\
               Forall2 (object_for mdl re un) (non_empty (flat_map g pre))
                       (container_objects c1)).
  change (P ([] ++ l) c).
  refine (rfold_prefix P _ l [] c0 c _ _ Hloop).
  - split; [done |]. rewrite H0. constructor.
  - intros pre bp acc acc' [Hatt Hobjs] Hinner.
    pose (Q := fun (pre' : list (VtxModel * Model)) (c1 : Container) =>
                 container_attachments c1 = container_attachments c0 /\
                 Forall2 (object_for mdl re un)
                         (non_empty (flat_map g pre ++ map (fun vm => (bp.2, vm)) pre'))
                         (container_objects c1)).
    assert (HQ : Q ([] ++ zip (vtx_models bp.1) (models bp.2)) acc').
    { refine (rfold_prefix Q _ _ [] acc acc' _ _ Hinner).
      - split; [done |]. cbn [map]. by rewrite app_nil_r.
      - intros pre' vm a a' [Ha1 Ha2] Hstep.
        apply import_sub_model_appends in Hstep as [Hatt' Hcase].
        split; [congruence |].
        rewrite map_app, app_assoc, non_empty_app. cbn [map].
        destruct Hcase as [[Hz ->] | [Hnz (obj & -> & Hobj)]].
        + unfold non_empty at 2. rewrite filter_cons_False by (cbn; lia).
          rewrite filter_nil, app_nil_r. done.
        + unfold non_empty at 2. rewrite filter_cons_True by (cbn; lia).
          rewrite filter_nil. apply Forall2_app; [done |].
          constructor; [| constructor]. exact Hobj. }
    destruct HQ as [HQ1 HQ2]. split; [done |].
    rewrite flat_map_app. cbn [flat_map]. by rewrite app_nil_r.
Qed.

Lemma import_model_layout mdl vvd vtx scale cd re un c :
  import_model mdl vvd vtx scale cd re un = Ok c ->
  Forall2 (object_for mdl re un) (non_empty (sub_models mdl vtx)) (container_objects c) /\
  Forall2 (empty_for mdl) (attachments mdl) (container_attachments c).
Proof.
  unfold import_model. intros Hi.
  inv_bind Hi armature Harm. inv_bind Hi c0 Hloop.
  apply sub_models_loop in Hloop as [Hatt Hobjs]; [| done].
  cbn [container_attachments] in Hatt.
  destruct (attachments mdl) as [| a atts] eqn:Ha.
  - injection Hi as <-. split; [done |]. rewrite Hatt. constructor.
  - inv_bind Hi u Hu. inv_bind Hi created Hcr. injection Hi as <-.
    cbn [container_objects container_attachments]. split; [done |].
    rewrite Hatt. cbn [app]. rewrite <- Ha.
    unfold create_attachments in Hcr. apply rmap_ok in Hcr.
    eapply Forall2_impl; [exact Hcr |].
    intros att e. unfold empty_for. cbn beta.
    destruct (is_static_prop mdl); cbn [negb].
    + by intros [= <-].
    + intros He. inv_bind He bone Hb. injection He as <-. eauto.
Qed.

(** X5.  A successful import holds exactly one mesh object per sub-model
    with a non-zero vertex count, in the order the body parts and their
    models are paired; every object records the base name of the model and
    the unique-material-names option, and every object that is not a copy
    is named "body part name + _ + model name", its mesh data that name
    followed by "_MESH". *)
Theorem one_object_per_non_empty_sub_model
    (mdl : MdlV49) (vvd : Vvd) (vtx : list VtxBodyPart) (scale : Q)
    (create_drivers re_use_meshes unique_material_names : bool) (c : Container) :
  import_model mdl vvd vtx scale create_drivers re_use_meshes unique_material_names = Ok c ->
  length (container_objects c) = length (non_empty (sub_models mdl vtx)) /\
  Forall2 (fun bvm obj =>
             prop_unique_material_names obj = unique_material_names /\
             prop_path obj = path_stem (header_name mdl) /\
             (is_copy obj = false ->
              object_name obj = mesh_name bvm /\
              mesh_data_name obj = (mesh_name bvm ++ "_MESH")%string))
          (non_empty (sub_models mdl vtx)) (container_objects c).
Proof.
  intros Hi. apply import_model_layout in Hi as [Hobjs _].
  split; [symmetry; by eapply Forall2_length |].
  eapply Forall2_impl; [exact Hobjs |].
  intros bvm obj (_ & _ & Hun & Hpath & Hnames).
  split; [done |]. split; [done |].
  intros Hc. by destruct (Hnames Hc) as (? & ? & _).
Qed.

(** X7.  A successful import creates one empty per attachment of the
    model, in order and named after it; for a skinned model the empty is
    constrained to the bone its parent index designates (a Python index
    into the bone list), for a static prop it gets no constraint. *)
Theorem one_empty_per_attachment
    (mdl : MdlV49) (vvd : Vvd) (vtx : list VtxBodyPart) (scale : Q)
    (create_drivers re_use_meshes unique_material_names : bool) (c : Container) :
  import_model mdl vvd vtx scale create_drivers re_use_meshes unique_material_names = Ok c ->
  map empty_name (container_attachments c) = map attachment_name (attachments mdl) /\
  Forall2 (fun attachment e =>
             if is_static_prop mdl then child_of e = None
             else exists bone,
                    index (bones mdl) (parent_bone attachment) = Ok bone /\
                    child_of e = Some (bone_name bone))
          (attachments mdl) (container_attachments c).
Proof.
  intros Hi. apply import_model_layout in Hi as [_ Hatt]. split.
  - induction Hatt as [| a e atts es [Hn _] _ IH]; cbn [map]; [done |].
    by rewrite Hn, IH.
  - eapply Forall2_impl; [exact Hatt |]. by intros a e [_ Hc].
Qed.

End ContainerLayout.

Section EdgeFacts.
Import ImportMdl Observe Shape Layout Layout2.
Context `{External}.

Ltac inv_bind H x Hx := apply mbind_ok in H as (x & Hx & H).

Lemma skip_empty_models mdl vvd scale cd re un st body_part (l : list (VtxModel * Model)) c :
  Forall (fun vm => vertex_count vm.2 = 0%nat) l ->
  rfold (import_sub_model mdl vvd scale cd re un st body_part) l c = Ok c.
Proof.
  induction 1 as [| vm l Hvm _ IH]; cbn [rfold]; [done |].
  unfold import_sub_model at 1. rewrite Hvm. cbn [Nat.eqb rbind]. exact IH.
Qed.

Lemma skip_empty_body_parts mdl vvd scale cd re un st (l : list (VtxBodyPart * BodyPart)) c :
  Forall (fun bvm : BodyPart * (VtxModel * Model) => vertex_count bvm.2.2 = 0%nat)
         (flat_map (fun bp : VtxBodyPart * BodyPart =>
                      map (fun vm => (bp.2, vm)) (zip (vtx_models bp.1) (models bp.2))) l) ->
  rfold (fun c (bp : VtxBodyPart * BodyPart) =>
           rfold (import_sub_model mdl vvd scale cd re un st bp.2)
                 (zip (vtx_models bp.1) (models bp.2)) c) l c = Ok c.
Proof.
  induction l as [| bp l IH]; cbn [flat_map rfold]; [done |].
  intros Hall. apply Forall_app in Hall as [Hbp Hl].
  rewrite skip_empty_models.
  - cbn [rbind]. by apply IH.
  - apply Forall_forall. intros vm Hvm. rewrite Forall_forall in Hbp.
    apply (Hbp (bp.2, vm)). apply list_elem_of_fmap. eauto.
Qed.

(** X8.  When every sub-model the import visits has a zero vertex count
    (or there is none), no object is created: a skinned model without
    attachments then imports to an armature alone, while a static prop with
    attachments raises IndexError, there being no first object to attach
    them to. *)
Theorem import_without_meshes
    (mdl : MdlV49) (vvd : Vvd) (vtx : list VtxBodyPart) (scale : Q)
    (create_drivers re_use_meshes unique_material_names : bool) :
  Forall (fun bvm : BodyPart * (VtxModel * Model) => vertex_count bvm.2.2 = 0%nat)
         (sub_models mdl vtx) ->
  (is_static_prop mdl = true -> attachments mdl <> [] ->
   import_model mdl vvd vtx scale create_drivers re_use_meshes unique_material_names
   = Raise IndexError) /\
  (is_static_prop mdl = true -> attachments mdl = [] ->
   import_model mdl vvd vtx scale create_drivers re_use_meshes unique_material_names
   = Ok {| container_armature := None; container_objects := [];
           container_attachments := []; container_texts := [];
           container_warnings := [] |}) /\
  (is_static_prop mdl = false -> attachments mdl = [] ->
   forall arm, create_armature mdl = Ok arm ->
   import_model mdl vvd vtx scale create_drivers re_use_meshes unique_material_names
   = Ok {| container_armature := Some arm; container_objects := [];
           container_attachments := []; container_texts := [];
           container_warnings := [] |}).
Proof.
  intros Hall. unfold sub_models in Hall. unfold import_model. cbv zeta.
  assert (Hstep : forall (r : Result Container) (k : Container -> Result Container) a R,
             r = Ok a -> k a = R -> r ≫= k = R).
  { intros r k a R -> <-. reflexivity. }
  repeat split.
  - intros -> Hatt. cbn [negb mbind result_bind rbind].
    eapply Hstep; [apply skip_empty_body_parts; exact Hall |].
    by destruct (attachments mdl).
  - intros -> ->. cbn [negb mbind result_bind rbind].
    eapply Hstep; [apply skip_empty_body_parts; exact Hall | done].
  - intros -> -> arm Harm. cbn [negb mbind result_bind rbind]. rewrite Harm.
    cbn [rbind].
    eapply Hstep; [apply skip_empty_body_parts; exact Hall | done].
Qed.

Lemma reshape3_concat (a : list nat) :
  forall rows, reshape3 a = Ok rows ->
               concat rows = a /\ Forall (fun row => length row = 3%nat) rows.
Proof.
  assert (Hn : forall n (a : list nat), length a <= n ->
               forall rows, reshape3 a = Ok rows ->
                 concat rows = a /\ Forall (fun row => length row = 3%nat) rows).
  { induction n as [| n IH]; intros [| i [| j [| k rest]]] Hlen rows Hr;
      cbn [reshape3] in Hr; try discriminate; try (cbn in Hlen; lia).
    - injection Hr as <-. split; [done | constructor].
    - injection Hr as <-. split; [done | constructor].
    - inv_bind Hr rows' Hrows. injection Hr as <-.
      destruct (IH rest) with (rows := rows') as [Hc Hf]; [cbn in Hlen; lia | done |].
      split; [cbn; by rewrite Hc | by constructor]. }
  intros rows. by apply (Hn (length a)).
Qed.

Lemma reshape3_raises (a : list nat) :
  length a mod 3 <> 0%nat -> reshape3 a = Raise ValueError.
Proof.
  assert (Hn : forall n (a : list nat), length a <= n ->
               length a mod 3 <> 0%nat -> reshape3 a = Raise ValueError).
  { induction n as [| n IH]; intros [| i [| j [| k rest]]] Hlen Hmod;
      cbn [reshape3]; try done; try (cbn in Hlen; lia).
    rewrite (IH rest); [done | cbn in Hlen; lia |].
    cbn [length] in Hmod.
    replace (S (S (S (length rest)))) with (length rest + 1 * 3) in Hmod by lia.
    by rewrite Nat.Div0.mod_add in Hmod. }
  by apply (Hn (length a)).
Qed.

(** X9.  The mesh authored for a sub-model has the gathered vertex
    positions multiplied by the scale as geometry, and triangles as faces
    whose corners, read in order, are the index array reversed (the winding
    is flipped); an index array whose length is not a multiple of 3 has no
    such faces. *)
Theorem authored_geometry_and_faces
    (mdl : MdlV49) (vvd : Vvd) (scale : Q) (cd un st : bool)
    (vtx_model : VtxModel) (model : Model) (mesh_obj obj : MeshObject) (e : Extras) :
  author_mesh mdl vvd scale cd un st vtx_model model mesh_obj = Ok (obj, e) ->
  exists lod vtx_vertices indices_array material_indices_array vertices,
    model_lods vtx_model !! O = Some lod /\
    merge_meshes model lod = (vtx_vertices, indices_array, material_indices_array) /\
    gather (get_slice _ (lod_data vvd) (vertex_offset model) (vertex_count model))
           vtx_vertices = Ok vertices /\
    geometry obj = map (fun v => scale3 (vertex v) scale) vertices /\
    length (geometry obj) = length vtx_vertices /\
    concat (faces obj) = rev indices_array /\
    Forall (fun face => length face = 3%nat) (faces obj) /\
    length indices_array mod 3 = 0%nat.
Proof.
  intros Ha.
  destruct (author_mesh_mesh _ _ _ _ _ _ _ _ _ _ _ Ha)
    as (lod & vv & ia & mia & vertices & triangles
        & Hlod & Hmerge & Hv & Htr & _ & _ & _ & _ & _ & _ & Hgeo & Hfaces).
  exists lod, vv, ia, mia, vertices. do 4 (split; [done |]).
  split; [rewrite Hgeo, length_map; by eapply gather_length |].
  rewrite Hfaces. destruct (reshape3_concat _ _ Htr) as [Hc Hf].
  split; [done |]. split; [done |].
  destruct (decide (length ia mod 3 = 0%nat)) as [Hm | Hm]; [done |].
  rewrite <- length_rev in Hm. rewrite (reshape3_raises _ Hm) in Htr. discriminate.
Qed.

End EdgeFacts.

(** ** Vertex groups: the dictionary, failure and completeness *)

Section SkinFacts.
Import ImportMdl Observe Skin.
Context `{External}.

Ltac inv_bind H x Hx := apply mbind_ok in H as (x & Hx & H).

Lemma rfold_total {A B} (f : B -> A -> Result B) (l : list A) :
  Forall (fun x => forall acc, exists acc', f acc x = Ok acc') l ->
  forall a, exists r, rfold f l a = Ok r.
Proof.
  induction 1 as [| x l Hx _ IH]; intros a; cbn [rfold]; [eauto |].
  destruct (Hx a) as [a' ->]. cbn [rbind]. apply IH.
Qed.

Lemma rfold_raises {A B} (f : B -> A -> Result B) (e : PyError) (l : list A) :
  Forall (fun x => forall acc, (exists acc', f acc x = Ok acc') \/ f acc x = Raise e) l ->
  Exists (fun x => forall acc, f acc x = Raise e) l ->
  forall a, rfold f l a = Raise e.
Proof.
  induction 1 as [| x l Hx Hl IH]; intros Hex a; [by apply Exists_nil in Hex |].
  cbn [rfold]. apply Exists_cons in Hex as [Hc | Hex]; [by rewrite Hc |].
  destruct (Hx a) as [[a' ->] | ->]; [| done]. cbn [rbind]. by apply IH.
Qed.

Lemma rfold_each {A B} (I : B -> Prop) (Q : A -> B -> Prop)
    (f : B -> A -> Result B) (l : list A) :
  (forall acc x acc', I acc -> f acc x = Ok acc' ->
                      I acc' /\ Q x acc' /\ forall y, Q y acc -> Q y acc') ->
  forall a r, I a -> rfold f l a = Ok r -> I r /\ forall x, x ∈ l -> Q x r.
Proof.
  intros Hstep.
  assert (Hkeep : forall l a r y, I a -> rfold f l a = Ok r -> Q y a -> Q y r).
  { clear l. induction l as [| x l IH]; intros a r y Ha Hr Hy; cbn in Hr.
    - by injection Hr as <-.
    - apply rbind_ok in Hr as (a' & Hx & Hr).
      destruct (Hstep a x a' Ha Hx) as (Ha' & _ & Hk).
      apply (IH a' r y Ha' Hr). by apply Hk. }
  induction l as [| x l IH]; intros a r Ha Hr.
  - cbn in Hr. injection Hr as <-. split; [done |].
    intros y Hy. by apply elem_of_nil in Hy.
  - cbn in Hr. apply rbind_ok in Hr as (a' & Hx & Hr).
    destruct (Hstep a x a' Ha Hx) as (Ha' & Hq & _).
    destruct (IH a' r Ha' Hr) as [Hr' Hall]. split; [done |].
    intros y Hy. apply elem_of_cons in Hy as [Heq | Hy].
    + subst y. by apply (Hkeep l a' r x Ha' Hr).
    + by apply Hall.
Qed.

(** The dictionary built over a list of bones. *)
Lemma weight_groups_snoc (bs : list Bone) (b : Bone) :
  foldl (fun d ib => <[bone_name ib.2 := ib.1]> d) (∅ : gmap string nat)
        (zip (seq 0 (length (bs ++ [b]))) (bs ++ [b]))
  = <[bone_name b := length bs]>
      (foldl (fun d ib => <[bone_name ib.2 := ib.1]> d) (∅ : gmap string nat)
             (zip (seq 0 (length bs)) bs)).
Proof.
  rewrite length_app. cbn [length]. rewrite seq_app. cbn [seq].
  rewrite zip_with_app by (by rewrite length_seq).
  rewrite foldl_app. reflexivity.
Qed.

Lemma weight_groups_spec (bs : list Bone) (name : string) (j : nat) :
  foldl (fun d ib => <[bone_name ib.2 := ib.1]> d) (∅ : gmap string nat)
        (zip (seq 0 (length bs)) bs) !! name = Some j
  <-> (exists bone, bs !! j = Some bone /\ bone_name bone = name) /\
      (forall k bone, j < k -> bs !! k = Some bone -> bone_name bone <> name).
Proof.
  revert j. induction bs as [| b bs IH] using rev_ind; intros j.
  - cbn. rewrite lookup_empty. split; [done |]. by intros [(bone & Hb & _) _].
  - rewrite weight_groups_snoc.
    destruct (decide (bone_name b = name)) as [Hn | Hn].
    + rewrite Hn, lookup_insert_eq. split.
      * intros [= <-]. split.
        -- exists b. split; [| done].
           rewrite lookup_app_r by lia. by rewrite Nat.sub_diag.
        -- intros k bone Hk Hl. apply lookup_lt_Some in Hl.
           rewrite length_app in Hl. cbn in Hl. lia.
      * intros [(bone & Hb & Hbn) Hlast].
        destruct (decide (j = length bs)) as [-> | Hj]; [done |].
        pose proof (lookup_lt_Some _ _ _ Hb) as Hlt. rewrite length_app in Hlt.
        cbn in Hlt. exfalso.
        apply (Hlast (length bs) b); [lia | | done].
        rewrite lookup_app_r by lia. by rewrite Nat.sub_diag.
    + rewrite lookup_insert_ne by done. rewrite IH. split.
      * intros [(bone & Hb & Hbn) Hlast]. split.
        -- exists bone. split; [| done]. by apply lookup_app_l_Some.
        -- intros k bone' Hk Hl.
           destruct (decide (k < length bs)) as [Hlt | Hge].
           ++ rewrite lookup_app_l in Hl by done. by eapply Hlast.
           ++ rewrite lookup_app_r in Hl by lia.
              destruct (k - length bs) as [| d] eqn:Hd; [| done].
              cbn in Hl. by injection Hl as <-.
      * intros [(bone & Hb & Hbn) Hlast].
        assert (Hlt : j < length bs).
        { pose proof (lookup_lt_Some _ _ _ Hb) as Hlt. rewrite length_app in Hlt.
          cbn in Hlt. destruct (decide (j = length bs)) as [-> | ?]; [| lia].
          rewrite lookup_app_r in Hb by lia. rewrite Nat.sub_diag in Hb.
          cbn in Hb. injection Hb as <-. done. }
        split.
        -- exists bone. split; [| done]. by rewrite lookup_app_l in Hb.
        -- intros k bone' Hk Hl. apply (Hlast k bone' Hk).
           by apply lookup_app_l_Some.
Qed.

Lemma weight_groups_none (mdl : MdlV49) (name : string) :
  weight_groups mdl !! name = None <->
  forall bone, bone ∈ bones mdl -> bone_name bone <> name.
Proof.
  assert (Hspec := weight_groups_spec (bones mdl) name). fold (weight_groups mdl) in Hspec.
  split.
  - intros Hnone bone Hin Hn.
    apply list_elem_of_lookup in Hin as [i Hi].
    assert (Hex : exists j, (exists bone, bones mdl !! j = Some bone /\ bone_name bone = name)
                            /\ forall k bone, j < k -> bones mdl !! k = Some bone ->
                                              bone_name bone <> name).
    { clear Hnone Hspec. revert i bone Hi Hn.
      induction (bones mdl) as [| b bs IH] using rev_ind; intros i bone Hi Hn.
      - by rewrite lookup_nil in Hi.
      - destruct (decide (bone_name b = name)) as [Hb | Hb].
        + exists (length bs). split.
          * exists b. rewrite lookup_app_r by lia. by rewrite Nat.sub_diag.
          * intros k bone' Hk Hl. apply lookup_lt_Some in Hl.
            rewrite length_app in Hl. cbn in Hl. lia.
        + assert (Hlt : i < length bs).
          { pose proof (lookup_lt_Some _ _ _ Hi) as Hlt. rewrite length_app in Hlt.
            cbn in Hlt. destruct (decide (i = length bs)) as [-> | ?]; [| lia].
            rewrite lookup_app_r in Hi by lia. rewrite Nat.sub_diag in Hi.
            cbn in Hi. injection Hi as <-. done. }
          rewrite lookup_app_l in Hi by done.
          destruct (IH i bone Hi Hn) as (j & (bj & Hj & Hjn) & Hlast).
          exists j. split.
          * exists bj. split; [| done]. by apply lookup_app_l_Some.
          * intros k bone' Hk Hl.
            destruct (decide (k < length bs)) as [Hklt | Hge].
            -- rewrite lookup_app_l in Hl by done. by eapply Hlast.
            -- rewrite lookup_app_r in Hl by lia.
               destruct (k - length bs) as [| d] eqn:Hd; [| done].
               cbn in Hl. by injection Hl as <-. }
    destruct Hex as (j & Hj). apply Hspec in Hj. congruence.
  - intros Hno. destruct (weight_groups mdl !! name) as [j |] eqn:Hj; [| done].
    destruct (proj1 (Hspec j) eq_refl) as [(bone & Hb & Hn) _]. exfalso.
    apply (Hno bone); [| done]. apply list_elem_of_lookup. eauto.
Qed.

(** X10.  The dictionary from bone name to vertex group has an entry for
    every bone name of the skeleton and for no other name, and a name
    shared by several bones designates the group of the last of them. *)
Theorem weight_groups_last_bone_wins (mdl : MdlV49) (name : string) :
  (weight_groups mdl !! name = None <->
   forall bone, bone ∈ bones mdl -> bone_name bone <> name) /\
  (forall j,
     weight_groups mdl !! name = Some j <->
     (exists bone, bones mdl !! j = Some bone /\ bone_name bone = name) /\
     (forall k bone, j < k -> bones mdl !! k = Some bone -> bone_name bone <> name)).
Proof.
  split; [apply weight_groups_none |].
  intros j. apply (weight_groups_spec (bones mdl) name j).
Qed.

End SkinFacts.

Section SkinLoop.
Import ImportMdl Observe Skin.
Context `{External}.

Ltac inv_bind H x Hx := apply mbind_ok in H as (x & Hx & H).

Lemma weight_groups_total mdl b bone :
  bones mdl !! b = Some bone -> exists j, weight_groups mdl !! bone_name bone = Some j.
Proof.
  intros Hb. destruct (weight_groups mdl !! bone_name bone) as [j |] eqn:Hj; [eauto |].
  exfalso. apply (proj1 (weight_groups_none mdl (bone_name bone)) Hj bone);
    [apply list_elem_of_lookup; eauto | done].
Qed.

Lemma add_influence_result mdl n groups bw :
  (influence_ok (length (bones mdl)) bw = true ->
   exists groups', add_influence mdl n groups bw = Ok groups') /\
  (influence_ok (length (bones mdl)) bw = false ->
   add_influence mdl n groups bw = Raise IndexError).
Proof.
  unfold influence_ok, add_influence. destruct (Qlt_bool 0 bw.2); cbn [negb orb].
  - split.
    + intros Hlt. apply Nat.ltb_lt in Hlt.
      destruct (lookup_lt_is_Some_2 (bones mdl) bw.1 Hlt) as [bone Hb].
      rewrite Hb. cbn [of_option mbind result_bind rbind].
      destruct (weight_groups_total mdl _ _ Hb) as [j ->]. cbn. eauto.
    + intros Hge. apply Nat.ltb_ge in Hge.
      by rewrite (lookup_ge_None_2 (bones mdl) bw.1 Hge).
  - split; [eauto | discriminate].
Qed.

Lemma add_vertex_result mdl groups nv :
  (vertex_ok (length (bones mdl)) nv.2 = true ->
   exists groups', add_vertex mdl groups nv = Ok groups') /\
  (vertex_ok (length (bones mdl)) nv.2 = false ->
   add_vertex mdl groups nv = Raise IndexError).
Proof.
  unfold vertex_ok, add_vertex. split.
  - intros Hall. apply rfold_total. apply Forall_forall. intros bw Hbw acc.
    apply add_influence_result.
    rewrite forallb_forall in Hall. apply Hall. by apply list_elem_of_In.
  - intros Hbad. apply rfold_raises.
    + apply Forall_forall. intros bw _ acc.
      destruct (influence_ok (length (bones mdl)) bw) eqn:E.
      * left. by apply add_influence_result.
      * right. by apply add_influence_result.
    + assert (Hex : exists bw, bw ∈ zip (bone_id nv.2) (weight nv.2)
                               /\ influence_ok (length (bones mdl)) bw = false).
      { revert Hbad. generalize (zip (bone_id nv.2) (weight nv.2)). intros l.
        induction l as [| bw l IH]; cbn [forallb]; [discriminate |].
        destruct (influence_ok (length (bones mdl)) bw) eqn:E; cbn [andb].
        - intros Hl. destruct (IH Hl) as (bw' & Hin & Hbw'). exists bw'.
          split; [by right | done].
        - intros _. exists bw. split; [left | done]. }
      destruct Hex as (bw & Hin & Hbw). apply Exists_exists. exists bw.
      split; [done |]. intros acc. by apply add_influence_result.
Qed.

(** X11.  Building the vertex groups succeeds exactly when every influence
    with a strictly positive weight names a bone index below the number of
    bones, and raises IndexError otherwise; an influence whose weight is not
    positive is never looked at, whatever its bone index, and the
    dictionary lookup by bone name never fails. *)
Theorem vertex_groups_fail_on_bad_bone_index (mdl : MdlV49) (vertices : list Vertex) :
  (forallb (vertex_ok (length (bones mdl))) vertices = true ->
   exists groups, build_vertex_groups mdl vertices = Ok groups) /\
  (forallb (vertex_ok (length (bones mdl))) vertices = false ->
   build_vertex_groups mdl vertices = Raise IndexError).
Proof.
  unfold build_vertex_groups. split.
  - intros Hall. apply rfold_total. apply Forall_forall. intros [n v] Hnv acc.
    apply add_vertex_result. cbn [snd].
    rewrite forallb_forall in Hall. apply Hall. apply list_elem_of_In.
    by apply elem_of_zip_r in Hnv.
  - intros Hbad. apply rfold_raises.
    + apply Forall_forall. intros nv _ acc.
      destruct (vertex_ok (length (bones mdl)) nv.2) eqn:E.
      * left. by apply add_vertex_result.
      * right. by apply add_vertex_result.
    + assert (Hex : forall i, exists nv,
                 nv ∈ zip (seq i (length vertices)) vertices
                 /\ vertex_ok (length (bones mdl)) nv.2 = false).
      { revert Hbad. generalize vertices. intros l.
        induction l as [| v l IH]; cbn [forallb]; [discriminate |].
        destruct (vertex_ok (length (bones mdl)) v) eqn:E; cbn [andb].
        - intros Hl i. destruct (IH Hl (S i)) as (nv & Hin & Hnv). exists nv.
          split; [by right | done].
        - intros _ i. exists (i, v). split; [left | done]. }
      destruct (Hex 0) as (nv & Hin & Hnv). apply Exists_exists. exists nv.
      split; [done |]. intros acc. by apply add_vertex_result.
Qed.

Lemma add_influence_length mdl n groups bw groups' :
  add_influence mdl n groups bw = Ok groups' -> length groups' = length groups.
Proof.
  unfold add_influence. destruct (Qlt_bool 0 bw.2); [| by intros [= <-]].
  intros Ha. inv_bind Ha bone Hbone. inv_bind Ha gi Hgi. injection Ha as <-.
  apply length_alter.
Qed.

Lemma added_grows mdl n groups bw groups' j m w :
  add_influence mdl n groups bw = Ok groups' ->
  added groups j m w -> added groups' j m w.
Proof.
  unfold add_influence. destruct (Qlt_bool 0 bw.2); [| by intros [= <-]].
  intros Ha. inv_bind Ha bone Hbone. inv_bind Ha gi Hgi. injection Ha as <-.
  intros (g & Hg & Hin). unfold added. rewrite list_lookup_alter.
  destruct (decide (gi = j)) as [-> | ?]; [| eauto].
  rewrite Hg. cbn. eexists. split; [reflexivity |].
  cbn [vg_added vg_add]. apply elem_of_app. by left.
Qed.

(** X12.  After the vertex groups are built, every influence with a
    strictly positive weight has been added: the vertex appears with that
    weight in the group the dictionary gives for the influence's bone name,
    which is the group of that very bone when bone names are pairwise
    distinct. *)
Theorem positive_weights_are_all_added
    (mdl : MdlV49) (vertices : list Vertex) (groups : list VertexGroup) :
  build_vertex_groups mdl vertices = Ok groups ->
  forall n v k b w,
    vertices !! n = Some v ->
    bone_id v !! k = Some b -> weight v !! k = Some w -> (0 < w)%Q ->
    exists bone j,
      bones mdl !! b = Some bone /\
      weight_groups mdl !! bone_name bone = Some j /\
      added groups j n w /\
      (NoDup (map bone_name (bones mdl)) -> j = b).
Proof.
  intros Hb n v k b w Hv Hkb Hkw Hpos.
  pose (I := fun gs : list VertexGroup => length gs = length (bones mdl)).
  pose (Qin := fun (n : nat) (bw : nat * Q) (gs : list VertexGroup) =>
                 (0 < bw.2)%Q ->
                 exists bone j,
                   bones mdl !! bw.1 = Some bone /\
                   weight_groups mdl !! bone_name bone = Some j /\
                   added gs j n bw.2).
  pose (Qout := fun (nv : nat * Vertex) (gs : list VertexGroup) =>
                  forall bw, bw ∈ zip (bone_id nv.2) (weight nv.2) -> Qin nv.1 bw gs).
  assert (Hin_step : forall m acc x acc',
             I acc -> add_influence mdl m acc x = Ok acc' ->
             I acc' /\ Qin m x acc' /\ forall y, Qin m y acc -> Qin m y acc').
  { intros m a x a' Ha Hx. split; [| split].
    - unfold I. rewrite (add_influence_length _ _ _ _ _ Hx). exact Ha.
    - intros Hx0. unfold add_influence in Hx.
      destruct (Qlt_bool 0 x.2) eqn:E.
      + inv_bind Hx bone Hbone. apply of_option_ok in Hbone.
        inv_bind Hx gi Hgi. apply of_option_ok in Hgi. injection Hx as <-.
        exists bone, gi. split; [done |]. split; [done |].
        destruct (weight_groups_lookup _ _ _ Hgi) as (bone_j & Hj & _).
        unfold added. rewrite list_lookup_alter_eq.
        destruct (lookup_lt_is_Some_2 a gi) as [g Hg];
          [rewrite Ha; by eapply lookup_lt_Some |].
        rewrite Hg. cbn. eexists. split; [reflexivity |].
        cbn [vg_added vg_add]. apply elem_of_app. right. by left.
      + exfalso. unfold Qlt_bool in E. apply negb_false_iff in E.
        apply Qle_bool_iff in E. lra.
    - intros y Hy Hy0. destruct (Hy Hy0) as (bone & j & ? & ? & ?).
      exists bone, j. split; [done |]. split; [done |]. by eapply added_grows. }
  assert (Hout : Qout (n, v) groups).
  { unfold build_vertex_groups in Hb.
    refine (proj2 (rfold_each I Qout _ _ _ _ _ _ Hb) (n, v) _).
    - intros acc nv acc' Hacc Hstep. unfold add_vertex in Hstep.
      destruct (rfold_each I (Qin nv.1) _ _ (Hin_step nv.1) _ _ Hacc Hstep)
        as [Hacc' Hall].
      split; [done |]. split; [exact Hall |].
      intros y Hy bw Hbw Hbw0. destruct (Hy bw Hbw Hbw0) as (bone & j & ? & ? & Hadd).
      exists bone, j. split; [done |]. split; [done |].
      refine (rfold_inv (fun g => added g j y.1 bw.2) _ _ _ _ Hadd _ Hstep).
      intros a x a' _ Ha Hx. by eapply added_grows.
    - unfold I, new_vertex_groups. by rewrite length_map.
    - apply list_elem_of_lookup. exists n. apply lookup_zip_Some. split; [| done].
      apply lookup_seq. split; [done |]. by eapply lookup_lt_Some. }
  destruct (Hout (b, w)) as (bone & j & Hbone & Hj & Hadd).
  - apply list_elem_of_lookup. exists k. by apply lookup_zip_Some.
  - done.
  - cbn [fst snd] in Hbone, Hadd. exists bone, j. do 3 (split; [done |]).
    intros Hnd. destruct (weight_groups_lookup _ _ _ Hj) as (bone_j & Hbj & Hn).
    apply (NoDup_lookup _ j b (bone_name bone) Hnd).
    + rewrite list_lookup_fmap, Hbj. cbn. by rewrite Hn.
    + by rewrite list_lookup_fmap, Hbone.
Qed.

End SkinLoop.

(** ** Flex balance and shape keys *)

Section RampFacts.
Import ImportMdl.
Local Open Scope Q_scope.

Lemma clip_mono r1 r2 : r1 <= r2 -> clip r1 0 1 <= clip r2 0 1.
Proof.
  intros Hr.
  destruct (clip_unit r1) as (Hb1 & Hin1 & Hlo1 & Hhi1).
  destruct (clip_unit r2) as (Hb2 & Hin2 & Hlo2 & Hhi2).
  destruct (Qlt_le_dec r1 0) as [H10 | H10].
  - rewrite Hlo1 by lra. lra.
  - destruct (Qlt_le_dec 1 r2) as [H21 | H21].
    + rewrite Hhi2 by lra. lra.
    + rewrite Hin1, Hin2 by lra. done.
Qed.

Lemma clip_eq r1 r2 : r1 == r2 -> clip r1 0 1 == clip r2 0 1.
Proof. intros Hr. apply Qle_antisym; apply clip_mono; lra. Qed.

Lemma clip_complement r : clip (1 - r) 0 1 == 1 - clip r 0 1.
Proof.
  destruct (clip_unit r) as (Hb1 & Hin1 & Hlo1 & Hhi1).
  destruct (clip_unit (1 - r)) as (Hb2 & Hin2 & Hlo2 & Hhi2).
  destruct (Qlt_le_dec r 0) as [H0 | H0].
  - rewrite Hlo1, Hhi2 by lra. lra.
  - destruct (Qlt_le_dec 1 r) as [H1 | H1].
    + rewrite Hhi1, Hlo2 by lra. lra.
    + rewrite Hin1, Hin2 by lra. lra.
Qed.

Lemma ramp_linear width x :
  0 < width -> - x / width / 2 + (1 # 2) == (1 # 2) - x * / (2 * width).
Proof. intros Hw. field. lra. Qed.

(** X13.  For a positive width the blend weight is non-increasing in X:
    it is 1/2 on the plane X = 0, 1 from X = -width downwards and 0 from
    X = width upwards, and the weights at X and -X sum to 1. *)
Theorem balance_ramp_shape (width x y : Q) :
  0 < width ->
  balance_at width 0 == 1 # 2 /\
  balance_at width x + balance_at width (- x) == 1 /\
  (x <= y -> balance_at width y <= balance_at width x) /\
  (width <= x -> balance_at width x == 0) /\
  (x <= - width -> balance_at width x == 1).
Proof.
  intros Hw. unfold balance_at.
  assert (Hk : 0 < / (2 * width)) by (apply Qinv_lt_0_compat; lra).
  assert (Hkw : width * / (2 * width) == 1 # 2) by (field; lra).
  set (k := / (2 * width)) in *.
  repeat split.
  - destruct (clip_unit (- 0 / width / 2 + (1 # 2))) as (_ & Hin & _).
    rewrite Hin; rewrite (ramp_linear width 0 Hw); lra.
  - assert (Hc : - - x / width / 2 + (1 # 2) == 1 - (- x / width / 2 + (1 # 2)))
      by (field; lra).
    rewrite (clip_eq _ _ Hc), clip_complement. lra.
  - intros Hxy. apply clip_mono.
    rewrite (ramp_linear width x Hw), (ramp_linear width y Hw). fold k. nra.
  - intros Hx. destruct (clip_unit (- x / width / 2 + (1 # 2))) as (_ & _ & Hlo & _).
    apply Hlo. rewrite (ramp_linear width x Hw). fold k. nra.
  - intros Hx. destruct (clip_unit (- x / width / 2 + (1 # 2))) as (_ & _ & _ & Hhi).
    apply Hhi. rewrite (ramp_linear width x Hw). fold k. nra.
Qed.

Lemma balance_ramp_shape_witness :
  0 < 7 # 200 /\ balance_at (7 # 200) 1 == 0.
Proof.
  split; [reflexivity |].
  destruct (balance_ramp_shape (7 # 200) 1 1 eq_refl) as (_ & _ & _ & Hsat & _).
  apply Hsat. discriminate.
Defined.

(** X14.  The two shape keys of a flex pair recombine to the whole flex:
    at every vertex, the displacement written to the flex's key plus the
    displacement written to the partner's key is the flex delta. *)
Theorem paired_keys_recombine
    (flex_delta model_vertices : list Vector3) (bal : list Q) (i : nat) (a p : Vector3) :
  blend flex_delta bal model_vertices !! i = Some a ->
  blend flex_delta (p_balance bal) model_vertices !! i = Some p ->
  exists d m,
    flex_delta !! i = Some d /\ model_vertices !! i = Some m /\
    (vx a - vx m) + (vx p - vx m) == vx d /\
    (vy a - vy m) + (vy p - vy m) == vy d /\
    (vz a - vz m) + (vz p - vz m) == vz d.
Proof.
  unfold blend, p_balance. intros Ha Hp.
  apply lookup_zip_with_Some in Ha as (db & m & Ha & Hdb & Hm).
  apply lookup_zip_with_Some in Hp as (db' & m' & Hp & Hdb' & Hm').
  apply lookup_zip_with_Some in Hdb as (d & b & Hdbe & Hd & Hb).
  apply lookup_zip_with_Some in Hdb' as (d' & b' & Hdbe' & Hd' & Hb').
  rewrite list_lookup_fmap, Hb in Hb'. cbn in Hb'.
  simplify_eq.
  exists d, m. split; [done |]. split; [done |].
  cbn [fst snd add3 scale3 vx vy vz]. repeat split; ring.
Qed.

Lemma paired_keys_recombine_witness :
  blend [Samples.vec 0 1 0] [1 # 4] [Samples.vec 2 2 2] !! 0%nat
  = Some (Samples.vec (0 * (1 # 4) + 2) (1 * (1 # 4) + 2) (0 * (1 # 4) + 2)) /\
  exists d m,
    [Samples.vec 0 1 0] !! 0%nat = Some d /\ [Samples.vec 2 2 2] !! 0%nat = Some m.
Proof.
  split; [reflexivity |].
  destruct (paired_keys_recombine [Samples.vec 0 1 0] [Samples.vec 2 2 2] [1 # 4] 0 _ _
              eq_refl eq_refl) as (d & m & Hd & Hm & _).
  exists d, m. split; assumption.
Defined.

End RampFacts.

Section ShapeKeyFacts.
Import ImportMdl Observe.
Context `{External}.

Ltac inv_bind H x Hx := apply mbind_ok in H as (x & Hx & H).

Lemma find_key_Some name keys :
  forall s i, find_key name keys s = Some i ->
              s <= i /\ exists k, keys !! (i - s) = Some k /\ sk_name k = name.
Proof.
  induction keys as [| k keys IH]; intros s i; cbn [find_key]; [discriminate |].
  destruct (String.eqb (sk_name k) name) eqn:E.
  - intros [= <-]. apply String.eqb_eq in E. split; [lia |].
    exists k. by rewrite Nat.sub_diag.
  - intros Hf. apply IH in Hf as (Hle & k' & Hk' & Hn). split; [lia |].
    exists k'. split; [| done].
    replace (i - s) with (S (i - S s)) by lia. done.
Qed.

Lemma find_key_None name keys :
  forall s, find_key name keys s = None -> Forall (fun k => sk_name k <> name) keys.
Proof.
  induction keys as [| k keys IH]; intros s; cbn [find_key]; [constructor |].
  destruct (String.eqb (sk_name k) name) eqn:E; [discriminate |].
  intros Hf. apply String.eqb_neq in E. constructor; [done | by eapply IH].
Qed.

Lemma find_key_first name keys :
  forall s i, find_key name keys s = Some i ->
              forall j k, j < i - s -> keys !! j = Some k -> sk_name k <> name.
Proof.
  induction keys as [| k0 keys IH]; intros s i; cbn [find_key]; [discriminate |].
  destruct (String.eqb (sk_name k0) name) eqn:E.
  - intros [= <-] j k Hj. lia.
  - intros Hf j k Hj Hk. destruct j as [| j]; cbn in Hk.
    + injection Hk as <-. by apply String.eqb_neq.
    + apply (IH (S s) i Hf j); [| done].
      apply find_key_Some in Hf as [Hle _]. lia.
Qed.

Lemma get_or_add_spec name co keys keys' i :
  get_or_add name co keys = (keys', i) ->
  (exists k, keys' !! i = Some k /\ sk_name k = name) /\
  (keys' = keys \/
   (keys' = keys ++ [ {| sk_name := name; sk_co := co; sk_driver := None |} ] /\
    Forall (fun k => sk_name k <> name) keys /\ i = length keys)).
Proof.
  unfold get_or_add, shape_key_add. destruct (find_key name keys 0) as [j |] eqn:Hf.
  - intros [= <- <-]. apply find_key_Some in Hf as (_ & k & Hk & Hn).
    rewrite Nat.sub_0_r in Hk. split; [eauto | by left].
  - intros [= <- <-]. apply find_key_None in Hf. split.
    + exists {| sk_name := name; sk_co := co; sk_driver := None |}.
      split; [| reflexivity].
      rewrite lookup_app_r by lia. by rewrite Nat.sub_diag.
    + right. done.
Qed.

Lemma set_co_names i co keys : map sk_name (set_co i co keys) = map sk_name keys.
Proof.
  unfold set_co. apply list_eq. intros j.
  rewrite !list_lookup_fmap, list_lookup_alter.
  destruct (decide (i = j)) as [-> | ?]; [| done]. by destruct (keys !! j).
Qed.

Lemma set_co_drivers i co keys : map sk_driver (set_co i co keys) = map sk_driver keys.
Proof.
  unfold set_co. apply list_eq. intros j.
  rewrite !list_lookup_fmap, list_lookup_alter.
  destruct (decide (i = j)) as [-> | ?]; [| done]. by destruct (keys !! j).
Qed.

Lemma get_or_add_names name co keys keys' i :
  NoDup (map sk_name keys) ->
  get_or_add name co keys = (keys', i) ->
  NoDup (map sk_name keys') /\
  name ∈ map sk_name keys' /\
  exists new, keys' = keys ++ new /\ length new <= 1.
Proof.
  intros Hnd Hg. apply get_or_add_spec in Hg as [(k & Hk & Hn) [-> | (-> & Hfresh & ->)]].
  - split; [done |]. split.
    + apply list_elem_of_fmap. exists k. split; [symmetry; exact Hn |].
      apply list_elem_of_lookup. eauto.
    + exists []. split; [by rewrite app_nil_r | cbn; lia].
  - split; [| split].
    + rewrite map_app. cbn [map sk_name]. apply NoDup_app. split; [done |].
      split; [| apply NoDup_singleton].
      intros x Hx Hx'. apply list_elem_of_singleton in Hx' as ->.
      apply list_elem_of_fmap in Hx as (k' & Hk'n & Hk').
      rewrite Forall_forall in Hfresh. by apply (Hfresh k' Hk').
    + rewrite map_app. apply elem_of_app. right. cbn. left.
    + eexists. split; [reflexivity |]. cbn. lia.
Qed.

(** X15.  One step of the flex loop keeps the names of the shape keys
    pairwise distinct and the keys already present in place: it appends at
    most two keys (none when the flex's and the partner's keys exist), the
    flex's name is among the names afterwards, and no driver is touched. *)
Theorem shape_key_names_stay_distinct
    (mdl : MdlV49) (vvd : Vvd) (scale : Q) (create_drivers : bool) (model : Model)
    (vtx_vertices : list nat) (base_co : list Vector3)
    (keys keys' : list ShapeKey) (flex_name : string) (flex_desc : Flex) :
  NoDup (map sk_name keys) ->
  add_flex mdl vvd scale create_drivers model vtx_vertices base_co keys
           (flex_name, flex_desc) = Ok keys' ->
  NoDup (map sk_name keys') /\
  flex_name ∈ map sk_name keys' /\
  (exists new, map sk_name keys' = map sk_name keys ++ new /\ length new <= 2) /\
  map sk_driver (take (length keys) keys') = map sk_driver keys.
Proof.
  intros Hnd. unfold add_flex. cbn [fst snd]. intros Ha.
  inv_bind Ha vertex_animation Hva. inv_bind Ha raw_delta Hfd.
  inv_bind Ha raw_vertices Hmv.
  destruct (create_drivers && has_partner flex_desc).
  - inv_bind Ha partner_name Hpn.
    destruct (get_or_add partner_name base_co keys) as [keys1 pk] eqn:H1.
    destruct (get_or_add flex_name base_co keys1) as [keys2 sk] eqn:H2.
    inv_bind Ha bal Hbal. injection Ha as <-.
    destruct (get_or_add_names _ _ _ _ _ Hnd H1) as (Hnd1 & _ & new1 & -> & Hl1).
    destruct (get_or_add_names _ _ _ _ _ Hnd1 H2) as (Hnd2 & Hin2 & new2 & -> & Hl2).
    rewrite !set_co_names. split; [done |]. split; [done |]. split.
    + exists (map sk_name (new1 ++ new2)). rewrite <- app_assoc, map_app.
      split; [done |]. rewrite length_map, length_app. lia.
    + assert (Hd : forall l, map sk_driver (take (length keys) l)
                             = take (length keys) (map sk_driver l))
        by (intros l; by rewrite fmap_take).
      rewrite Hd, !set_co_drivers, <- Hd. by rewrite <- app_assoc, take_app_length.
  - destruct (get_or_add flex_name base_co keys) as [keys1 sk] eqn:H1.
    injection Ha as <-.
    destruct (get_or_add_names _ _ _ _ _ Hnd H1) as (Hnd1 & Hin1 & new1 & -> & Hl1).
    rewrite !set_co_names. split; [done |]. split; [done |]. split.
    + exists (map sk_name new1). rewrite map_app. split; [done |].
      rewrite length_map. lia.
    + assert (Hd : forall l, map sk_driver (take (length keys) l)
                             = take (length keys) (map sk_driver l))
        by (intros l; by rewrite fmap_take).
      rewrite Hd, !set_co_drivers, <- Hd. by rewrite take_app_length.
Qed.

(** X16.  Without drivers, or when the flex's partner index is 0, no
    partner is looked up: the step writes to the first key named after the
    flex, found or appended, the scaled vertices plus the scaled delta, and
    leaves every key of another name as it was.  (A flex named "base" thus
    overwrites the base key.) *)
Theorem unpaired_flex_key
    (mdl : MdlV49) (vvd : Vvd) (scale : Q) (create_drivers : bool) (model : Model)
    (vtx_vertices : list nat) (base_co : list Vector3)
    (keys keys' : list ShapeKey) (flex_name : string) (flex_desc : Flex) :
  create_drivers && has_partner flex_desc = false ->
  add_flex mdl vvd scale create_drivers model vtx_vertices base_co keys
           (flex_name, flex_desc) = Ok keys' ->
  exists vertex_animation raw_delta raw_vertices i key,
    vertex_cache vvd !! flex_name = Some vertex_animation /\
    gather (get_slice _ vertex_animation (vertex_offset model) (vertex_count model))
           vtx_vertices = Ok raw_delta /\
    gather (get_slice _ (map vertex (lod_data vvd)) (vertex_offset model)
                      (vertex_count model))
           vtx_vertices = Ok raw_vertices /\
    keys' !! i = Some key /\ sk_name key = flex_name /\
    sk_co key = zip_with add3 (map (fun d => scale3 d scale) raw_delta)
                              (map (fun v => scale3 v scale) raw_vertices) /\
    (forall j k, j < i -> keys' !! j = Some k -> sk_name k <> flex_name) /\
    (forall j k, keys !! j = Some k -> sk_name k <> flex_name -> keys' !! j = Some k).
Proof.
  intros Hun. unfold add_flex. cbn [fst snd]. rewrite Hun. intros Ha.
  inv_bind Ha vertex_animation Hva. apply of_option_ok in Hva.
  inv_bind Ha raw_delta Hfd. inv_bind Ha raw_vertices Hmv.
  destruct (get_or_add flex_name base_co keys) as [keys1 sk] eqn:H1.
  injection Ha as <-.
  assert (Hfirst : forall j k, j < sk -> keys1 !! j = Some k -> sk_name k <> flex_name).
  { unfold get_or_add, shape_key_add in H1.
    destruct (find_key flex_name keys 0) as [i0 |] eqn:Hf.
    - injection H1 as <- <-. intros j k Hj Hk.
      apply (find_key_first _ _ _ _ Hf j); [lia | done].
    - injection H1 as <- <-. apply find_key_None in Hf.
      intros j k Hj Hk. rewrite lookup_app_l in Hk by done.
      rewrite Forall_forall in Hf. apply (Hf k). apply list_elem_of_lookup. eauto. }
  apply get_or_add_spec in H1 as [(k & Hk & Hn) Hcase].
  exists vertex_animation, raw_delta, raw_vertices, sk,
         {| sk_name := sk_name k;
            sk_co := zip_with add3 (map (fun d => scale3 d scale) raw_delta)
                                   (map (fun v => scale3 v scale) raw_vertices);
            sk_driver := sk_driver k |}.
  do 3 (split; [done |]).
  split; [unfold set_co; by rewrite list_lookup_alter_eq, Hk |].
  split; [done |]. split; [done |]. split.
  - intros j k' Hj Hk'. unfold set_co in Hk'.
    rewrite list_lookup_alter_ne in Hk' by lia. by eapply Hfirst.
  - intros j k' Hk' Hne. unfold set_co.
    assert (Hj : keys1 !! j = Some k').
    { destruct Hcase as [-> | (-> & _ & _)]; [done | by apply lookup_app_l_Some]. }
    destruct (decide (sk = j)) as [-> | Hd].
    + rewrite Hk in Hj. injection Hj as ->. done.
    + by rewrite list_lookup_alter_ne.
Qed.

End ShapeKeyFacts.

Section FurtherWitnesses.
Import ImportMdl Observe Samples Shape Layout Layout2 Skin.

Lemma create_armature_parents_witness :
  Forall (parent_ok 2) (bones (face_mdl 0 face_rules)) /\
  exists arm,
    @create_armature external (face_mdl 0 face_rules) = Ok arm /\
    map bl_parent (armature_bones arm) = [None; Some 0%nat].
Proof.
  assert (Hok : Forall (parent_ok 2) (bones (face_mdl 0 face_rules))).
  { repeat constructor; vm_compute; intros; discriminate. }
  split; [exact Hok |].
  pose proof (@create_armature_parents external (face_mdl 0 face_rules)) as Hthm.
  cbv zeta in Hthm. destruct Hthm as [Hyes _].
  destruct (Hyes Hok) as (arm & Harm & _ & Hbones).
  exists arm. split; [exact Harm |]. rewrite Hbones. reflexivity.
Defined.

Lemma one_object_per_non_empty_sub_model_witness :
  @import_model external (face_mdl 0 face_rules) face_vvd face_vtx 1 true false true
  = Ok skinned_container /\
  length (container_objects skinned_container) = 1%nat.
Proof.
  split; [vm_compute; reflexivity |].
  destruct (@one_object_per_non_empty_sub_model external (face_mdl 0 face_rules) face_vvd
              face_vtx 1 true false true skinned_container) as [Hlen _].
  - vm_compute; reflexivity.
  - rewrite Hlen. reflexivity.
Defined.

Lemma import_without_meshes_witness :
  Forall (fun bvm : BodyPart * (@VtxModel external * Model) => vertex_count bvm.2.2 = 0%nat)
         (@sub_models external (face_mdl 0 face_rules) []) /\
  exists arm,
    @import_model external (face_mdl 0 face_rules) face_vvd [] 1 true false true
    = Ok {| container_armature := Some arm; container_objects := [];
            container_attachments := []; container_texts := [];
            container_warnings := [] |}.
Proof.
  assert (Hnone : Forall (fun bvm : BodyPart * (@VtxModel external * Model) =>
                            vertex_count bvm.2.2 = 0%nat)
                         (@sub_models external (face_mdl 0 face_rules) []))
    by constructor.
  split; [exact Hnone |].
  destruct (@import_without_meshes external (face_mdl 0 face_rules) face_vvd [] 1
              true false true Hnone) as (_ & _ & Hskinned).
  eexists. apply Hskinned; [reflexivity | reflexivity |].
  vm_compute. reflexivity.
Defined.

Lemma authored_geometry_and_faces_witness :
  exists obj e,
    @author_mesh external (face_mdl 16 face_rules) face_vvd 1 true true true
      (@Build_VtxModel external [face_lod]) face_model
      (@mesh_object_for external (face_mdl 16 face_rules) false true true
         {| body_part_name := "body"; models := [face_model] |} face_model).1
    = Ok (obj, e) /\
    concat (faces obj) = rev [0; 1; 2]%nat.
Proof.
  destruct (@author_mesh external (face_mdl 16 face_rules) face_vvd 1 true true true
              (@Build_VtxModel external [face_lod]) face_model
              (@mesh_object_for external (face_mdl 16 face_rules) false true true
                 {| body_part_name := "body"; models := [face_model] |} face_model).1)
    as [[obj e] | err] eqn:Hrun.
  - exists obj, e. split; [reflexivity |].
    destruct (@authored_geometry_and_faces external _ _ _ _ _ _ _ _ _ _ _ Hrun)
      as (lod & vv & ia & mia & vs & Hlod & Hmerge & _ & _ & _ & Hfaces & _).
    rewrite Hfaces. cbn in Hlod. injection Hlod as <-.
    cbn in Hmerge. injection Hmerge as _ <- _. reflexivity.
  - vm_compute in Hrun. discriminate Hrun.
Defined.

Lemma weight_groups_last_bone_wins_witness :
  weight_groups (face_mdl 0 face_rules) !! "jaw" = Some 1%nat.
Proof.
  destruct (weight_groups_last_bone_wins (face_mdl 0 face_rules) "jaw") as [_ Hsome].
  apply Hsome. split.
  - exists {| bone_name := "jaw"; parent_bone_index := 0 |}. split; reflexivity.
  - intros k bone Hk Hlook. destruct k as [| [| k]]; [lia | lia |].
    cbn in Hlook. discriminate Hlook.
Defined.

Lemma vertex_groups_fail_on_bad_bone_index_witness :
  forallb (vertex_ok (length (bones (face_mdl 0 face_rules)))) face_vertices = true /\
  exists groups, build_vertex_groups (face_mdl 0 face_rules) face_vertices = Ok groups.
Proof.
  split; [vm_compute; reflexivity |].
  destruct (vertex_groups_fail_on_bad_bone_index (face_mdl 0 face_rules) face_vertices)
    as [Hyes _].
  apply Hyes. vm_compute. reflexivity.
Defined.

Lemma positive_weights_are_all_added_witness :
  exists groups,
    build_vertex_groups (face_mdl 0 face_rules) face_vertices = Ok groups /\
    added groups 1 1 (3 # 4).
Proof.
  destruct (build_vertex_groups (face_mdl 0 face_rules) face_vertices)
    as [groups | err] eqn:Hrun.
  - exists groups. split; [reflexivity |].
    destruct (positive_weights_are_all_added (face_mdl 0 face_rules) face_vertices groups
                Hrun 1%nat (vert (vec 1 0 0) (1, 1 # 4)%Q [1; 0; 0]%nat [3 # 4; 1 # 4; 0]%Q)
                0%nat 1%nat (3 # 4) eq_refl eq_refl eq_refl eq_refl)
      as (bone & j & _ & _ & Hadded & Hj).
    rewrite Hj in Hadded; [exact Hadded |].
    cbn. apply NoDup_cons_2; [| apply NoDup_singleton].
    intros Hin. apply list_elem_of_singleton in Hin. discriminate Hin.
  - vm_compute in Hrun. discriminate Hrun.
Defined.

Lemma shape_key_names_stay_distinct_witness :
  NoDup (map sk_name base_keys) /\
  @add_flex external (face_mdl 0 face_rules) face_vvd 1 true face_model [0; 1; 2]%nat
    (map vertex face_vertices) base_keys ("smileL", smile_flex) = Ok paired_keys /\
  NoDup (map sk_name paired_keys).
Proof.
  assert (Hnd : NoDup (map sk_name base_keys)) by (cbn; apply NoDup_singleton).
  split; [exact Hnd |]. split; [vm_compute; reflexivity |].
  destruct (@shape_key_names_stay_distinct external (face_mdl 0 face_rules) face_vvd 1
              true face_model [0; 1; 2]%nat (map vertex face_vertices) base_keys
              paired_keys "smileL" smile_flex Hnd) as [Hnd' _].
  - vm_compute; reflexivity.
  - exact Hnd'.
Defined.

Lemma unpaired_flex_key_witness :
  false && has_partner smile_flex = false /\
  exists keys',
    @add_flex external (face_mdl 0 face_rules) face_vvd 1 false face_model [0; 1; 2]%nat
      (map vertex face_vertices) base_keys ("smileL", smile_flex) = Ok keys' /\
    exists i key, keys' !! i = Some key /\ sk_name key = "smileL".
Proof.
  split; [reflexivity |].
  destruct (@add_flex external (face_mdl 0 face_rules) face_vvd 1 false face_model
              [0; 1; 2]%nat (map vertex face_vertices) base_keys ("smileL", smile_flex))
    as [keys' | err] eqn:Hrun.
  - exists keys'. split; [reflexivity |].
    destruct (@unpaired_flex_key external (face_mdl 0 face_rules) face_vvd 1 false
                face_model [0; 1; 2]%nat (map vertex face_vertices) base_keys keys'
                "smileL" smile_flex eq_refl Hrun)
      as (_ & _ & _ & i & key & _ & _ & _ & Hkey & Hname & _).
    exists i, key. split; [exact Hkey | exact Hname].
  - vm_compute in Hrun. discriminate Hrun.
Defined.

End FurtherWitnesses.

Section DriverFacts.
Import ImportMdl Observe Drivers.
Context `{External}.

Ltac inv_bind H x Hx := apply mbind_ok in H as (x & Hx & H).

Lemma prefix_space c t :
  String.prefix " " (String c t) = if Ascii.ascii_dec " " c then true else false.
Proof.
  cbn [String.prefix]. destruct (Ascii.ascii_dec " " c); [by destruct t | done].
Qed.

Lemma replace_space_cons c t :
  replace " " "_" (String c t)
  = String (if Ascii.ascii_dec " " c then "_"%char else c) (replace " " "_" t).
Proof.
  unfold replace. cbn [replace_from]. rewrite prefix_space.
  destruct (Ascii.ascii_dec " " c); reflexivity.
Qed.

Lemma replace_space_app s t :
  replace " " "_" (s +:+ t) = replace " " "_" s +:+ replace " " "_" t.
Proof.
  induction s as [| c s IH]; [reflexivity |].
  change (String c s +:+ t) with (String c (s +:+ t)).
  rewrite !replace_space_cons, IH. reflexivity.
Qed.

Lemma contains_space_cons c t :
  contains " " (String c t)
  = (if Ascii.ascii_dec " " c then true else false) || contains " " t.
Proof. cbn [contains]. by rewrite prefix_space. Qed.

Lemma contains_space_app s t :
  contains " " (s +:+ t) = contains " " s || contains " " t.
Proof.
  induction s as [| c s IH]; [reflexivity |].
  change (String c s +:+ t) with (String c (s +:+ t)).
  rewrite !contains_space_cons, IH. by rewrite orb_assoc.
Qed.

Lemma replace_space_none s : contains " " (replace " " "_" s) = false.
Proof.
  induction s as [| c s IH]; [reflexivity |].
  rewrite replace_space_cons, contains_space_cons, IH.
  destruct (Ascii.ascii_dec " " c) as [<- | Hc]; [reflexivity |].
  by destruct (Ascii.ascii_dec " " c).
Qed.

Lemma function_name_rule flex_name :
  replace " " "_" (flex_name +:+ "_driver") = function_name flex_name.
Proof. unfold function_name. by rewrite replace_space_app. Qed.

Lemma function_name_no_space flex_name : contains " " (function_name flex_name) = false.
Proof.
  unfold function_name.
  change (contains " " (replace " " "_" flex_name +:+ "_driver") = false).
  by rewrite contains_space_app, replace_space_none.
Qed.

Lemma driver_expression_eq flex_name :
  replace " " "_" flex_name +:+ "_driver(obj_data)" = driver_expression flex_name.
Proof.
  unfold driver_expression, function_name.
  induction (replace " " "_" flex_name) as [| c r IH]; [reflexivity |].
  change (String c (r +:+ "_driver(obj_data)")
          = String c ((r +:+ "_driver") +:+ "(obj_data)")).
  by rewrite IH.
Qed.

Lemma basic_rule_keys flex_name s s' :
  basic_rule flex_name s = Ok s' -> ds_keys s' = ds_keys s.
Proof.
  unfold basic_rule.
  destruct (_parse_simple_flex (ds_controllers s) flex_name) as [[expr inputs] |].
  - destruct (negb (expr_bool expr) || _).
    + by intros [= <-].
    + intros Hb. inv_bind Hb body Hj. by injection Hb as <-.
  - by intros [= <-].
Qed.

(** What one step of the loop of lines 386-430 leaves. *)
Lemma drive_key_step all_exprs s key s' :
  drive_key all_exprs s key = Ok s' ->
  exists s1 key',
    (if negb (mem (sk_name key) (map fst all_exprs)) && negb (String.eqb (sk_name key) "base")
     then basic_rule (sk_name key) s = Ok s1 else s1 = s) /\
    ds_controllers s' = ds_controllers s1 /\ ds_script s' = ds_script s1 /\
    ds_warnings s' = ds_warnings s1 /\
    ds_keys s' = ds_keys s ++ [key'] /\
    sk_name key' = sk_name key /\ sk_co key' = sk_co key /\
    sk_driver key' = if String.eqb (sk_name key) "base" then sk_driver key
                     else Some (driver_expression (sk_name key)).
Proof.
  unfold drive_key. destruct (String.eqb (sk_name key) "base") eqn:Hbase.
  - intros [= <-]. exists s, key. rewrite andb_false_r. cbn. done.
  - intros Hd. inv_bind Hd s1 Hs1. injection Hd as <-.
    exists s1. eexists. rewrite andb_true_r. cbn [ds_controllers ds_script ds_warnings ds_keys].
    split.
    { destruct (negb (mem (sk_name key) (map fst all_exprs))); [done | by injection Hs1]. }
    do 3 (split; [reflexivity |]). split.
    { assert (Hk : ds_keys s1 = ds_keys s).
      { destruct (negb (mem (sk_name key) (map fst all_exprs)));
          [by eapply basic_rule_keys | by injection Hs1 as <-]. }
      rewrite Hk. reflexivity. }
    cbn [sk_name sk_co sk_driver]. by rewrite driver_expression_eq.
Qed.

(** X17.  The function emitted for a compiled rule is registered under the
    very name that the driver expression of the shape key of that name
    calls, although the two places compute the name differently (spaces
    are replaced after appending "_driver" in one, before in the other);
    that name contains no space.  A rule whose function name is already a
    global of the module is skipped and emits nothing. *)
Theorem driver_calls_the_function_of_its_rule
    (all_exprs : list (string * (Expr * list Input)))
    (file file' : list string) (s s' : DriverState) (key : ShapeKey)
    (expr : Expr) (inputs : list Input) :
  sk_name key <> "base" ->
  add_rule file (sk_name key, (expr, inputs)) = Ok file' ->
  drive_key all_exprs s key = Ok s' ->
  exists name key',
    contains " " name = false /\
    (if mem name module_globals then file' = file
     else exists defs,
            input_definitions inputs = Ok defs /\
            file' = file ++ [driver_template name (join st defs) (expr_str expr)]) /\
    ds_keys s' = ds_keys s ++ [key'] /\
    sk_name key' = sk_name key /\
    sk_driver key' = Some (name +:+ "(obj_data)").
Proof.
  intros Hbase Hrule Hdrive.
  exists (function_name (sk_name key)).
  apply drive_key_step in Hdrive
    as (s1 & key' & _ & _ & _ & _ & Hkeys & Hname & _ & Hdriver).
  exists key'. split; [apply function_name_no_space |]. split.
  - unfold add_rule in Hrule. cbn [fst snd] in Hrule.
    change (sk_name key ++ "_driver")%string with (sk_name key +:+ "_driver") in Hrule.
    rewrite function_name_rule in Hrule.
    destruct (mem (function_name (sk_name key)) module_globals).
    + by injection Hrule as <-.
    + inv_bind Hrule defs Hdefs. injection Hrule as <-. by exists defs.
  - apply String.eqb_neq in Hbase. rewrite Hbase in Hdriver. done.
Qed.

Lemma drive_keys_loop all_exprs (keys : list ShapeKey) s0 s :
  rfold (drive_key all_exprs) keys s0 = Ok s ->
  exists keys',
    ds_keys s = ds_keys s0 ++ keys' /\
    Forall2 (fun key key' =>
               sk_name key' = sk_name key /\ sk_co key' = sk_co key /\
               sk_driver key' = if String.eqb (sk_name key) "base" then sk_driver key
                                else Some (driver_expression (sk_name key)))
            keys keys'.
Proof.
  revert s0. induction keys as [| key keys IH]; intros s0 Hr; cbn in Hr.
  - injection Hr as <-. exists []. split; [by rewrite app_nil_r | constructor].
  - apply rbind_ok in Hr as (s1 & Hstep & Hr).
    apply drive_key_step in Hstep
      as (s2 & key' & _ & _ & _ & _ & Hkeys & Hname & Hco & Hdriver).
    apply IH in Hr as (keys' & Hk & Hall).
    exists (key' :: keys'). split.
    + rewrite Hk, Hkeys, <- app_assoc. reflexivity.
    + by constructor.
Qed.

(** X18.  A successful [create_flex_drivers] keeps the shape keys of the
    object in number, order, name and coordinates; every key not named
    "base" leaves with the scripted expression that calls the function
    named after it, keys named "base" keep what they had; and unless the
    object has no shape key, the text block written is named after the
    model's header name followed by ".py". *)
Theorem drivers_attached_to_every_key_but_base
    (obj obj' : MeshObject) (mdl : MdlV49)
    (text : option (string * list string)) (warnings : list string) :
  create_flex_drivers obj mdl = Ok (obj', text, warnings) ->
  Forall2 (fun key key' =>
             sk_name key' = sk_name key /\ sk_co key' = sk_co key /\
             sk_driver key' = if String.eqb (sk_name key) "base" then sk_driver key
                              else Some (driver_expression (sk_name key)))
          (shape_keys obj) (shape_keys obj') /\
  (shape_keys obj = [] -> obj' = obj /\ text = None /\ warnings = []) /\
  (shape_keys obj <> [] -> exists script, text = Some (header_name mdl +:+ ".py", script)).
Proof.
  unfold create_flex_drivers. destruct (shape_keys obj) as [| k ks] eqn:Hkeys.
  - intros [= <- <- <-]. rewrite Hkeys. split; [constructor |]. split; [done |]. done.
  - intros Hc.
    inv_bind Hc controllers Hcs. inv_bind Hc script Hs. inv_bind Hc s Hk.
    injection Hc as <- <- <-. cbn [shape_keys].
    apply drive_keys_loop in Hk as (keys' & Hk & Hall). cbn in Hk. subst keys'.
    split; [exact Hall |]. split; [done |]. intros _. by eexists.
Qed.

Lemma basic_rule_identity flex_name s s' :
  basic_rule flex_name s = Ok s' -> s' = identity_fallback flex_name s.
Proof.
  unfold basic_rule, identity_fallback.
  destruct (_parse_simple_flex (ds_controllers s) flex_name) as [[expr inputs] |].
  - destruct (negb (expr_bool expr) || _) eqn:E.
    + by intros [= <-].
    + destruct inputs as [| inp inputs]; [by rewrite orb_true_r in E |].
      cbn. discriminate.
  - by intros [= <-].
Qed.

Lemma drive_keys_fallbacks mdl (keys : list ShapeKey) s0 s :
  rfold (drive_key (flex_rules mdl)) keys s0 = Ok s ->
  ds_controllers s = ds_controllers s0 ++ map identity_controller (missing mdl keys) /\
  ds_script s = ds_script s0 ++ map identity_template (missing mdl keys) /\
  ds_warnings s = ds_warnings s0 ++ flat_map fallback_warnings (missing mdl keys).
Proof.
  revert s0. induction keys as [| key keys IH]; intros s0 Hr; cbn in Hr.
  - injection Hr as <-. unfold missing. cbn. by rewrite !app_nil_r.
  - apply rbind_ok in Hr as (s1 & Hstep & Hr).
    apply drive_key_step in Hstep as (s2 & key' & Hs2 & Hc & Hs & Hw & _).
    apply IH in Hr as (Hc' & Hs' & Hw'). rewrite Hc', Hs', Hw', Hc, Hs, Hw.
    unfold missing, without_rule. cbn [List.filter].
    rewrite (andb_comm (negb (String.eqb (sk_name key) "base"))).
    destruct (negb (mem (sk_name key) (map fst (flex_rules mdl)))
              && negb (String.eqb (sk_name key) "base")).
    + apply basic_rule_identity in Hs2 as ->.
      cbn [map flat_map identity_fallback ds_controllers ds_script ds_warnings].
      unfold fallback_warnings, identity_controller.
      rewrite <- !app_assoc. done.
    + subst s2. done.
Qed.

(** X19.  When [create_flex_drivers] succeeds on an object with shape keys,
    every key other than "base" whose name has no compiled rule has received
    the identity fallback, in key order: a controller named after the key
    with mode 1 and range 0..1 after the controllers of the UI controllers,
    an identity driver function after the functions of the compiled rules,
    and the two warnings; nothing else is warned about, and no
    single-controller passthrough is ever part of a successful run. *)
Theorem keys_without_rule_get_identity_controller
    (obj obj' : MeshObject) (mdl : MdlV49)
    (text : option (string * list string)) (warnings : list string) :
  shape_keys obj <> [] ->
  create_flex_drivers obj mdl = Ok (obj', text, warnings) ->
  exists controllers script,
    rfold (add_ui_controller mdl) (flex_ui_controllers mdl) (pg_controllers obj)
    = Ok controllers /\
    rfold add_rule (flex_rules mdl) [] = Ok script /\
    pg_controllers obj'
    = controllers ++ map identity_controller (missing mdl (shape_keys obj)) /\
    text = Some (header_name mdl +:+ ".py",
                 script ++ map identity_template (missing mdl (shape_keys obj))) /\
    warnings = flat_map fallback_warnings (missing mdl (shape_keys obj)).
Proof.
  unfold create_flex_drivers. destruct (shape_keys obj) as [| k ks] eqn:Hkeys; [done |].
  intros _ Hc.
  inv_bind Hc controllers Hcs. inv_bind Hc script Hs. inv_bind Hc s Hk.
  injection Hc as <- <- <-. cbn [pg_controllers].
  apply drive_keys_fallbacks in Hk as (Hc & Hscript & Hw).
  cbn [ds_controllers ds_script ds_warnings] in Hc, Hscript, Hw.
  exists controllers, script. rewrite Hc, Hscript, Hw. done.
Qed.

Lemma next_controller_known mdl name :
  known mdl name = true -> exists c, next_controller mdl name = Ok c.
Proof.
  unfold known, next_controller. intros Hk.
  apply existsb_exists in Hk as (c & Hin & Hc).
  destruct (List.find _ (flex_controllers mdl)) as [c' |] eqn:Hf; [by exists c' |].
  apply (List.find_none _ _ Hf) in Hin. cbn in Hin. congruence.
Qed.

Lemma next_controller_unknown mdl name :
  known mdl name = false -> next_controller mdl name = Raise StopIteration.
Proof.
  unfold known, next_controller. intros Hk.
  destruct (List.find _ (flex_controllers mdl)) as [c |] eqn:Hf; [| done].
  apply List.find_some in Hf as [Hin Hc].
  assert (Ht : existsb (fun a => String.eqb (fc_name a) name) (flex_controllers mdl) = true)
    by (apply existsb_exists; eauto).
  congruence.
Qed.

Lemma next_controller_ok mdl name c :
  next_controller mdl name = Ok c -> known mdl name = true.
Proof.
  intros Hn. destruct (known mdl name) eqn:Hk; [done |].
  apply next_controller_unknown in Hk. congruence.
Qed.

Lemma add_ui_controller_ok mdl controllers ui controllers' :
  add_ui_controller mdl controllers ui = Ok controllers' ->
  forallb (known mdl) (ui_refs ui) = true /\
  exists new, controllers' = controllers ++ new /\ length new = controllers_added ui.
Proof.
  unfold add_ui_controller, ui_refs, controllers_added. intros Ha.
  inv_bind Ha nway Hnway. inv_bind Ha cont Hcont. injection Ha as <-.
  assert (Hn : forallb (known mdl)
                 (if negb (String.eqb (nway_controller ui) "")
                  then [nway_controller ui] else []) = true
               /\ length nway = if String.eqb (nway_controller ui) "" then 0 else 1).
  { destruct (String.eqb (nway_controller ui) ""); cbn in Hnway |- *.
    - by injection Hnway as <-.
    - inv_bind Hnway mc Hmc. injection Hnway as <-.
      apply next_controller_ok in Hmc. by rewrite Hmc. }
  destruct Hn as [Hn Hlen].
  assert (Hc : forallb (known mdl)
                 (if stereo ui then [left_controller ui; right_controller ui]
                  else [controller ui]) = true).
  { destruct (stereo ui).
    - inv_bind Hcont l Hl. inv_bind Hcont r Hr.
      apply next_controller_ok in Hl, Hr. cbn. by rewrite Hl, Hr.
    - inv_bind Hcont c Hc. apply next_controller_ok in Hc. cbn. by rewrite Hc. }
  split; [by rewrite forallb_app, Hn, Hc |].
  exists ([cont] ++ nway). split; [done |]. cbn [length app]. rewrite Hlen.
  by destruct (String.eqb (nway_controller ui) "").
Qed.

Lemma add_ui_controllers_ok mdl (uis : list FlexUIController) controllers controllers' :
  rfold (add_ui_controller mdl) uis controllers = Ok controllers' ->
  Forall (fun ui => forallb (known mdl) (ui_refs ui) = true) uis /\
  length controllers' = length controllers + sum_list (map controllers_added uis).
Proof.
  revert controllers. induction uis as [| ui uis IH]; intros controllers Hr; cbn in Hr.
  - injection Hr as <-. split; [constructor | cbn; lia].
  - apply rbind_ok in Hr as (c1 & Hstep & Hr).
    apply add_ui_controller_ok in Hstep as (Hknown & new & -> & Hlen).
    apply IH in Hr as [Hall Hl]. split; [by constructor |].
    rewrite Hl, length_app, Hlen. cbn. lia.
Qed.

(** X20.  Every name a UI controller refers to (its n-way controller when
    it has one, its left and right controllers when stereo, its controller
    otherwise) must be the name of a flex controller of the model: a UI
    controller with an unknown reference raises StopIteration, and a stereo
    one whose left and right controllers differ in range raises
    AssertionError.  A successful [create_flex_drivers] on an object with
    shape keys therefore resolved them all, and left the object with one
    more controller per UI controller, one more again per n-way controller,
    and one per shape key that had no rule. *)
Theorem ui_controllers_must_resolve (mdl : MdlV49) :
  (forall controllers ui,
     forallb (known mdl) (ui_refs ui) = false ->
     add_ui_controller mdl controllers ui = Raise StopIteration) /\
  (forall controllers ui l r,
     stereo ui = true ->
     forallb (known mdl) (ui_refs ui) = true ->
     next_controller mdl (left_controller ui) = Ok l ->
     next_controller mdl (right_controller ui) = Ok r ->
     ~ (fc_max l == fc_max r /\ fc_min l == fc_min r)%Q ->
     add_ui_controller mdl controllers ui = Raise AssertionError) /\
  (forall obj obj' text warnings,
     shape_keys obj <> [] ->
     create_flex_drivers obj mdl = Ok (obj', text, warnings) ->
     Forall (fun ui => forallb (known mdl) (ui_refs ui) = true) (flex_ui_controllers mdl) /\
     length (pg_controllers obj')
     = length (pg_controllers obj)
       + sum_list (map controllers_added (flex_ui_controllers mdl))
       + length (missing mdl (shape_keys obj))).
Proof.
  split; [| split].
  - intros controllers ui. unfold ui_refs, add_ui_controller.
    rewrite forallb_app. intros Hu.
    destruct (String.eqb (nway_controller ui) "") eqn:Hnw; cbn [negb] in Hu |- *.
    + cbn in Hu. destruct (stereo ui); cbn in Hu.
      * destruct (known mdl (left_controller ui)) eqn:Hl.
        -- apply next_controller_known in Hl as [l ->]. cbn.
           rewrite andb_true_r in Hu. cbn in Hu.
           by rewrite (next_controller_unknown _ _ Hu).
        -- by rewrite (next_controller_unknown _ _ Hl).
      * rewrite andb_true_r in Hu. by rewrite (next_controller_unknown _ _ Hu).
    + cbn [forallb] in Hu. rewrite andb_true_r in Hu.
      destruct (known mdl (nway_controller ui)) eqn:Hn.
      * apply next_controller_known in Hn as [mc ->]. cbn in Hu |- *.
        destruct (stereo ui); cbn in Hu.
        -- destruct (known mdl (left_controller ui)) eqn:Hl.
           ++ apply next_controller_known in Hl as [l ->]. cbn.
              rewrite andb_true_r in Hu. cbn in Hu.
              by rewrite (next_controller_unknown _ _ Hu).
           ++ by rewrite (next_controller_unknown _ _ Hl).
        -- rewrite andb_true_r in Hu. by rewrite (next_controller_unknown _ _ Hu).
      * by rewrite (next_controller_unknown _ _ Hn).
  - intros controllers ui l r Hst Hknown Hl Hr Hdiff.
    unfold add_ui_controller. rewrite Hst, Hl, Hr.
    assert (Hnway : exists nway,
               (if negb (String.eqb (nway_controller ui) "")
                then multi_controller ← next_controller mdl (nway_controller ui);
                     Ok [set_from_controller
                           (with_name_stereo pg_new (nway_controller ui) false)
                           multi_controller]
                else Ok []) = Ok nway).
    { unfold ui_refs in Hknown. rewrite forallb_app in Hknown.
      apply andb_true_iff in Hknown as [Hn _].
      destruct (String.eqb (nway_controller ui) ""); cbn in Hn |- *; [by eexists |].
      rewrite andb_true_r in Hn. apply next_controller_known in Hn as [mc ->].
      cbn. by eexists. }
    destruct Hnway as [nway ->]. cbn.
    destruct (Qeq_bool (fc_max l) (fc_max r)) eqn:Hmax; [| done]. cbn.
    destruct (Qeq_bool (fc_min l) (fc_min r)) eqn:Hmin; [| done].
    apply Qeq_bool_iff in Hmax, Hmin. by destruct Hdiff.
  - intros obj obj' text warnings Hne Hc. unfold create_flex_drivers in Hc.
    destruct (shape_keys obj) as [| k ks] eqn:Hkeys; [done |].
    inv_bind Hc controllers Hcs. inv_bind Hc script Hs. inv_bind Hc s Hk.
    injection Hc as <- <- <-. cbn [pg_controllers].
    apply add_ui_controllers_ok in Hcs as [Hall Hlen]. split; [exact Hall |].
    apply drive_keys_fallbacks in Hk as (Hc & _ & _). cbn [ds_controllers] in Hc.
    rewrite Hc, length_app, length_map, Hlen. done.
Qed.

End DriverFacts.

Section DriverWitnesses.
Import ImportMdl Observe Samples MoreSamples Drivers.

Lemma driver_calls_the_function_of_its_rule_witness :
  exists file' s' key',
    @add_rule external [] ("smileL", (Rule "left_smile", [("left_smile", "fetch1")]))
    = Ok file' /\
    @drive_key external face_rules smile_state
      {| sk_name := "smileL"; sk_co := []; sk_driver := None |} = Ok s' /\
    ds_keys s' = [key'] /\ sk_driver key' = Some "smileL_driver(obj_data)".
Proof.
  destruct (@add_rule external [] ("smileL", (Rule "left_smile", [("left_smile", "fetch1")])))
    as [file' | err] eqn:Hrule; [| vm_compute in Hrule; discriminate Hrule].
  destruct (@drive_key external face_rules smile_state
              {| sk_name := "smileL"; sk_co := []; sk_driver := None |})
    as [s' | err] eqn:Hdrive; [| vm_compute in Hdrive; discriminate Hdrive].
  assert (Hbase : sk_name {| sk_name := "smileL"; sk_co := []; sk_driver := None |} <> "base")
    by discriminate.
  destruct (@driver_calls_the_function_of_its_rule external face_rules [] file'
              smile_state s' {| sk_name := "smileL"; sk_co := []; sk_driver := None |}
              (Rule "left_smile") [("left_smile", "fetch1")] Hbase Hrule Hdrive)
    as (name & key' & _ & _ & Hkeys & _ & Hdriver).
  exists file', s', key'. split; [reflexivity |]. split; [reflexivity |].
  split; [exact Hkeys |].
  vm_compute in Hdrive. injection Hdrive as <-.
  cbn in Hkeys. injection Hkeys as <-. reflexivity.
Defined.

Lemma drivers_attached_to_every_key_but_base_witness :
  exists obj' text warnings,
    @create_flex_drivers external flexed_object (face_mdl 0 face_rules)
    = Ok (obj', text, warnings) /\
    map sk_name (shape_keys obj') = map sk_name (shape_keys flexed_object).
Proof.
  destruct (@create_flex_drivers external flexed_object (face_mdl 0 face_rules))
    as [[[obj' text] warnings] | err] eqn:Hrun; [| vm_compute in Hrun; discriminate Hrun].
  exists obj', text, warnings. split; [reflexivity |].
  destruct (@drivers_attached_to_every_key_but_base external flexed_object obj'
              (face_mdl 0 face_rules) text warnings Hrun) as [Hall _].
  clear Hrun. induction Hall as [| k k' ks ks' (Hn & _) _ IH]; [reflexivity |].
  cbn [map]. by rewrite Hn, IH.
Defined.

Lemma keys_without_rule_get_identity_controller_witness :
  shape_keys flexed_object <> [] /\
  exists obj' text,
    @create_flex_drivers external flexed_object (face_mdl 0 face_rules)
    = Ok (obj', text, @fallback_warnings "frown").
Proof.
  assert (Hne : shape_keys flexed_object <> []) by discriminate.
  split; [exact Hne |].
  destruct (@create_flex_drivers external flexed_object (face_mdl 0 face_rules))
    as [[[obj' text] warnings] | err] eqn:Hrun; [| vm_compute in Hrun; discriminate Hrun].
  exists obj', text.
  destruct (@keys_without_rule_get_identity_controller external flexed_object obj'
              (face_mdl 0 face_rules) text warnings Hne Hrun)
    as (controllers & script & _ & _ & _ & _ & Hw).
  rewrite Hw. reflexivity.
Defined.

Lemma ui_controllers_must_resolve_witness :
  forallb (known (face_mdl 0 face_rules)) (ui_refs frown_ui) = false /\
  @add_ui_controller external (face_mdl 0 face_rules) [] frown_ui = Raise StopIteration /\
  @add_ui_controller external lopsided_mdl [] brow_ui = Raise AssertionError.
Proof.
  split; [reflexivity |]. split.
  - destruct (@ui_controllers_must_resolve external (face_mdl 0 face_rules)) as [Hstop _].
    apply Hstop. reflexivity.
  - destruct (@ui_controllers_must_resolve external lopsided_mdl) as (_ & Hassert & _).
    apply (Hassert [] brow_ui {| fc_name := "left_brow"; fc_min := 0; fc_max := 1 |}
             {| fc_name := "right_brow"; fc_min := 0; fc_max := 2 |});
      [reflexivity | reflexivity | reflexivity | reflexivity |].
    intros [Hmax _]. vm_compute in Hmax. discriminate Hmax.
Defined.

End DriverWitnesses.

Section MaterialFacts.
Import ImportMdl Observe Materials.
Context `{External}.

Lemma find_material_path_first paths name material_path :
  find_material_path paths name = Some material_path ->
  first_found paths name material_path.
Proof.
  induction paths as [| p paths IH]; cbn [find_material_path]; [discriminate |].
  destruct (find_material p name) as [mp |] eqn:Hp.
  - intros [= <-]. exists 0, p. split; [done |]. split; [done |]. intros j q Hj. lia.
  - intros Hf. destruct (IH Hf) as (i & q & Hq & Hfound & Hbefore).
    exists (S i), q. split; [done |]. split; [done |].
    intros [| j] q' Hj Hq'.
    + cbn in Hq'. by injection Hq' as <-.
    + apply (Hbefore j); [lia | done].
Qed.

Lemma find_material_path_none paths name :
  find_material_path paths name = None <->
  forall p, p ∈ paths -> find_material p name = None.
Proof.
  induction paths as [| p paths IH]; cbn [find_material_path].
  - split; [| done]. intros _ q Hq. by apply elem_of_nil in Hq.
  - destruct (find_material p name) as [mp |] eqn:Hp.
    + split; [done |]. intros Hall. specialize (Hall p (list_elem_of_here _ _)). congruence.
    + rewrite IH. split.
      * intros Hall q Hq. apply elem_of_cons in Hq as [-> | Hq]; [done | by apply Hall].
      * intros Hall q Hq. apply Hall. by right.
Qed.

Lemma import_materials_fold mdl un use_bvlg (l : list Material) :
  (forall material, material ∈ l -> material ∈ materials mdl) ->
  forall h,
  exists created skipped,
    let h' := foldl (import_material mdl un use_bvlg) h l in
    host_created h' = host_created h ++ created /\
    host_log h' = host_log h ++ map skip_message skipped /\
    Forall (loaded_for mdl un) created /\
    Forall (named_for mdl un) skipped /\
    length created + length skipped <= length l /\
    (created = [] ->
     host_materials h' = host_materials h /\ host_use_bvlg h' = host_use_bvlg h) /\
    (created <> [] -> host_use_bvlg h' = use_bvlg).
Proof.
  induction l as [| material l IH]; intros Hin h.
  - exists [], []. cbn. rewrite !app_nil_r. repeat split; done.
  - assert (Hl : forall m, m ∈ l -> m ∈ materials mdl) by (intros m Hm; apply Hin; by right).
    assert (Hm : material ∈ materials mdl) by (apply Hin; left).
    cbn [foldl]. unfold import_material at 2 4 6 8 10.
    destruct (already_loaded h _) eqn:Hloaded.
    + destruct (IH Hl {| host_materials := host_materials h;
                         host_use_bvlg := host_use_bvlg h;
                         host_log := host_log h ++
                           ["Skipping loading of "
                            +:+ mat_name_of un mdl (material_name material)
                            +:+ " as it already loaded"];
                         host_created := host_created h |})
        as (created & skipped & Hc & Hlog & Hcr & Hsk & Hlen & Hnone & Hsome).
      exists created, (mat_name_of un mdl (material_name material) :: skipped).
      cbn [host_created host_log host_materials host_use_bvlg] in *.
      split; [exact Hc |]. split.
      { rewrite Hlog, <- app_assoc. reflexivity. }
      split; [exact Hcr |]. split.
      { constructor; [by exists material | exact Hsk]. }
      split; [cbn; lia |]. split; [exact Hnone | exact Hsome].
    + destruct (find_material_path (materials_paths mdl) (material_name material))
        as [material_path |] eqn:Hfound.
      * destruct (IH Hl {| host_materials :=
                             create_material material_path
                               (mat_name_of un mdl (material_name material))
                               (host_materials h);
                           host_use_bvlg := use_bvlg;
                           host_log := host_log h;
                           host_created := host_created h ++
                             [(material_path,
                               mat_name_of un mdl (material_name material))] |})
          as (created & skipped & Hc & Hlog & Hcr & Hsk & Hlen & Hnone & Hsome).
        exists ((material_path, mat_name_of un mdl (material_name material)) :: created),
               skipped.
        cbn [host_created host_log host_materials host_use_bvlg] in *.
        split; [rewrite Hc, <- app_assoc; reflexivity |].
        split; [exact Hlog |]. split.
        { constructor; [| exact Hcr]. exists material.
          split; [done |]. split; [done |]. by apply find_material_path_first. }
        split; [exact Hsk |]. split; [cbn; lia |]. split; [done |].
        intros _. destruct created as [| c created].
        -- by destruct (Hnone eq_refl) as [_ ->].
        -- by apply Hsome.
      * destruct (IH Hl h)
          as (created & skipped & Hc & Hlog & Hcr & Hsk & Hlen & Hnone & Hsome).
        exists created, skipped. cbn zeta in *.
        split; [exact Hc |]. split; [exact Hlog |]. split; [exact Hcr |].
        split; [exact Hsk |]. split; [cbn; lia |]. split; [exact Hnone | exact Hsome].
Qed.

(** X21.  [import_materials] hands to the material loader only materials
    of the model that [find_material] locates, each under the name the
    import gives it and with the path found under the first material path
    that has it (later paths are not consulted); it logs only skip messages
    for materials of the model; each material is loaded or skipped at most
    once; and when nothing is loaded the host's materials and shader option
    are untouched, while any load leaves the option as requested. *)
Theorem materials_loaded_from_first_path
    (mdl : MdlV49) (unique_material_names use_bvlg : bool) (h : Host) :
  exists created skipped,
    let h' := import_materials mdl unique_material_names use_bvlg h in
    host_created h' = host_created h ++ created /\
    host_log h' = host_log h ++ map skip_message skipped /\
    Forall (loaded_for mdl unique_material_names) created /\
    Forall (named_for mdl unique_material_names) skipped /\
    length created + length skipped <= length (materials mdl) /\
    (created = [] ->
     host_materials h' = host_materials h /\ host_use_bvlg h' = host_use_bvlg h) /\
    (created <> [] -> host_use_bvlg h' = use_bvlg).
Proof. unfold import_materials. by apply import_materials_fold. Qed.

(** X22.  A model none of whose materials is found under any material path
    and none of whose materials is already loaded leaves the host exactly
    as it was: no material is created, nothing is logged and the shader
    option is not set. *)
Theorem unfound_materials_change_nothing
    (mdl : MdlV49) (unique_material_names use_bvlg : bool) (h : Host) :
  (forall material,
     material ∈ materials mdl ->
     already_loaded h (mat_name_of unique_material_names mdl (material_name material))
     = false /\
     forall p, p ∈ materials_paths mdl -> find_material p (material_name material) = None) ->
  import_materials mdl unique_material_names use_bvlg h = h.
Proof.
  unfold import_materials. induction (materials mdl) as [| material l IH]; [done |].
  intros Hall. cbn [foldl].
  destruct (Hall material (list_elem_of_here _ _)) as [Hloaded Hnone].
  apply find_material_path_none in Hnone.
  unfold import_material at 2. rewrite Hloaded, Hnone.
  apply IH. intros m Hm. apply Hall. by right.
Qed.

End MaterialFacts.

Section MaterialWitnesses.
Import ImportMdl Observe Samples Materials MaterialSamples.

Lemma unfound_materials_change_nothing_witness :
  @import_materials external pathless_mdl true true bare_host = bare_host.
Proof.
  apply (@unfound_materials_change_nothing external pathless_mdl true true bare_host).
  intros material Hm. cbn [materials pathless_mdl] in Hm.
  apply list_elem_of_singleton in Hm as ->. split; [reflexivity |].
  intros p Hp. cbn [materials_paths pathless_mdl] in Hp. by apply elem_of_nil in Hp.
Defined.

End MaterialWitnesses.

Section SlotFacts.
Import ImportMdl Observe Slots.
Context `{External}.

Lemma increasing_cons x l : increasing (x :: l) <-> Forall (lt x) l /\ increasing l.
Proof.
  unfold increasing. split.
  - intros Hinc. split.
    + apply Forall_lookup. intros j b Hb. apply (Hinc 0 (S j) x b); [lia | done | done].
    + intros i j a b Hij Ha Hb. apply (Hinc (S i) (S j) a b); [lia | done | done].
  - intros [Hall Hinc] i j a b Hij Ha Hb. destruct j as [| j]; [lia |].
    cbn in Hb. destruct i as [| i].
    + cbn in Ha. injection Ha as <-.
      rewrite Forall_lookup in Hall. by apply (Hall j b).
    + cbn in Ha. apply (Hinc i j a b); [lia | done | done].
Qed.

Lemma insert_unique_elem i l x : x ∈ insert_unique i l <-> x = i \/ x ∈ l.
Proof.
  induction l as [| j l IH]; cbn [insert_unique].
  - rewrite list_elem_of_singleton. split; [by left | intros [-> | Hx]; [done |]].
    by apply elem_of_nil in Hx.
  - destruct (i <? j)%nat eqn:Hlt; [by rewrite elem_of_cons |].
    destruct (i =? j)%nat eqn:Heq.
    + apply Nat.eqb_eq in Heq as ->. rewrite elem_of_cons. tauto.
    + rewrite !elem_of_cons, IH. tauto.
Qed.

Lemma insert_unique_increasing i l : increasing l -> increasing (insert_unique i l).
Proof.
  induction l as [| j l IH]; cbn [insert_unique]; intros Hinc.
  - apply increasing_cons. split; [constructor | intros a b x y Hab Hx; by destruct a].
  - apply increasing_cons in Hinc as [Hall Hl].
    destruct (i <? j)%nat eqn:Hlt.
    + apply Nat.ltb_lt in Hlt. apply increasing_cons. split.
      * constructor; [done |]. eapply Forall_impl; [exact Hall |]. cbn. lia.
      * by apply increasing_cons.
    + destruct (i =? j)%nat eqn:Heq; [by apply increasing_cons |].
      apply Nat.ltb_ge in Hlt. apply Nat.eqb_neq in Heq.
      apply increasing_cons. split; [| by apply IH].
      apply Forall_forall. intros x Hx. apply (proj1 (insert_unique_elem _ _ _)) in Hx as [-> | Hx]; [lia |].
      rewrite Forall_forall in Hall. by apply Hall.
Qed.

Lemma unique_elem l x : x ∈ unique l <-> x ∈ l.
Proof.
  unfold unique. induction l as [| i l IH]; cbn [foldr]; [done |].
  rewrite insert_unique_elem, elem_of_cons, IH. done.
Qed.

Lemma unique_increasing l : increasing (unique l).
Proof.
  unfold unique. induction l as [| i l IH]; cbn [foldr].
  - intros i j a b _ Ha. by destruct i.
  - by apply insert_unique_increasing.
Qed.

(** X23.  The material slots of an authored mesh: an empty material index
    array raises ValueError, a material index beyond the model's materials
    raises IndexError, and otherwise there is exactly one slot per distinct
    material index that occurs, in increasing order of the index, named as
    the import names that material. *)
Theorem one_slot_per_material_used
    (mdl : MdlV49) (unique_material_names : bool) (material_indices_array : list nat) :
  (material_indices_array = [] ->
   material_names mdl unique_material_names material_indices_array = Raise ValueError) /\
  (material_indices_array <> [] ->
   Forall (fun mat_id => mat_id < length (materials mdl)) material_indices_array ->
   exists ids names,
     material_names mdl unique_material_names material_indices_array = Ok names /\
     Forall2 (slot_of mdl unique_material_names) ids names /\
     increasing ids /\
     forall mat_id, mat_id ∈ ids <-> mat_id ∈ material_indices_array) /\
  (material_indices_array <> [] ->
   ~ Forall (fun mat_id => mat_id < length (materials mdl)) material_indices_array ->
   material_names mdl unique_material_names material_indices_array = Raise IndexError).
Proof.
  unfold material_names. split; [by intros -> |]. split.
  - intros Hne Hall. destruct material_indices_array as [| i0 rest] eqn:Hids; [done |].
    rewrite <- Hids in *. clear Hids Hne.
    exists (unique material_indices_array).
    destruct (rmap_total
                (fun mat_id =>
                   mat ← of_option IndexError (materials mdl !! mat_id);
                   Ok (mat_name_of unique_material_names mdl (material_name mat)))
                (unique material_indices_array)) as [names Hnames].
    { apply Forall_forall. intros mat_id Hin. apply (proj1 (unique_elem _ _)) in Hin.
      rewrite Forall_forall in Hall. apply Hall in Hin.
      apply lookup_lt_is_Some in Hin as [mat Hmat]. rewrite Hmat. by eexists. }
    exists names. split; [done |]. split.
    + apply rmap_ok in Hnames. eapply Forall2_impl; [exact Hnames |].
      intros mat_id name Hn. cbn beta in Hn.
      apply mbind_ok in Hn as (mat & Hmat & Hn). apply of_option_ok in Hmat.
      injection Hn as <-. by exists mat.
    + split; [apply unique_increasing | apply unique_elem].
  - intros Hne Hbad. destruct material_indices_array as [| i0 rest] eqn:Hids; [done |].
    rewrite <- Hids in *. clear Hids Hne.
    apply rmap_raises.
    + apply Forall_forall. intros mat_id _.
      destruct (materials mdl !! mat_id) as [mat |]; [left; by eexists | by right].
    + apply not_Forall_Exists in Hbad; [| intros x; apply lt_dec].
      apply Exists_exists in Hbad as (mat_id & Hin & Hge).
      apply Exists_exists. exists mat_id. split; [by apply unique_elem |].
      unfold compose in Hge. rewrite lookup_ge_None_2 by lia. done.
Qed.

End SlotFacts.

Section SlotWitnesses.
Import ImportMdl Observe Samples Slots.

Lemma one_slot_per_material_used_witness :
  [0; 0; 0]%nat <> [] /\
  @material_names external (face_mdl 0 face_rules) true [0; 0; 0]%nat = Ok ["face_skin"].
Proof.
  assert (Hne : [0; 0; 0]%nat <> []) by discriminate.
  split; [exact Hne |].
  destruct (@one_slot_per_material_used external (face_mdl 0 face_rules) true [0; 0; 0]%nat)
    as (_ & Hok & _).
  destruct (Hok Hne) as (ids & names & Hnames & _).
  - repeat constructor.
  - rewrite Hnames. vm_compute in Hnames. injection Hnames as <-. reflexivity.
Defined.

End SlotWitnesses.

Section AuthoredKeys.
Import ImportMdl Observe Drivers.
Context `{External}.

Ltac inv_bind H x Hx := apply mbind_ok in H as (x & Hx & H).

Lemma collect_flexes_loop mdl (ms : list Mesh) acc fl :
  rfold (fun acc mesh =>
           named ← rmap (fun flex =>
                           name ← index (flex_names mdl) (flex_desc_index flex);
                           Ok (name, flex)) (flexes mesh);
           Ok (acc ++ named)) ms acc = Ok fl ->
  exists named,
    fl = acc ++ named /\
    map snd named = flat_map flexes ms /\
    Forall (fun nf => index (flex_names mdl) (flex_desc_index nf.2) = Ok nf.1) named.
Proof.
  revert acc. induction ms as [| mesh ms IH]; intros acc Hr; cbn in Hr.
  - injection Hr as <-. exists []. rewrite app_nil_r. split; [done |]. split; [done |].
    constructor.
  - apply rbind_ok in Hr as (acc1 & Hstep & Hr).
    inv_bind Hstep named Hnamed. injection Hstep as <-.
    apply IH in Hr as (rest & -> & Hsnd & Hall).
    exists (named ++ rest). split; [by rewrite app_assoc |]. split.
    + rewrite map_app, Hsnd. cbn [flat_map]. f_equal.
      rewrite <- (List.map_id (flexes mesh)).
      eapply (rmap_map _ snd id); [| exact Hnamed]. intros flex nf Hnf. cbn beta in Hnf.
      inv_bind Hnf name Hname. by injection Hnf as <-.
    + apply Forall_app. split; [| exact Hall].
      eapply rmap_Forall; [| exact Hnamed]. intros flex nf Hnf. cbn beta in Hnf.
      inv_bind Hnf name Hname. by injection Hnf as <-.
Qed.

Lemma add_flex_names mdl vvd scale cd model vv base_co keys keys' flex :
  NoDup (map sk_name keys) ->
  add_flex mdl vvd scale cd model vv base_co keys flex = Ok keys' ->
  NoDup (map sk_name keys') /\
  flex.1 ∈ map sk_name keys' /\
  exists new, map sk_name keys' = map sk_name keys ++ new.
Proof.
  intros Hnd. unfold add_flex. intros Ha.
  inv_bind Ha vertex_animation Hva. inv_bind Ha raw_delta Hfd.
  inv_bind Ha raw_vertices Hmv.
  destruct (cd && has_partner flex.2).
  - inv_bind Ha partner_name Hpn.
    destruct (get_or_add partner_name base_co keys) as [keys1 pk] eqn:H1.
    destruct (get_or_add flex.1 base_co keys1) as [keys2 sk] eqn:H2.
    inv_bind Ha bal Hbal. injection Ha as <-.
    destruct (get_or_add_names _ _ _ _ _ Hnd H1) as (Hnd1 & _ & new1 & -> & _).
    destruct (get_or_add_names _ _ _ _ _ Hnd1 H2) as (Hnd2 & Hin2 & new2 & -> & _).
    rewrite !set_co_names. split; [done |]. split; [done |].
    exists (map sk_name (new1 ++ new2)). by rewrite <- app_assoc, map_app.
  - destruct (get_or_add flex.1 base_co keys) as [keys1 sk] eqn:H1.
    injection Ha as <-.
    destruct (get_or_add_names _ _ _ _ _ Hnd H1) as (Hnd1 & Hin1 & new1 & -> & _).
    rewrite !set_co_names. split; [done |]. split; [done |].
    exists (map sk_name new1). by rewrite map_app.
Qed.

Lemma add_flexes_names mdl vvd scale cd model vv base_co (fl : list (string * Flex)) :
  forall keys keys',
    NoDup (map sk_name keys) ->
    rfold (add_flex mdl vvd scale cd model vv base_co) fl keys = Ok keys' ->
    NoDup (map sk_name keys') /\
    (exists new, map sk_name keys' = map sk_name keys ++ new) /\
    forall nf, nf ∈ fl -> nf.1 ∈ map sk_name keys'.
Proof.
  induction fl as [| flex fl IH]; intros keys keys' Hnd Hr; cbn in Hr.
  - injection Hr as <-. split; [done |]. split; [exists []; by rewrite app_nil_r |].
    intros nf Hnf. by apply elem_of_nil in Hnf.
  - apply rbind_ok in Hr as (keys1 & Hstep & Hr).
    destruct (add_flex_names _ _ _ _ _ _ _ _ _ _ Hnd Hstep) as (Hnd1 & Hin & new1 & Hn1).
    destruct (IH keys1 keys' Hnd1 Hr) as (Hnd' & (new & Hn) & Hall).
    split; [done |]. split.
    + exists (new1 ++ new). by rewrite Hn, Hn1, <- app_assoc.
    + intros nf Hnf. apply elem_of_cons in Hnf as [-> | Hnf]; [| by apply Hall].
      rewrite Hn. apply elem_of_app. by left.
Qed.

Lemma drivers_keep_names obj mdl obj' text warnings :
  create_flex_drivers obj mdl = Ok (obj', text, warnings) ->
  map sk_name (shape_keys obj') = map sk_name (shape_keys obj).
Proof.
  unfold create_flex_drivers. destruct (shape_keys obj) as [| k ks] eqn:Hkeys.
  - intros [= <- _ _]. by rewrite Hkeys.
  - intros Hc.
    inv_bind Hc controllers Hcs. inv_bind Hc script Hs. inv_bind Hc s Hk.
    injection Hc as <- _ _. cbn [shape_keys].
    apply drive_keys_loop in Hk as (keys' & Hk & Hall). cbn in Hk. subst keys'.
    clear -Hall. induction Hall as [| a b l l' (Hn & _) _ IH]; [done |].
    cbn [map]. by rewrite Hn, IH.
Qed.

(** X24.  The shape keys of a mesh authored for a skinned model.  The
    flexes of the sub-model's meshes are collected in mesh order, each
    under the flex name its descriptor index designates.  Without flexes
    the mesh gets no shape key, no driver script and no warning.  With
    flexes, the first key is "base", the key names are pairwise distinct,
    and every collected flex name is the name of a key.  A mesh authored
    for a static prop has no shape key. *)
Theorem shape_keys_of_an_authored_mesh
    (mdl : MdlV49) (vvd : Vvd) (scale : Q) (cd un st : bool)
    (vtx_model : VtxModel) (model : Model) (mesh_obj obj : MeshObject) (e : Extras) :
  author_mesh mdl vvd scale cd un st vtx_model model mesh_obj = Ok (obj, e) ->
  (st = true -> shape_keys obj = [] /\ e = ([], [])) /\
  (st = false ->
   exists fl,
     collect_flexes mdl model = Ok fl /\
     map snd fl = flat_map flexes (meshes model) /\
     Forall (fun nf => index (flex_names mdl) (flex_desc_index nf.2) = Ok nf.1) fl /\
     (fl = [] -> shape_keys obj = [] /\ e = ([], [])) /\
     (fl <> [] ->
      exists rest,
        map sk_name (shape_keys obj) = "base" :: rest /\
        NoDup (map sk_name (shape_keys obj)) /\
        forall nf, nf ∈ fl -> nf.1 ∈ map sk_name (shape_keys obj))).
Proof.
  unfold author_mesh. intros Ha.
  inv_bind Ha lod Hlod.
  destruct (merge_meshes model lod) as [[vtx_vertices indices_array] material_indices_array].
  inv_bind Ha vertices Hv. inv_bind Ha triangles Ht. inv_bind Ha slots Hsl.
  inv_bind Ha uv_data Huv. inv_bind Ha extra Hex. inv_bind Ha groups Hg.
  inv_bind Ha kd Hkd.
  destruct st; cbn [negb] in Hkd.
  - injection Hkd as <-. cbn [fst snd] in Ha. injection Ha as <- <-.
    split; [done | discriminate].
  - split; [discriminate |]. intros _.
    inv_bind Hkd fl Hfl. exists fl. split; [done |].
    unfold collect_flexes in Hfl. apply collect_flexes_loop in Hfl as (named & -> & Hsnd & Hall).
    cbn [app]. split; [done |]. split; [done |].
    destruct named as [| f named].
    + injection Hkd as <-. cbn [fst snd] in Ha. injection Ha as <- <-.
      split; [done | done].
    + split; [discriminate |]. intros _.
      inv_bind Hkd keys Hkeys. injection Hkd as <-. cbn [fst snd] in Ha.
      apply add_flexes_names in Hkeys as (Hnd & (new & Hnames) & Hin);
        [| cbn; apply NoDup_singleton].
      cbn in Hnames.
      assert (Hfinal : map sk_name (shape_keys obj) = map sk_name keys).
      { destruct cd.
        - inv_bind Ha driven Hd. injection Ha as <- _.
          destruct driven as [[obj' text] warnings].
          apply drivers_keep_names in Hd. exact Hd.
        - by injection Ha as <- _. }
      rewrite Hfinal. exists new. done.
Qed.

End AuthoredKeys.

Section AuthoredKeysWitness.
Import ImportMdl Observe Samples.

Lemma shape_keys_of_an_authored_mesh_witness :
  exists obj e,
    @author_mesh external (face_mdl 0 face_rules) face_vvd 1 true true false
      (@Build_VtxModel external [face_lod]) face_model
      (@mesh_object_for external (face_mdl 0 face_rules) false true false
         {| body_part_name := "body"; models := [face_model] |} face_model).1
    = Ok (obj, e) /\
    "smileL" ∈ map sk_name (shape_keys obj).
Proof.
  destruct (@author_mesh external (face_mdl 0 face_rules) face_vvd 1 true true false
              (@Build_VtxModel external [face_lod]) face_model
              (@mesh_object_for external (face_mdl 0 face_rules) false true false
                 {| body_part_name := "body"; models := [face_model] |} face_model).1)
    as [[obj e] | err] eqn:Hrun; [| vm_compute in Hrun; discriminate Hrun].
  exists obj, e. split; [reflexivity |].
  destruct (@shape_keys_of_an_authored_mesh external _ _ _ _ _ _ _ _ _ _ _ Hrun)
    as [_ Hskinned].
  destruct (Hskinned eq_refl) as (fl & Hfl & _ & _ & _ & Hsome).
  vm_compute in Hfl. injection Hfl as <-.
  destruct Hsome as (rest & _ & _ & Hin); [discriminate |].
  apply (Hin ("smileL", {| flex_desc_index := 0; partner_index := 1 |})). left.
Defined.

End AuthoredKeysWitness.

Section AppIdFacts.
Import AppId.

(** X25.  No two names of [SteamAppId] are bound to the same value, so
    none is an alias: every name denotes a member of its own, looking a
    member up by its value gives that member back, a lookup that succeeds
    answers a member of the value asked for, and a value bound to no name
    raises ValueError. *)
Theorem app_ids_have_no_alias :
  (forall a, member a = Ok a) /\
  (forall a b, value a = value b -> a = b) /\
  (forall v a, by_value v = Ok a -> value a = v) /\
  (forall v, (forall a, value a <> v) -> by_value v = Raise ValueError).
Proof.
  split; [by intros [] |]. split; [intros [] []; vm_compute; congruence |]. split.
  - intros v a Hv. unfold by_value in Hv.
    destruct (List.find _ names) as [a' |] eqn:Hf; [| discriminate].
    injection Hv as <-. apply List.find_some in Hf as [_ Hf]. by apply Z.eqb_eq.
  - intros v Hnone. unfold by_value.
    destruct (List.find _ names) as [a |] eqn:Hf; [| done].
    apply List.find_some in Hf as [_ Hf]. apply Z.eqb_eq in Hf. by destruct (Hnone a).
Qed.

Lemma app_ids_have_no_alias_witness :
  by_value 400 = Ok PORTAL /\ by_value 401 = Raise ValueError.
Proof.
  destruct app_ids_have_no_alias as (Hmember & _ & _ & Hnone).
  split; [exact (Hmember PORTAL) |].
  apply Hnone. intros []; vm_compute; discriminate.
Defined.

End AppIdFacts.

Section MaterialRun.
Import ImportMdl Observe Samples Materials MaterialSamples.

Lemma materials_loaded_from_first_path_witness :
  exists created,
    host_created (@import_materials external (face_mdl 0 face_rules) true true bare_host)
    = created /\
    Forall (@loaded_for external (face_mdl 0 face_rules) true) created.
Proof.
  destruct (@materials_loaded_from_first_path external (face_mdl 0 face_rules) true true
              bare_host) as (created & skipped & Hc & _ & Hall & _).
  exists created. split; [exact Hc | exact Hall].
Defined.

End MaterialRun.

Section TracedObjects.
Import ImportMdl Observe Shape Layout Layout2 Trace.
Context `{External}.

Ltac inv_bind H x Hx := apply mbind_ok in H as (x & Hx & H).

Lemma import_sub_model_object mdl vvd scale cd re un body_part c vm c' :
  import_sub_model mdl vvd scale cd re un (is_static_prop mdl) body_part c vm = Ok c' ->
  (vertex_count vm.2 = 0%nat /\ container_objects c' = container_objects c) \/
  (vertex_count vm.2 <> 0%nat /\
   exists obj,
     container_objects c' = container_objects c ++ [obj] /\
     object_of mdl vvd scale cd re un (body_part, vm) obj).
Proof.
  unfold import_sub_model, object_of. cbn [fst snd]. intros Hi.
  destruct (vertex_count vm.2 =? 0)%nat eqn:E.
  - apply Nat.eqb_eq in E. injection Hi as <-. by left.
  - apply Nat.eqb_neq in E. right. split; [done |].
    destruct (mesh_object_for mdl re un (is_static_prop mdl) body_part vm.2)
      as [mesh_obj used_copy]. cbn [fst snd].
    destruct used_copy.
    + injection Hi as <-. by exists mesh_obj.
    + inv_bind Hi authored_obj Ha. injection Hi as <-.
      destruct authored_obj as [obj e]. exists obj. split; [done |]. by exists e.
Qed.

Lemma sub_models_loop_objects mdl vvd scale cd re un
    (l : list (VtxBodyPart * BodyPart)) c0 c :
  container_objects c0 = [] ->
  rfold (fun c (bp : VtxBodyPart * BodyPart) =>
           rfold (import_sub_model mdl vvd scale cd re un (is_static_prop mdl) bp.2)
                 (zip (vtx_models bp.1) (models bp.2)) c) l c0 = Ok c ->
  Forall2 (object_of mdl vvd scale cd re un)
          (non_empty (flat_map (fun bp : VtxBodyPart * BodyPart =>
                                  map (fun vm => (bp.2, vm))
                                      (zip (vtx_models bp.1) (models bp.2))) l))
          (container_objects c).
Proof.
  intros H0 Hloop.
  pose (g := fun bp : VtxBodyPart * BodyPart =>
               map (fun vm => (bp.2, vm)) (zip (vtx_models bp.1) (models bp.2))).
  pose (P := fun (pre : list (VtxBodyPart * BodyPart)) (c1 : Container) =>
               Forall2 (object_of mdl vvd scale cd re un) (non_empty (flat_map g pre))
                       (container_objects c1)).
  change (P ([] ++ l) c).
  refine (rfold_prefix P _ l [] c0 c _ _ Hloop).
  - unfold P. rewrite H0. constructor.
  - intros pre bp acc acc' Hobjs Hinner.
    pose (Q := fun (pre' : list (VtxModel * Model)) (c1 : Container) =>
                 Forall2 (object_of mdl vvd scale cd re un)
                         (non_empty (flat_map g pre ++ map (fun vm => (bp.2, vm)) pre'))
                         (container_objects c1)).
    assert (HQ : Q ([] ++ zip (vtx_models bp.1) (models bp.2)) acc').
    { refine (rfold_prefix Q _ _ [] acc acc' _ _ Hinner).
      - unfold Q. cbn [map]. by rewrite app_nil_r.
      - intros pre' vm a a' Ha Hstep. unfold Q in *.
        apply import_sub_model_object in Hstep.
        rewrite map_app, app_assoc, non_empty_app. cbn [map].
        destruct Hstep as [[Hz ->] | [Hnz (obj & -> & Hobj)]].
        + unfold non_empty at 2. rewrite filter_cons_False by (cbn; lia).
          rewrite filter_nil, app_nil_r. done.
        + unfold non_empty at 2. rewrite filter_cons_True by (cbn; lia).
          rewrite filter_nil. apply Forall2_app; [done |].
          constructor; [| constructor]. exact Hobj. }
    unfold P, Q in *. rewrite flat_map_app. cbn [flat_map]. by rewrite app_nil_r.
Qed.

(** The objects of a successful import, sub-model by sub-model. *)
Lemma import_model_objects mdl vvd vtx scale cd re un c :
  import_model mdl vvd vtx scale cd re un = Ok c ->
  Forall2 (object_of mdl vvd scale cd re un)
          (non_empty (sub_models mdl vtx)) (container_objects c).
Proof.
  unfold import_model. intros Hi.
  inv_bind Hi armature Harm. inv_bind Hi c0 Hloop.
  apply sub_models_loop_objects in Hloop; [| done].
  destruct (attachments mdl) as [| a atts].
  - by injection Hi as <-.
  - inv_bind Hi u Hu. inv_bind Hi created Hcr. by injection Hi as <-.
Qed.

(** An object that is not a copy was authored from its own sub-model. *)
Lemma object_of_authored mdl vvd scale cd re un bvm obj :
  object_of mdl vvd scale cd re un bvm obj ->
  is_copy obj = false ->
  exists mesh_obj e,
    is_copy mesh_obj = false /\
    author_mesh mdl vvd scale cd un (is_static_prop mdl) bvm.2.1 bvm.2.2 mesh_obj
    = Ok (obj, e).
Proof.
  unfold object_of. cbn zeta.
  pose proof (mesh_object_for_copy mdl re un (is_static_prop mdl) bvm.1 bvm.2.2) as Hcopy.
  destruct (mesh_object_for mdl re un (is_static_prop mdl) bvm.1 bvm.2.2)
    as [mesh_obj used]. cbn [fst snd] in *.
  destruct used.
  - intros -> Hc. congruence.
  - intros [e He] _. by exists mesh_obj, e.
Qed.

End TracedObjects.

Section SubModelFacts.
Import ImportMdl Observe Shape Layout Layout2 Trace.
Context `{External}.

Ltac inv_bind H x Hx := apply mbind_ok in H as (x & Hx & H).

(** What [author_mesh] reads and writes, for an object that is not a
    copy, in terms of the sub-model it was authored from. *)
Lemma object_of_fields mdl vvd scale cd re un bvm obj :
  object_of mdl vvd scale cd re un bvm obj ->
  is_copy obj = false ->
  exists vtx_vertices indices_array vertices uv_data extra groups,
    source_of vvd bvm vtx_vertices indices_array vertices /\
    primary_uv_layer vertices (rev indices_array) = Ok uv_data /\
    rmap (extra_uv_layer bvm.2.2 vtx_vertices (rev indices_array)) (extra_data vvd)
    = Ok extra /\
    (if negb (is_static_prop mdl) then build_vertex_groups mdl vertices else Ok [])
    = Ok groups /\
    uv_layers obj = uv_data :: extra /\
    vertex_groups obj = groups.
Proof.
  intros Hobj Hnc.
  destruct (object_of_authored _ _ _ _ _ _ _ _ Hobj Hnc) as (mesh_obj & e & _ & Ham).
  apply author_mesh_fields in Ham
    as (lod & vv & ia & mia & vs & tr & slots & uvd & extra & groups
        & Hlod & Hmerge & Hv & Htr & _ & Hp & Hex & Hg & _ & _ & Huv & Hvg).
  apply reshape3_concat in Htr as [Hconcat _]. rewrite Hconcat in Hp, Hex.
  exists vv, ia, vs, uvd, extra, groups.
  split; [by exists lod, mia |]. done.
Qed.


(** C4 (amended).  A successful import of a model flagged as static prop
    has no armature, and no mesh it authored has a vertex group.  A
    successful import of a model without the flag has the armature built
    from the skeleton and one object per sub-model with vertices, and every
    such object that is not a copy has exactly one vertex group per bone, in
    bone order and named after the bones; vertex [n] is added with weight
    [w] to the group of bone [j] only if [w] is strictly positive and is
    the weight that vertex [n] of this very sub-model carries for a bone
    [b] bearing the name of bone [j] - which is bone [j] itself when the
    bone names are pairwise distinct. *)
Theorem static_prop_and_vertex_groups
    (mdl : MdlV49) (vvd : Vvd) (vtx : list VtxBodyPart) (scale : Q)
    (create_drivers re_use_meshes unique_material_names : bool) (c : Container) :
  import_model mdl vvd vtx scale create_drivers re_use_meshes unique_material_names = Ok c ->
  (is_static_prop mdl = true ->
     container_armature c = None /\
     Forall (fun obj => is_copy obj = false -> vertex_groups obj = [])
            (container_objects c)) /\
  (is_static_prop mdl = false ->
     (exists arm, create_armature mdl = Ok arm /\ container_armature c = Some arm) /\
     Forall2 (fun bvm obj =>
                is_copy obj = false ->
                exists vtx_vertices indices_array vertices,
                  source_of vvd bvm vtx_vertices indices_array vertices /\
                  map vg_name (vertex_groups obj) = map bone_name (bones mdl) /\
                  forall j g n w,
                    vertex_groups obj !! j = Some g -> (n, w) ∈ vg_added g ->
                    (0 < w)%Q /\
                    exists b, influence vertices b n w /\ same_name mdl b j /\
                              (NoDup (map bone_name (bones mdl)) -> b = j))
             (non_empty (sub_models mdl vtx)) (container_objects c)).
Proof.
  intros Hi. pose proof (import_model_objects _ _ _ _ _ _ _ _ Hi) as Hobjs.
  apply import_model_container in Hi as [Harm _].
  split; intros Hst; rewrite Hst in Harm; (split; [done |]).
  - apply Forall_forall. intros obj Hin Hnc.
    apply list_elem_of_lookup in Hin as [i Hi'].
    destruct (Forall2_lookup_r _ _ _ _ _ Hobjs Hi') as (bvm & _ & Hobj).
    destruct (object_of_fields _ _ _ _ _ _ _ _ Hobj Hnc)
      as (vv & ia & vs & uvd & extra & groups & _ & _ & _ & Hg & _ & ->).
    rewrite Hst in Hg. cbn [negb] in Hg. by injection Hg as <-.
  - eapply Forall2_impl; [exact Hobjs |].
    intros bvm obj Hobj Hnc.
    destruct (object_of_fields _ _ _ _ _ _ _ _ Hobj Hnc)
      as (vv & ia & vs & uvd & extra & groups & Hsrc & _ & _ & Hg & _ & ->).
    rewrite Hst in Hg. cbn [negb] in Hg.
    apply build_vertex_groups_ok in Hg as [Hnames Hadded].
    exists vv, ia, vs. split; [done |]. split; [done |].
    intros j g n w Hj Hin.
    destruct (Hadded j g n w Hj Hin) as (Hpos & b & Hinf & Hsame).
    split; [done |]. exists b. repeat split; try done.
    intros Hnd. by eapply same_name_distinct.
Qed.

(** X6.  Without mesh re-use a successful import holds one object per
    sub-model with vertices, in order, none of them a copy, and each is the
    object that authoring produces from its own sub-model: from that
    sub-model's LODs and its slice of the vertex buffer, starting from the
    fresh object named after it.  Every object of a skinned model carries
    the armature modifier, copies included; an authored object of a static
    prop carries none. *)
Theorem objects_authored_and_bound
    (mdl : MdlV49) (vvd : Vvd) (vtx : list VtxBodyPart) (scale : Q)
    (create_drivers re_use_meshes unique_material_names : bool) (c : Container) :
  import_model mdl vvd vtx scale create_drivers re_use_meshes unique_material_names = Ok c ->
  (re_use_meshes = false ->
   Forall2 (fun bvm obj =>
              is_copy obj = false /\
              exists e,
                author_mesh mdl vvd scale create_drivers unique_material_names
                  (is_static_prop mdl) bvm.2.1 bvm.2.2
                  (mesh_object_for mdl false unique_material_names (is_static_prop mdl)
                                   bvm.1 bvm.2.2).1
                = Ok (obj, e))
           (non_empty (sub_models mdl vtx)) (container_objects c)) /\
  (is_static_prop mdl = false ->
   Forall (fun obj => armature_modifier obj = true) (container_objects c)) /\
  (is_static_prop mdl = true ->
   Forall (fun obj => is_copy obj = false -> armature_modifier obj = false)
          (container_objects c)).
Proof.
  intros Hi. pose proof (import_model_objects _ _ _ _ _ _ _ _ Hi) as Hobjs.
  apply import_model_layout in Hi as [Hlay _].
  assert (Hall : Forall (fun obj => exists bvm, object_for mdl re_use_meshes
                                                  unique_material_names bvm obj)
                        (container_objects c)).
  { apply Forall_forall. intros obj Hin.
    apply list_elem_of_lookup in Hin as [i Hi'].
    destruct (Forall2_lookup_r _ _ _ _ _ Hlay Hi') as (bvm & _ & Hb). eauto. }
  repeat split.
  - intros ->. eapply Forall2_impl; [exact Hobjs |].
    intros bvm obj. unfold object_of. cbn zeta.
    assert (Hfresh : (mesh_object_for mdl false unique_material_names (is_static_prop mdl)
                                      bvm.1 bvm.2.2).2 = false) by reflexivity.
    rewrite Hfresh. intros [e He]. split; [| by exists e].
    apply author_mesh_fields in He
      as (_ & _ & _ & _ & _ & _ & _ & _ & _ & _ & _ & _ & _ & _ & _ & _ & _ & _ & Hc & _).
    rewrite Hc. reflexivity.
  - intros Hst. eapply Forall_impl; [exact Hall |].
    intros obj (bvm & _ & Harm & _). by apply Harm.
  - intros Hst. eapply Forall_impl; [exact Hall |].
    intros obj (bvm & _ & _ & _ & _ & Hnames) Hc.
    destruct (Hnames Hc) as (_ & _ & ->). by rewrite Hst.
Qed.

End SubModelFacts.

Section SubModelWitnesses.
Import ImportMdl Observe Samples TracedSamples Layout Trace.

Lemma pair_import :
  @import_model external pair_mdl pair_vvd pair_vtx 1 false false false = Ok pair_container.
Proof. vm_compute. reflexivity. Defined.


Lemma static_prop_and_vertex_groups_witness :
  @import_model external pair_mdl pair_vvd pair_vtx 1 false false false = Ok pair_container /\
  @is_static_prop external pair_mdl = false /\
  Forall (fun obj => map vg_name (vertex_groups obj) = ["root"; "jaw"])
         (container_objects pair_container) /\
  @import_model external (face_mdl 16 face_rules) face_vvd face_vtx 1 true false true
  = Ok static_container /\
  container_armature static_container = None.
Proof.
  split; [exact pair_import |]. split; [reflexivity |].
  destruct (@static_prop_and_vertex_groups external pair_mdl pair_vvd pair_vtx 1
              false false false pair_container pair_import) as [_ Hskinned].
  destruct (Hskinned eq_refl) as [_ Hall]. split.
  - apply Forall_forall. intros obj Hin.
    apply list_elem_of_lookup in Hin as [i Hi].
    destruct (Forall2_lookup_r _ _ _ _ _ Hall Hi) as (bvm & _ & Hobj).
    assert (Hnc : is_copy obj = false).
    { unfold pair_container in Hi. cbn [container_objects] in Hi.
      destruct i as [| [| i]]; cbn in Hi; [| | discriminate Hi];
        injection Hi as <-; reflexivity. }
    destruct (Hobj Hnc) as (vv & ia & vs & _ & Hnames & _). exact Hnames.
  - assert (Hrun : @import_model external (face_mdl 16 face_rules) face_vvd face_vtx 1
                     true false true = Ok static_container) by (vm_compute; reflexivity).
    split; [exact Hrun |].
    destruct (@static_prop_and_vertex_groups external (face_mdl 16 face_rules) face_vvd
                face_vtx 1 true false true static_container Hrun) as [Hstatic _].
    apply Hstatic. reflexivity.
Defined.

(** With two bones named alike, the group of bone 1 receives vertex 0,
    which carries no weight for bone 1: all its influences are for
    bone 0. *)
Lemma group_receives_vertex_of_namesake_bone :
  @import_model external twin_mdl twin_vvd face_vtx 1 false false false = Ok twin_container /\
  @is_static_prop external twin_mdl = false /\
  exists obj g v,
    container_objects twin_container = [obj] /\
    vertex_groups obj !! 1%nat = Some g /\
    (0%nat, 1%Q) ∈ vg_added g /\
    lod_data twin_vvd !! 0%nat = Some v /\
    bone_id v = [0; 0; 0]%nat.
Proof.
  split; [vm_compute; reflexivity |]. split; [reflexivity |].
  eexists _, _, _. split; [reflexivity |]. split; [reflexivity |].
  split; [left |]. split; reflexivity.
Qed.

Lemma objects_authored_and_bound_witness :
  @import_model external pair_mdl pair_vvd pair_vtx 1 false false false = Ok pair_container /\
  Forall (fun obj => armature_modifier obj = true) (container_objects pair_container) /\
  exists head feet e,
    container_objects pair_container = [head; feet] /\
    @author_mesh external pair_mdl pair_vvd 1 false false false
      (@Build_VtxModel external [face_lod]) feet_model
      (@mesh_object_for external pair_mdl false false false
         {| body_part_name := "body"; models := [head_model; feet_model] |} feet_model).1
    = Ok (feet, e).
Proof.
  split; [exact pair_import |].
  destruct (@objects_authored_and_bound external pair_mdl pair_vvd pair_vtx 1
              false false false pair_container pair_import) as (Hnew & Harm & _).
  split; [apply Harm; reflexivity |].
  specialize (Hnew eq_refl).
  change (@non_empty external (@sub_models external pair_mdl pair_vtx))
    with [ ({| body_part_name := "body"; models := [head_model; feet_model] |},
            (@Build_VtxModel external [face_lod], head_model));
           ({| body_part_name := "body"; models := [head_model; feet_model] |},
            (@Build_VtxModel external [face_lod], feet_model)) ] in Hnew.
  unfold pair_container in Hnew. cbn [container_objects] in Hnew.
  apply Forall2_cons_1 in Hnew as [_ Hnew]. apply Forall2_cons_1 in Hnew as [[_ [e He]] _].
  eexists _, _, e. split; [reflexivity |]. exact He.
Defined.

Lemma one_empty_per_attachment_witness :
  @import_model external pair_mdl pair_vvd pair_vtx 1 false false false = Ok pair_container /\
  map empty_name (container_attachments pair_container) = ["muzzle"; "eyes"] /\
  Forall2 (fun attachment e =>
             exists bone,
               index (bones pair_mdl) (parent_bone attachment) = Ok bone /\
               child_of e = Some (bone_name bone))
          (attachments pair_mdl)
          [ {| empty_name := "muzzle"; child_of := Some "jaw" |};
            {| empty_name := "eyes"; child_of := Some "root" |} ].
Proof.
  split; [exact pair_import |].
  destruct (@one_empty_per_attachment external pair_mdl pair_vvd pair_vtx 1
              false false false pair_container pair_import) as [Hnames Hall].
  split; [exact Hnames | exact Hall].
Defined.

End SubModelWitnesses.

Section NameFacts.
Import ImportMdl Observe Shape Layout Layout2 Trace.
Context `{External}.

Ltac inv_bind H x Hx := apply mbind_ok in H as (x & Hx & H).

Lemma substring_exact (s : string) :
  forall a n, a + n <= String.length s -> String.length (String.substring a n s) = n.
Proof.
  induction s as [| c s IH]; intros a n Hn.
  - cbn in Hn. assert (a = 0 /\ n = 0) as [-> ->] by lia. reflexivity.
  - destruct a as [| a]; [destruct n as [| n] |]; cbn in *.
    + done.
    + f_equal. apply IH. lia.
    + apply IH. lia.
Qed.

Lemma last_chars_exact n s : n <= String.length s -> String.length (last_chars n s) = n.
Proof. intros Hn. unfold last_chars. apply substring_exact. lia. Qed.

(** C9 (code evaluated).  In a successful import of a skinned model the
    edit bones of the armature are named by the last 63 characters of the
    bone names, and the material slots of every authored mesh have names
    of at most 63 characters; but the vertex groups of every authored mesh
    are named by the bone names as they are, and the CHILD_OF constraint
    of an attachment names its bone by the whole bone name.  So for a bone
    whose name has more than 63 characters the edit bone's name has exactly
    63 characters while the vertex group made for that bone, in every
    authored mesh, bears the whole name: more than 63 characters, and not
    the name of the edit bone. *)
Theorem vertex_groups_bear_uncut_bone_names
    (mdl : MdlV49) (vvd : Vvd) (vtx : list VtxBodyPart) (scale : Q)
    (create_drivers re_use_meshes unique_material_names : bool) (c : Container) :
  import_model mdl vvd vtx scale create_drivers re_use_meshes unique_material_names = Ok c ->
  is_static_prop mdl = false ->
  exists arm,
    container_armature c = Some arm /\
    map bl_name (armature_bones arm)
    = map (fun bone => last_chars 63 (bone_name bone)) (bones mdl) /\
    Forall2 (fun bvm obj =>
               is_copy obj = false ->
               map vg_name (vertex_groups obj) = map bone_name (bones mdl) /\
               Forall (fun name => String.length name <= 63) (material_slots obj))
            (non_empty (sub_models mdl vtx)) (container_objects c) /\
    Forall2 (fun attachment e =>
               exists bone,
                 index (bones mdl) (parent_bone attachment) = Ok bone /\
                 child_of e = Some (bone_name bone))
            (attachments mdl) (container_attachments c) /\
    forall j bone,
      bones mdl !! j = Some bone -> 63 < String.length (bone_name bone) ->
      exists edit_bone,
        armature_bones arm !! j = Some edit_bone /\
        String.length (bl_name edit_bone) = 63 /\
        Forall (fun obj =>
                  is_copy obj = false ->
                  exists g,
                    vertex_groups obj !! j = Some g /\
                    vg_name g = bone_name bone /\
                    63 < String.length (vg_name g) /\
                    vg_name g <> bl_name edit_bone)
               (container_objects c).
Proof.
  intros Hi Hst.
  pose proof (import_model_objects _ _ _ _ _ _ _ _ Hi) as Hobjs.
  pose proof (import_model_layout _ _ _ _ _ _ _ _ Hi) as [_ Hatt].
  apply import_model_container in Hi as [Harm _]. rewrite Hst in Harm.
  destruct Harm as (arm & Hcreate & Harm). exists arm. split; [done |].
  pose proof (create_armature_names _ _ Hcreate) as Hnames. split; [done |].
  assert (Hgroups : Forall2 (fun bvm obj =>
                               is_copy obj = false ->
                               map vg_name (vertex_groups obj) = map bone_name (bones mdl) /\
                               Forall (fun name => String.length name <= 63)
                                      (material_slots obj))
                            (non_empty (sub_models mdl vtx)) (container_objects c)).
  { eapply Forall2_impl; [exact Hobjs |].
    intros bvm obj Hobj Hnc.
    destruct (object_of_authored _ _ _ _ _ _ _ _ Hobj Hnc) as (mesh_obj & e & _ & Ham).
    apply author_mesh_fields in Ham
      as (lod & vv & ia & mia & vs & tr & slots & uvd & extra & groups
          & _ & _ & _ & _ & Hslots & _ & _ & Hg & _ & -> & _ & ->).
    rewrite Hst in Hg. cbn [negb] in Hg.
    apply build_vertex_groups_ok in Hg as [Hvg _]. split; [done |].
    unfold material_names in Hslots. destruct mia; [discriminate |].
    eapply rmap_Forall; [| exact Hslots].
    intros mat_id name Hn. cbn beta in Hn. inv_bind Hn mat Hm. injection Hn as <-.
    apply mat_name_of_length. }
  split; [exact Hgroups |]. split.
  { eapply Forall2_impl; [exact Hatt |]. intros a e [_ Hc]. by rewrite Hst in Hc. }
  intros j bone Hj Hlong.
  assert (Hb : map bl_name (armature_bones arm) !! j = Some (last_chars 63 (bone_name bone)))
    by (by rewrite Hnames, list_lookup_fmap, Hj).
  rewrite list_lookup_fmap in Hb.
  destruct (armature_bones arm !! j) as [edit_bone |] eqn:He; [| discriminate].
  injection Hb as Hb. exists edit_bone. split; [done |].
  assert (Hlen : String.length (bl_name edit_bone) = 63)
    by (rewrite Hb; apply last_chars_exact; lia).
  split; [done |].
  apply Forall_forall. intros obj Hin Hnc.
  apply list_elem_of_lookup in Hin as [i Hi'].
  destruct (Forall2_lookup_r _ _ _ _ _ Hgroups Hi') as (bvm & _ & Hobj).
  destruct (Hobj Hnc) as [Hvg _].
  assert (Hg : map vg_name (vertex_groups obj) !! j = Some (bone_name bone))
    by (by rewrite Hvg, list_lookup_fmap, Hj).
  rewrite list_lookup_fmap in Hg.
  destruct (vertex_groups obj !! j) as [g |]; [| discriminate].
  injection Hg as Hg. exists g. split; [done |]. split; [done |].
  split; [by rewrite Hg |]. intros Heq.
  rewrite <- Hg, Heq, Hlen in Hlong. lia.
Qed.

End NameFacts.

Section NameWitnesses.
Import ImportMdl Observe Samples TracedSamples LongNames.

Lemma vertex_groups_bear_uncut_bone_names_witness :
  @import_model external long_mdl face_vvd face_vtx 1 false false true = Ok long_container /\
  @is_static_prop external long_mdl = false /\
  exists arm edit_bone obj g,
    container_armature long_container = Some arm /\
    armature_bones arm !! 0%nat = Some edit_bone /\
    String.length (bl_name edit_bone) = 63 /\
    container_objects long_container = [obj] /\
    vertex_groups obj !! 0%nat = Some g /\
    String.length (vg_name g) = 72.
Proof.
  assert (Hrun : @import_model external long_mdl face_vvd face_vtx 1 false false true
                 = Ok long_container) by (vm_compute; reflexivity).
  split; [exact Hrun |]. split; [reflexivity |].
  destruct (@vertex_groups_bear_uncut_bone_names external long_mdl face_vvd face_vtx 1
              false false true long_container Hrun eq_refl)
    as (arm & Harm & _ & _ & _ & Hlong).
  destruct (Hlong 0%nat {| bone_name := long_name; parent_bone_index := -1 |} eq_refl)
    as (edit_bone & He & Hlen & Hall); [vm_compute; lia |].
  unfold long_container in Hall. cbn [container_objects] in Hall.
  apply Forall_cons_1 in Hall as [Hobj _].
  destruct (Hobj eq_refl) as (g & Hg & Hname & _).
  eexists arm, edit_bone, _, g. split; [exact Harm |]. split; [exact He |].
  split; [exact Hlen |]. split; [reflexivity |]. split; [exact Hg |].
  rewrite Hname. reflexivity.
Defined.

End NameWitnesses.

Section SingleFacts.
Import ImportMdl Single.

Local Open Scope Q_scope.

Lemma rne_cases t :
  (rne t = Qfloor t /\ t - inject_Z (Qfloor t) <= 1 # 2) \/
  (rne t = (Qfloor t + 1)%Z /\ 1 # 2 <= t - inject_Z (Qfloor t)).
Proof.
  unfold rne. destruct (Qcompare (t - inject_Z (Qfloor t)) (1 # 2)) eqn:E.
  - apply Qeq_alt in E. destruct (Z.even (Qfloor t)); [left | right]; split; try done;
      rewrite E; apply Qle_refl.
  - apply Qlt_alt in E. left. split; [done | by apply Qlt_le_weak].
  - apply Qgt_alt in E. right. split; [done | by apply Qlt_le_weak].
Qed.

Lemma rne_near t : - (1 # 2) <= inject_Z (rne t) - t <= 1 # 2.
Proof.
  pose proof (Qfloor_le t) as Hlo. pose proof (Qlt_floor t) as Hhi.
  rewrite inject_Z_plus in Hhi.
  destruct (rne_cases t) as [[-> Hr] | [-> Hr]]; [| rewrite inject_Z_plus];
    change (inject_Z 1) with 1 in *; split; lra.
Qed.

Lemma rne_nonneg t : 0 <= t -> (0 <= rne t)%Z.
Proof.
  intros Ht.
  assert (Hf : (0 <= Qfloor t)%Z).
  { change 0%Z with (Qfloor (inject_Z 0)). by apply Qfloor_resp_le. }
  destruct (rne_cases t) as [[-> _] | [-> _]]; lia.
Qed.

Lemma rne_le t (N : Z) : t <= inject_Z N -> (rne t <= N)%Z.
Proof.
  intros Ht.
  assert (Hf : (Qfloor t <= N)%Z).
  { rewrite <- (Qfloor_Z N). by apply Qfloor_resp_le. }
  destruct (rne_cases t) as [[-> _] | [-> Hr]]; [done |].
  destruct (Z.eq_dec (Qfloor t) N) as [Heq | Hne]; [| lia].
  rewrite Heq in Hr. lra.
Qed.

Lemma rne_integer t (N : Z) : t == inject_Z N -> rne t = N.
Proof.
  intros Ht. assert (Hf : Qfloor t = N) by (by rewrite (Qfloor_comp _ _ Ht), Qfloor_Z).
  destruct (rne_cases t) as [[-> _] | [_ Hr]]; [done |].
  rewrite Hf in Hr. lra.
Qed.

Lemma pow2_neg (K : Z) :
  (0 < K)%Z ->
  exists M : positive, pow2 (- K) = 1 # M /\ Zpos M = (2 ^ K)%Z.
Proof.
  intros HK. unfold pow2.
  assert (Hlt : (- K <? 0)%Z = true) by (apply Z.ltb_lt; lia). rewrite Hlt.
  rewrite Z.opp_involutive. exists (Z.to_pos (2 ^ K)). split; [done |].
  apply Z2Pos.id. apply Z.pow_pos_nonneg; lia.
Qed.

Lemma ilog2_below_one y : 0 < y -> y <= 1 -> (ilog2 y <= 0)%Z /\ (y < 1 -> (ilog2 y <= -1)%Z).
Proof.
  intros Hpos Hle. unfold ilog2.
  assert (Hn : (0 < Qnum y)%Z).
  { unfold Qlt in Hpos. cbn in Hpos. lia. }
  assert (Hd : (Qnum y <= Zpos (Qden y))%Z).
  { unfold Qle in Hle. cbn in Hle. lia. }
  rewrite Z.abs_eq by lia.
  pose proof (Z.log2_le_mono _ _ Hd) as Hlog.
  set (k := (Z.log2 (Qnum y) - Z.log2 (Zpos (Qden y)))%Z) in *.
  assert (Hk : (k <= 0)%Z) by (unfold k; lia).
  destruct (Qle_bool (pow2 k) (Qabs y)) eqn:E.
  - split; [done |]. intros Hlt.
    destruct (Z.eq_dec k 0%Z) as [Hk0 | Hk0]; [| lia].
    rewrite Hk0 in E. apply Qle_bool_iff in E.
    rewrite Qabs_pos in E by (by apply Qlt_le_weak).
    change (pow2 0) with 1 in E. lra.
  - split; [lia |]. intros _. lia.
Qed.

Lemma ilog2_one y : y == 1 -> ilog2 y = 0%Z.
Proof.
  intros Hy. unfold ilog2.
  assert (Hn : Qnum y = Zpos (Qden y)).
  { unfold Qeq in Hy. cbn in Hy. lia. }
  rewrite Hn. cbn [Z.abs]. rewrite Z.sub_diag.
  assert (E : Qle_bool (pow2 0) (Qabs y) = true).
  { apply Qle_bool_iff. rewrite Hy. done. }
  by rewrite E.
Qed.

(** The spacing of the singles at a [y] of the unit interval. *)
Lemma ulp_unit y :
  0 < y -> y <= 1 ->
  exists M : positive,
    ulp binary32 y = 1 # M /\ (8388608 <= Zpos M)%Z /\
    (y < 1 -> (16777216 <= Zpos M)%Z).
Proof.
  intros Hpos Hle. destruct (ilog2_below_one y Hpos Hle) as [He Hlt].
  unfold ulp. cbn [prec emin binary32].
  set (E := Z.max (ilog2 y) (-126)).
  assert (HE : (-126 <= E <= 0)%Z) by (unfold E; lia).
  replace (E - 24 + 1)%Z with (- (23 - E))%Z by lia.
  destruct (pow2_neg (23 - E)) as (M & -> & HM); [lia |].
  exists M. split; [done |]. rewrite HM. split.
  - change 8388608%Z with (2 ^ 23)%Z. apply Z.pow_le_mono_r; lia.
  - intros Hy. specialize (Hlt Hy).
    assert (HE' : (E <= -1)%Z) by (unfold E; lia).
    change 16777216%Z with (2 ^ 24)%Z. apply Z.pow_le_mono_r; lia.
Qed.

Lemma round_zero y : y == 0 -> round binary32 y = 0.
Proof. intros Hy. unfold round. apply Qeq_bool_iff in Hy. by rewrite Hy. Qed.

Lemma round_one y : y == 1 -> round binary32 y == 1.
Proof.
  intros Hy. unfold round.
  destruct (Qeq_bool y 0) eqn:E0; [apply Qeq_bool_iff in E0; lra |].
  unfold ulp. rewrite (ilog2_one y Hy). cbn [prec emin binary32].
  change (pow2 (Z.max 0 (-126) - 24 + 1)) with (1 # 8388608).
  rewrite (rne_integer _ 8388608%Z).
  - reflexivity.
  - rewrite Hy. reflexivity.
Qed.

(** Rounding a number of the unit interval to single precision stays in
    the interval and moves it by at most 2^-25. *)
Lemma round_unit y :
  0 <= y <= 1 ->
  0 <= round binary32 y <= 1 /\
  - (1 # 33554432) <= round binary32 y - y <= 1 # 33554432.
Proof.
  intros [Hlo Hhi].
  destruct (Qeq_bool y 0) eqn:E0.
  { apply Qeq_bool_iff in E0. rewrite (round_zero y E0). lra. }
  assert (Hpos : 0 < y).
  { apply Qle_lteq in Hlo as [Hlt | Heq]; [done |].
    symmetry in Heq. apply Qeq_bool_iff in Heq. congruence. }
  apply Qle_lteq in Hhi as [Hlt | Heq].
  2: { rewrite (round_one y Heq). lra. }
  unfold round. rewrite E0.
  destruct (ulp_unit y Hpos (Qlt_le_weak _ _ Hlt)) as (M & -> & _ & HM).
  specialize (HM Hlt).
  set (T := y / (1 # M)).
  assert (HT : T == y * inject_Z (Zpos M)).
  { unfold T, Qdiv. apply Qmult_comp; [reflexivity |]. reflexivity. }
  assert (HMq : 16777216 <= inject_Z (Zpos M)).
  { change 16777216 with (inject_Z 16777216). by rewrite <- Zle_Qle. }
  assert (Hu : (1 # M) * inject_Z (Zpos M) == 1).
  { unfold Qeq. cbn. lia. }
  pose proof (rne_near T) as Hnear.
  assert (Hz0 : (0 <= rne T)%Z).
  { apply rne_nonneg. rewrite HT. apply Qmult_le_0_compat; lra. }
  assert (Hz1 : (rne T <= Zpos M)%Z).
  { apply rne_le. rewrite HT.
    rewrite <- (Qmult_1_l (inject_Z (Zpos M))) at 2.
    apply Qmult_le_compat_r; lra. }
  rewrite Zle_Qle in Hz0, Hz1. change (inject_Z 0) with 0 in Hz0.
  set (a := inject_Z (rne T)) in *.
  set (m := inject_Z (Zpos M)) in *.
  set (u := 1 # M) in *.
  assert (Hupos : 0 < u) by done.
  assert (Hum : u <= 1 # 16777216).
  { unfold u, Qle. cbn. unfold m in HMq.
    change 16777216 with (inject_Z 16777216) in HMq. rewrite <- Zle_Qle in HMq. lia. }
  assert (Hy : y == T * u).
  { rewrite HT. rewrite <- Qmult_assoc, (Qmult_comm m u), Hu. ring. }
  split.
  - split; [apply Qmult_le_0_compat; lra |].
    rewrite <- Hu. fold u m. rewrite (Qmult_comm u m).
    apply Qmult_le_compat_r; lra.
  - assert (Hd : a * u - y == (a - T) * u) by (rewrite Hy; ring).
    rewrite Hd. split.
    + assert (H1 : - (1 # 2) * u <= (a - T) * u) by (apply Qmult_le_compat_r; lra).
      lra.
    + assert (H1 : (a - T) * u <= (1 # 2) * u) by (apply Qmult_le_compat_r; lra).
      lra.
Qed.

End SingleFacts.

Section SingleWeights.
Import ImportMdl Single.

Local Open Scope Q_scope.

Ltac inv_bind H x Hx := apply mbind_ok in H as (x & Hx & H).

Lemma balance_at_unit width x b : balance_at width x = Some b -> 0 <= b <= 1.
Proof.
  unfold balance_at. destruct (Qeq_bool width 0).
  - destruct (Qeq_bool x 0); [discriminate |].
    intros [= <-]. destruct (Qlt_bool 0 x); lra.
  - intros [= <-]. apply clip_unit.
Qed.

Lemma balance_at_nan width x :
  balance_at width x = None <-> width == 0 /\ x == 0.
Proof.
  unfold balance_at. split.
  - destruct (Qeq_bool width 0) eqn:Ew; [| discriminate].
    destruct (Qeq_bool x 0) eqn:Ex; [| discriminate].
    intros _. split; by apply Qeq_bool_iff.
  - intros [Hw Hx]. apply Qeq_bool_iff in Hw, Hx. by rewrite Hw, Hx.
Qed.

Lemma complement_near b :
  0 <= b <= 1 ->
  0 <= fsub binary32 1 b <= 1 /\
  - (1 # 33554432) <= b + fsub binary32 1 b - 1 <= 1 # 33554432 /\
  (b == 0 \/ b == 1 -> b + fsub binary32 1 b == 1).
Proof.
  intros Hb. unfold fsub.
  destruct (round_unit (1 - b)) as [Hunit Hnear]; [lra |].
  split; [done |]. split; [lra |].
  intros [H0 | H1].
  - rewrite (round_one (1 - b)) by lra. lra.
  - rewrite (round_zero (1 - b)) by lra. lra.
Qed.

(** C3 (amended).  The weights of lines 231-238 in single precision.
    There is one primary and one partner weight per vertex.  The weight of
    a vertex is NaN exactly when the width is zero and the vertex has X
    coordinate 0, and then its partner weight is NaN too.  Otherwise both
    weights lie between 0 and 1, the partner weight being 1 minus the
    primary weight rounded to single precision: their sum differs from 1
    by at most 2^-25, and is exactly 1 wherever the primary weight is 0
    or 1. *)
Theorem partner_weight_is_rounded_complement
    (model_vertices : list Vector3) (bal : list (option Q)) :
  balance model_vertices = Ok bal ->
  exists width,
    balance_width model_vertices = Ok width /\
    length bal = length model_vertices /\
    length (p_balance bal) = length model_vertices /\
    (forall i v, model_vertices !! i = Some v ->
                 (bal !! i = Some None <-> width == 0 /\ vx v == 0)) /\
    Forall2 (fun b pb =>
               match b, pb with
               | Some b, Some pb =>
                   0 <= b <= 1 /\ 0 <= pb <= 1 /\
                   - (1 # 33554432) <= b + pb - 1 <= 1 # 33554432 /\
                   (b == 0 \/ b == 1 -> b + pb == 1)
               | None, None => True
               | _, _ => False
               end)
            bal (p_balance bal).
Proof.
  unfold balance. intros Hb. inv_bind Hb width Hw. injection Hb as <-.
  exists width. split; [done |]. split; [by rewrite length_map |].
  split; [unfold p_balance; by rewrite !length_map |]. split.
  - intros i v Hv. rewrite list_lookup_fmap, Hv. cbn [fmap option_fmap option_map].
    rewrite <- balance_at_nan. split; [by intros [= ->] | by intros ->].
  - unfold p_balance. clear Hw.
    induction model_vertices as [| v vs IH]; cbn [map]; constructor; [| exact IH].
    destruct (balance_at width (vx v)) as [b |] eqn:Eb; [| done].
    pose proof (balance_at_unit _ _ _ Eb) as Hunit.
    destruct (complement_near b Hunit) as (Hp & Hnear & Hexact). done.
Qed.

End SingleWeights.

Section SingleRuns.
Import ImportMdl Single.

Local Open Scope Q_scope.

(** At X = 0.01 of the sample row the primary weight is 4793491/2^25,
    and 1 minus it is not a single: the stored pair sums to 1 - 2^-25. *)
Lemma stored_weights_miss_one :
  exists bal b pb,
    balance single_row = Ok bal /\
    bal !! 2%nat = Some (Some b) /\
    p_balance bal !! 2%nat = Some (Some pb) /\
    b == 4793491 # 33554432 /\
    pb == 7190235 # 8388608 /\
    b + pb == 33554431 # 33554432 /\
    ~ b + pb == 1.
Proof.
  eexists _, _, _. split; [vm_compute; reflexivity |].
  split; [reflexivity |]. split; [vm_compute; reflexivity |].
  split; [vm_compute; reflexivity |]. split; [vm_compute; reflexivity |].
  split; [vm_compute; reflexivity |]. vm_compute. discriminate.
Qed.

Example weights_at_the_origin_are_nan :
  balance [ {| vx := 0; vy := 0; vz := 0 |}; {| vx := 0; vy := 0; vz := 0 |} ]
  = Ok [None; None].
Proof. vm_compute. reflexivity. Qed.

Lemma partner_weight_is_rounded_complement_witness :
  exists bal,
    balance single_row = Ok bal /\
    length bal = 3%nat /\
    forall b pb, bal !! 2%nat = Some (Some b) -> p_balance bal !! 2%nat = Some (Some pb) ->
                 - (1 # 33554432) <= b + pb - 1 <= 1 # 33554432.
Proof.
  destruct (balance single_row) as [bal | err] eqn:Hrun;
    [| vm_compute in Hrun; discriminate Hrun].
  exists bal. split; [reflexivity |].
  destruct (partner_weight_is_rounded_complement single_row bal Hrun)
    as (width & _ & Hlen & _ & _ & Hall).
  split; [exact Hlen |]. intros b pb Hb Hpb.
  destruct (Forall2_lookup_lr _ _ _ _ _ _ Hall Hb Hpb) as (_ & _ & Hnear & _).
  exact Hnear.
Defined.

End SingleRuns.
